(** * Aegis AI engine: the detection pipeline

    A shallow embedding of the Python services under
    [ai-engine/app/services] (preprocessing, anomaly detector, failure
    detector, model service) and the properties of the design
    specification checked against it.

    Conventions of the embedding:
    - a Python/NumPy [float] is an IEEE 754 binary64 value, taken from the
      Standard Library's executable specification [SpecFloat] (NaN and
      the infinities included, round to nearest even);
    - a Python function that can raise returns in the error monad [exc];
      [try: ... except Exception as e: ...] is [try_except];
    - objects mutated by a method ([AnomalyDetector.train]) are passed
      and returned explicitly;
    - calls into scikit-learn and the NumPy reductions are parameters of
      the sections that use them: the theorems hold for every behaviour
      of those libraries, raising included. *)

From Stdlib Require Import ZArith List String Ascii Bool Lia SpecFloat.
From stdpp Require Import base option gmap strings list pretty sorting.

Local Open Scope string_scope.
Local Open Scope list_scope.
Local Open Scope Z_scope.

(** ** Exceptions *)

Module Py.

(** The outcome of a Python call: a value, or an exception (an
    instance of [Exception]) carrying [str(e)]. The texts of the
    messages are indicative; nothing below depends on them. *)
Inductive exc (A : Type) : Type :=
| Ok (a : A)
| Raise (e : string).
Arguments Ok {A} a.
Arguments Raise {A} e.

#[global] Instance exc_ret : MRet exc := fun A a => Ok a.

#[global] Instance exc_bind : MBind exc := fun A B k m =>
  match m with
  | Ok a => k a
  | Raise e => Raise e
  end.

(** [try: body  except Exception as e: handler e] *)
Definition try_except {A} (body : exc A) (handler : string -> exc A) : exc A :=
  match body with
  | Ok a => Ok a
  | Raise e => handler e
  end.

End Py.
Export Py.

(** ** binary64 *)

Module F64.

Definition prec : Z := 53.
Definition emax : Z := 1024.

Abbreviation float := spec_float.

Definition nan : float := S754_nan.

(** [float(z)] for a Python int. *)
Definition of_Z (z : Z) : float := binary_normalize prec emax z 0 false.
Definition of_nat (n : nat) : float := of_Z (Z.of_nat n).

Definition add : float -> float -> float := SFadd prec emax.
Definition sub : float -> float -> float := SFsub prec emax.
Definition mul : float -> float -> float := SFmul prec emax.
Definition div : float -> float -> float := SFdiv prec emax.
Definition opp : float -> float := SFopp.
Definition abs : float -> float := SFabs.

(** The decimal literal [k / 10^n] (as in [0.9 = dec 9 1]): both [k] and
    [10^n] are exact in binary64 for the literals of the program, so the
    correctly rounded quotient is the double the literal denotes. *)
Definition dec (k : Z) (n : nat) : float :=
  div (of_Z k) (of_Z (10 ^ Z.of_nat n)).

(** Comparisons as Python evaluates them on floats: every comparison
    with a NaN is [False]. *)
Definition ltb (x y : float) : bool := SFltb x y.
Definition leb (x y : float) : bool := SFleb x y.
Definition gtb (x y : float) : bool := SFltb y x.
Definition geb (x y : float) : bool := SFleb y x.

Definition is_nan (x : float) : bool :=
  match x with S754_nan => true | _ => false end.

(** The builtins [max(a, b)] and [min(a, b)]: the first argument is
    kept unless the second compares strictly better. *)
Definition py_max (a b : float) : float := if gtb b a then b else a.
Definition py_min (a b : float) : float := if ltb b a then b else a.

(** The place of a float that is not a NaN on the line: sign class
    first, then exponent, then mantissa (both reversed below zero).
    [SFcompare] is the lexicographic comparison of these places. *)
Definition rank (x : float) : Z * Z * Z :=
  match x with
  | S754_nan => (0, 0, 0)
  | S754_zero _ => (0, 0, 0)
  | S754_infinity true => (-2, 0, 0)
  | S754_infinity false => (2, 0, 0)
  | S754_finite true m e => (-1, - e, - Z.pos m)
  | S754_finite false m e => (1, e, Z.pos m)
  end.

Definition lex_compare (a b : Z * Z * Z) : comparison :=
  match fst (fst a) ?= fst (fst b) with
  | Eq => match snd (fst a) ?= snd (fst b) with
          | Eq => snd a ?= snd b
          | c => c
          end
  | c => c
  end.

(** [min(1.0, max(0.0, x))] *)
Definition clamp01 (x : float) : float :=
  py_min (of_Z 1) (py_max (of_Z 0) x).

(** [np.nan_to_num(x, nan=0.0, posinf=1e10, neginf=-1e10)] on one
    element. *)
Definition nan_to_num (x : float) : float :=
  match x with
  | S754_nan => of_Z 0
  | S754_infinity false => of_Z (10 ^ 10)
  | S754_infinity true => opp (of_Z (10 ^ 10))
  | _ => x
  end.

End F64.

Abbreviation float := F64.float.

#[global] Arguments F64.of_Z : simpl never.
#[global] Arguments F64.of_nat : simpl never.
#[global] Arguments F64.dec : simpl never.
#[global] Arguments F64.add : simpl never.
#[global] Arguments F64.sub : simpl never.
#[global] Arguments F64.mul : simpl never.
#[global] Arguments F64.div : simpl never.
#[global] Arguments F64.ltb : simpl never.
#[global] Arguments F64.leb : simpl never.
#[global] Arguments F64.gtb : simpl never.
#[global] Arguments F64.geb : simpl never.
#[global] Arguments F64.clamp01 : simpl never.

(** ** Strings *)

Module Str.

Definition lower_ascii (c : ascii) : ascii :=
  let n := nat_of_ascii c in
  if ((65 <=? n)%nat && (n <=? 90)%nat)%bool then ascii_of_nat (n + 32) else c.

(** [s.lower()] on ASCII text. *)
Fixpoint lower (s : string) : string :=
  match s with
  | EmptyString => EmptyString
  | String c s' => String (lower_ascii c) (lower s')
  end.

(** [needle in hay] *)
Fixpoint contains (needle hay : string) : bool :=
  String.prefix needle hay ||
  match hay with
  | EmptyString => false
  | String _ hay' => contains needle hay'
  end.

(** Number of positions of [hay] at which [needle] starts. *)
Fixpoint occurrences (needle hay : string) : nat :=
  match hay with
  | EmptyString => 0%nat
  | String _ hay' =>
      ((if String.prefix needle hay then 1 else 0) + occurrences needle hay')%nat
  end.

(** Insertion into a list kept in ascending order; equal keys stay in
    arrival order, as in Python's stable [sorted]. *)
Fixpoint insert_sorted {A} (le : A -> A -> bool) (x : A) (l : list A) : list A :=
  match l with
  | [] => [x]
  | y :: l' => if le y x then y :: insert_sorted le x l' else x :: l
  end.

Definition sorted_by {A} (le : A -> A -> bool) (l : list A) : list A :=
  fold_left (fun acc x => insert_sorted le x acc) l [].

(** [sorted(names)] for a list of [str]. *)
Definition sorted (l : list string) : list string := sorted_by String.leb l.

End Str.

(** ** Schemas ([app/schemas/inference.py]) *)

Inductive MetricType : Type :=
| CPU_USAGE | MEMORY_USAGE | REQUEST_RATE | ERROR_RATE | RESPONSE_TIME | DISK_IO.

(** [MetricType.value] *)
Definition metric_type_value (t : MetricType) : string :=
  match t with
  | CPU_USAGE => "cpu_usage"
  | MEMORY_USAGE => "memory_usage"
  | REQUEST_RATE => "request_rate"
  | ERROR_RATE => "error_rate"
  | RESPONSE_TIME => "response_time"
  | DISK_IO => "disk_io"
  end.

Inductive RemediationAction : Type :=
| SCALE_UP | SCALE_DOWN | RESTART_POD | THROTTLE_API | CLEAR_CACHE
| NO_ACTION | ALERT_ADMIN.

Inductive SeverityLevel : Type :=
| LOW | MEDIUM | HIGH | CRITICAL.

#[global] Instance RemediationAction_eq_dec : EqDecision RemediationAction.
Proof. solve_decision. Defined.

#[global] Instance SeverityLevel_eq_dec : EqDecision SeverityLevel.
Proof. solve_decision. Defined.

(** Instants ([datetime], naive UTC) are counted in microseconds. *)
Abbreviation datetime := Z (only parsing).

Record MetricData : Type := {
  metric_type : MetricType;
  value : float;
  timestamp : datetime;
  labels : gmap string string;
}.

Record LogData : Type := {
  log_timestamp : datetime;
  level : string;
  message : string;
  service : string;
}.

(** The values stored in a [details] dictionary. *)
Inductive pyval : Type :=
| PyFloat (f : float)
| PyBool (b : bool)
| PyStr (s : string)
| PyStrList (l : list string)
| PyFloatDict (d : list (string * float)).

(** ** Python dictionaries that are read back in order

    Keys stay in the order of their first insertion; writing an
    existing key replaces its value in place. *)

Module Dict.

Section Dict.
Context {V : Type}.

Definition t : Type := list (string * V).

Fixpoint set (k : string) (v : V) (d : t) : t :=
  match d with
  | [] => [(k, v)]
  | (k', v') :: d' =>
      if String.eqb k' k then (k', v) :: d' else (k', v') :: set k v d'
  end.

Fixpoint get (k : string) (d : t) : option V :=
  match d with
  | [] => None
  | (k', v') :: d' => if String.eqb k' k then Some v' else get k d'
  end.

(** [d.get(k, default)] *)
Definition get_default (k : string) (default : V) (d : t) : V :=
  match get k d with Some v => v | None => default end.

(** [k in d] *)
Definition mem (k : string) (d : t) : bool :=
  match get k d with Some _ => true | None => false end.

(** [d.keys()] *)
Definition keys (d : t) : list string := map fst d.

(** [dict(pairs)] *)
Definition of_pairs (l : list (string * V)) : t :=
  fold_left (fun d kv => set (fst kv) (snd kv) d) l [].

End Dict.
Arguments t : clear implicits.

End Dict.

(** [zip(a, b)] stops at the shorter argument. *)
Fixpoint zip {A B} (a : list A) (b : list B) : list (A * B) :=
  match a, b with
  | x :: a', y :: b' => (x, y) :: zip a' b'
  | _, _ => []
  end.

(** ** NumPy arrays

    The arrays of the pipeline are one-dimensional ([np.array([])], the
    empty feature vector) or two-dimensional (one feature row per
    sample). A two-dimensional array is the list of its rows, all of
    one length. *)

Inductive ndarray : Type :=
| Arr1 (xs : list float)
| Arr2 (rows : list (list float)).

Module Np.

(** [X.size] *)
Definition size (X : ndarray) : nat :=
  match X with
  | Arr1 xs => length xs
  | Arr2 rows => length (concat rows)
  end.

(** [X.shape[0]] *)
Definition shape0 (X : ndarray) : nat :=
  match X with
  | Arr1 xs => length xs
  | Arr2 rows => length rows
  end.

(** [X.shape[1]]: a one-dimensional array has no second axis. *)
Definition shape1 (X : ndarray) : exc nat :=
  match X with
  | Arr1 _ => Raise "tuple index out of range"
  | Arr2 [] => Ok 0%nat
  | Arr2 (r :: _) => Ok (length r)
  end.

(** [X[0]] where an iterable is expected ([zip(names, X[0])]): the
    first row of a two-dimensional array; the first element of a
    one-dimensional array is a scalar and cannot be iterated. *)
Definition row0 (X : ndarray) : exc (list float) :=
  match X with
  | Arr2 (r :: _) => Ok r
  | Arr2 [] => Raise "index 0 is out of bounds for axis 0 with size 0"
  | Arr1 (_ :: _) => Raise "'numpy.float64' object is not iterable"
  | Arr1 [] => Raise "index 0 is out of bounds for axis 0 with size 0"
  end.

(** [arr.reshape(1, -1)] of a one-dimensional array. *)
Definition reshape_row (xs : list float) : ndarray := Arr2 [xs].

(** [np.concatenate([A, B], axis=1)] *)
Definition concatenate_axis1 (A B : ndarray) : exc ndarray :=
  match A, B with
  | Arr2 ra, Arr2 rb =>
      if (length ra =? length rb)%nat
      then Ok (Arr2 (map (fun p => fst p ++ snd p) (zip ra rb)))
      else Raise "all the input array dimensions except for the concatenation axis must match exactly"
  | _, _ => Raise "axis 1 is out of bounds for array of dimension 1"
  end.

(** [np.nan_to_num(arr, nan=0.0, posinf=1e10, neginf=-1e10)] *)
Definition nan_to_num (xs : list float) : list float := map F64.nan_to_num xs.

End Np.

(** [seq[0]] *)
Definition index0 {A} (l : list A) : exc A :=
  match l with
  | x :: _ => Ok x
  | [] => Raise "index 0 is out of bounds for axis 0 with size 0"
  end.

(** [not names] for an optional list: [None] and [[]] are falsy. *)
Definition falsy {A} (names : option (list A)) : bool :=
  match names with
  | None | Some [] => true
  | Some (_ :: _) => false
  end.

Definition names_or_empty {A} (names : option (list A)) : list A :=
  match names with Some l => l | None => [] end.

(** ** The libraries behind the services

    The fitted estimators of scikit-learn and the reductions of NumPy
    are not part of the repository. Each estimator is an abstract state
    with the calls the services make on it; every call may raise. *)

Class IsolationForest (F : Type) : Type := {
  (** [IsolationForest(contamination=c, random_state=42, n_estimators=100)] *)
  iforest_init : float -> F;
  iforest_fit : F -> ndarray -> exc F;
  iforest_predict : F -> ndarray -> exc (list Z);
  iforest_score_samples : F -> ndarray -> exc (list float);
}.

Class EllipticEnvelope (E : Type) : Type := {
  envelope_init : float -> E;
  envelope_fit : E -> ndarray -> exc E;
}.

Class RandomForestClassifier (C : Type) : Type := {
  rfc_init : C;
  rfc_fit : C -> ndarray -> list Z -> exc C;
  rfc_predict_proba : C -> ndarray -> exc (list (list float));
  rfc_predict : C -> ndarray -> exc (list Z);
  rfc_feature_importances : C -> exc (list float);
}.

Class Numpy : Type := {
  np_mean : list float -> float;
  np_std : list float -> float;
  np_min : list float -> float;
  np_max : list float -> float;
  np_median : list float -> float;
  (** [np.polyfit(np.arange(len(values)), values, 1)[0]] *)
  np_polyfit_slope : list float -> exc float;
}.

(** ** [app/services/anomaly_detector.py] *)

Module AnomalyDetector.

Section AnomalyDetector.
Context {F E : Type} `{!IsolationForest F, !EllipticEnvelope E, !Numpy}.

Record t : Type := {
  contamination : float;
  isolation_forest : F;
  elliptic_envelope : E;
  is_trained : bool;
}.

(** [AnomalyDetector(contamination)] *)
Definition init (contamination : float) : t := {|
  contamination := contamination;
  isolation_forest := iforest_init contamination;
  elliptic_envelope := envelope_init contamination;
  is_trained := false;
|}.

(** The body of the [try] of [train], on the estimators it updates:
    an estimator whose [fit] raises is left as it was, and the forest
    keeps its fit when the envelope raises after it. *)
Definition train_fit (d : t) (X : ndarray) : t :=
  match iforest_fit (isolation_forest d) X with
  | Raise _ => d
  | Ok forest =>
      let d1 := {| contamination := contamination d;
                   isolation_forest := forest;
                   elliptic_envelope := elliptic_envelope d;
                   is_trained := is_trained d |} in
      match
        n1 ← Np.shape1 X;
        if (n1 + 1 <=? Np.shape0 X)%nat
        then envelope_fit (elliptic_envelope d) X
        else Ok (elliptic_envelope d)
      with
      | Raise _ => d1
      | Ok envelope =>
          {| contamination := contamination d;
             isolation_forest := forest;
             elliptic_envelope := envelope;
             is_trained := true |}
      end
  end.

Definition train (d : t) (X : ndarray) : exc t :=
  if (Np.shape0 X <? 10)%nat then Ok d
  else Ok (train_fit d X).

Definition _normalize_score (score : float) : float :=
  F64.py_min (F64.of_Z 1) (F64.py_max (F64.of_Z 0) (F64.mul (F64.opp score) (F64.of_Z 2))).

Definition _determine_severity (anomaly_score : float) : SeverityLevel :=
  if F64.geb anomaly_score (F64.dec 9 1) then CRITICAL
  else if F64.geb anomaly_score (F64.dec 7 1) then HIGH
  else if F64.geb anomaly_score (F64.dec 5 1) then MEDIUM
  else LOW.

(** [[k for k in feature_dict.keys() if word in k.lower()]] *)
Definition features_named (word : string) (feature_dict : Dict.t float) : list string :=
  List.filter (fun k => Str.contains word (Str.lower k)) (Dict.keys feature_dict).

(** [[feature_dict[k] for k in ks]] *)
Definition items_of (feature_dict : Dict.t float) (ks : list string) : list float :=
  map (fun k => Dict.get_default k (F64.of_Z 0) feature_dict) ks.

Definition nonempty {A} (l : list A) : bool :=
  match l with [] => false | _ :: _ => true end.

Definition _recommend_action (anomaly_score : float) (X : ndarray)
    (feature_names : option (list string)) : exc RemediationAction :=
  if F64.ltb anomaly_score (F64.dec 5 1) then Ok NO_ACTION
  else if falsy feature_names || (Np.size X =? 0)%nat then Ok ALERT_ADMIN
  else
    row ← Np.row0 X;
    let feature_dict := Dict.of_pairs (zip (names_or_empty feature_names) row) in
    let cpu_features := features_named "cpu" feature_dict in
    let memory_features := features_named "memory" feature_dict in
    let avg_cpu :=
      if nonempty cpu_features then np_mean (items_of feature_dict cpu_features)
      else F64.of_Z 0 in
    let avg_memory :=
      if nonempty memory_features then np_mean (items_of feature_dict memory_features)
      else F64.of_Z 0 in
    if (nonempty cpu_features || nonempty memory_features)
       && (F64.gtb avg_cpu (F64.of_Z 80) || F64.gtb avg_memory (F64.of_Z 80))
    then Ok SCALE_UP
    else
      let error_features := features_named "error" feature_dict in
      if nonempty error_features
         && F64.gtb (np_mean (items_of feature_dict error_features)) (F64.of_Z 10)
      then Ok RESTART_POD
      else
        let request_features := features_named "request" feature_dict in
        if nonempty request_features
           && F64.gtb (np_mean (items_of feature_dict request_features)) (F64.of_Z 1000)
        then Ok THROTTLE_API
        else if F64.geb anomaly_score (F64.dec 8 1) then Ok ALERT_ADMIN
        else Ok NO_ACTION.

(** [sorted(items, key=lambda x: abs(x[1]), reverse=True)]: descending
    by absolute value, equal keys in their original order. *)
Definition sort_by_abs_desc (items : list (string * float)) : list (string * float) :=
  Str.sorted_by
    (fun a b => negb (F64.ltb (F64.abs (snd a)) (F64.abs (snd b)))) items.

Definition _get_affected_features (X : ndarray)
    (feature_names : option (list string)) : exc (list string) :=
  if falsy feature_names || (Np.size X =? 0)%nat then Ok []
  else
    row ← Np.row0 X;
    let feature_dict := Dict.of_pairs (zip (names_or_empty feature_names) row) in
    Ok (map fst (take 5 (sort_by_abs_desc feature_dict))).

(** [(is_anomaly, anomaly_score, severity, action, details)] *)
Definition prediction : Type :=
  bool * float * SeverityLevel * RemediationAction * Dict.t pyval.

Definition default_prediction (details : Dict.t pyval) : prediction :=
  (false, F64.of_Z 0, LOW, NO_ACTION, details).

(** The body of the [try] of [predict]. *)
Definition predict_body (d : t) (X : ndarray)
    (feature_names : option (list string)) : exc prediction :=
  labels ← iforest_predict (isolation_forest d) X;
  iso_prediction ← index0 labels;
  scores ← iforest_score_samples (isolation_forest d) X;
  iso_score ← index0 scores;
  let is_anomaly_iso := (iso_prediction =? -1) in
  let anomaly_score := _normalize_score (F64.opp iso_score) in
  let severity := _determine_severity anomaly_score in
  action ← _recommend_action anomaly_score X feature_names;
  affected_features ← _get_affected_features X feature_names;
  let details :=
    [("anomaly_score", PyFloat anomaly_score);
     ("affected_features", PyStrList affected_features);
     ("model_confidence",
       PyFloat (F64.sub (F64.of_Z 1) (F64.div (F64.abs iso_score) (F64.of_Z 10))));
     ("threshold_used", PyFloat (contamination d))] in
  Ok (is_anomaly_iso, anomaly_score, severity, action, details).

Definition predict (d : t) (X : ndarray)
    (feature_names : option (list string)) : exc prediction :=
  if negb (is_trained d) then Ok (default_prediction [])
  else
    try_except (predict_body d X feature_names)
      (fun e => Ok (default_prediction [("error", PyStr e)])).

End AnomalyDetector.

Arguments t : clear implicits.

End AnomalyDetector.

(** ** Format specifications *)

Module Fmt.

(** [n / d] rounded to the nearest integer, ties to even ([0 < d]). *)
Definition div_half_even (n d : Z) : Z :=
  let q := n / d in
  match (2 * (n mod d) ?= d) with
  | Lt => q
  | Gt => q + 1
  | Eq => if Z.even q then q else q + 1
  end.

(** [m * 2^e * 100] rounded to an integer: the hundredths of the
    magnitude of a finite double. *)
Definition hundredths (m : positive) (e : Z) : Z :=
  if 0 <=? e then Z.pos m * 2 ^ e * 100
  else div_half_even (Z.pos m * 100) (2 ^ (- e)).

Definition two_digits (n : Z) : string :=
  if n <? 10 then "0" +:+ pretty n else pretty n.

(** [format(x, ".2f")] *)
Definition fixed2 (x : float) : string :=
  match x with
  | S754_nan => "nan"
  | S754_infinity s => (if s then "-" else "") +:+ "inf"
  | S754_zero s => (if s then "-" else "") +:+ "0.00"
  | S754_finite s m e =>
      let n := hundredths m e in
      (if s then "-" else "") +:+ pretty (n / 100) +:+ "." +:+ two_digits (n mod 100)
  end.

(** [format(x, ".2%")]: the value times 100, in fixed notation with two
    decimals, then a percent sign. *)
Definition percent2 (x : float) : string :=
  fixed2 (F64.mul x (F64.of_Z 100)) +:+ "%".

(** [sep.join(parts)] *)
Fixpoint join (sep : string) (parts : list string) : string :=
  match parts with
  | [] => ""
  | [p] => p
  | p :: rest => p +:+ sep +:+ join sep rest
  end.

End Fmt.

(** ** [app/services/failure_detector.py] *)

Module FailureDetector.

Section FailureDetector.
Context {C : Type} `{!RandomForestClassifier C, !Numpy}.

Record t : Type := {
  classifier : C;
  is_trained : bool;
  failure_types : list string;
}.

Definition init : t := {|
  classifier := rfc_init;
  is_trained := false;
  failure_types := ["service_down"; "high_latency"; "memory_leak"; "connection_timeout"];
|}.

Definition train (d : t) (X : ndarray) (y : list Z) : exc t :=
  if (Np.shape0 X <? 10)%nat then Ok d
  else
    match rfc_fit (classifier d) X y with
    | Ok c => Ok {| classifier := c; is_trained := true; failure_types := failure_types d |}
    | Raise _ => Ok d
    end.

(** [(failure_detected, failure_type, severity, actions, confidence,
      root_cause, affected_services, details)] *)
Definition prediction : Type :=
  bool * option string * SeverityLevel * list RemediationAction * float
  * option string * list string * Dict.t pyval.

Definition no_failure (details : Dict.t pyval) : prediction :=
  (false, None, LOW, [NO_ACTION], F64.of_Z 0, None, [], details).

Definition _heuristic_detection (X : ndarray)
    (feature_names : option (list string)) : exc prediction :=
  if (Np.size X =? 0)%nat || falsy feature_names then Ok (no_failure [])
  else
    row ← Np.row0 X;
    let feature_dict := Dict.of_pairs (zip (names_or_empty feature_names) row) in
    let error_rate := Dict.get_default "error_rate" (F64.of_Z 0) feature_dict in
    let error_count := Dict.get_default "error_count" (F64.of_Z 0) feature_dict in
    if F64.gtb error_rate (F64.dec 2 1) || F64.gtb error_count (F64.of_Z 50) then
      Ok (true, Some "high_error_rate", HIGH, [RESTART_POD; ALERT_ADMIN], F64.dec 8 1,
          Some ("High error rate detected: " +:+ Fmt.percent2 error_rate),
          ["api-service"],
          [("heuristic", PyBool true); ("error_rate", PyFloat error_rate)])
    else if Dict.mem "keyword_connection" feature_dict
            && F64.gtb (Dict.get_default "keyword_connection" (F64.of_Z 0) feature_dict)
                 (F64.of_Z 10) then
      Ok (true, Some "connection_timeout", MEDIUM, [RESTART_POD], F64.dec 7 1,
          Some "Multiple connection timeout errors detected",
          ["database"; "api-service"],
          [("heuristic", PyBool true)])
    else Ok (no_failure []).

Definition _identify_failure_type (X : ndarray)
    (feature_names : option (list string)) : exc string :=
  if falsy feature_names || (Np.size X =? 0)%nat then Ok "unknown"
  else
    row ← Np.row0 X;
    let feature_dict := Dict.of_pairs (zip (names_or_empty feature_names) row) in
    if F64.gtb (Dict.get_default "error_rate" (F64.of_Z 0) feature_dict) (F64.dec 3 1)
    then Ok "service_down"
    else if F64.gtb (Dict.get_default "keyword_timeout" (F64.of_Z 0) feature_dict) (F64.of_Z 5)
    then Ok "connection_timeout"
    else if F64.gtb (Dict.get_default "keyword_exception" (F64.of_Z 0) feature_dict) (F64.of_Z 10)
    then Ok "unhandled_exception"
    else Ok "unknown".

Definition _determine_failure_severity (confidence : float) (X : ndarray)
    (feature_names : option (list string)) : SeverityLevel :=
  if F64.geb confidence (F64.dec 9 1) then CRITICAL
  else if F64.geb confidence (F64.dec 7 1) then HIGH
  else if F64.geb confidence (F64.dec 5 1) then MEDIUM
  else LOW.

Definition actions_map : Dict.t (list RemediationAction) :=
  [("service_down", [RESTART_POD; ALERT_ADMIN]);
   ("high_latency", [SCALE_UP; THROTTLE_API]);
   ("memory_leak", [RESTART_POD; ALERT_ADMIN]);
   ("connection_timeout", [RESTART_POD; SCALE_UP]);
   ("unknown", [ALERT_ADMIN])].

Definition _recommend_remediation_actions (failure_type : string)
    (severity : SeverityLevel) : list RemediationAction :=
  let actions := Dict.get_default failure_type [ALERT_ADMIN] actions_map in
  if bool_decide (severity ∈ [HIGH; CRITICAL])
     && negb (bool_decide (ALERT_ADMIN ∈ actions))
  then actions ++ [ALERT_ADMIN]
  else actions.

Definition _analyze_root_cause (X : ndarray)
    (feature_names : option (list string)) : exc string :=
  if falsy feature_names || (Np.size X =? 0)%nat then Ok "Unable to determine root cause"
  else
    row ← Np.row0 X;
    let feature_dict := Dict.of_pairs (zip (names_or_empty feature_names) row) in
    let error_rate := Dict.get_default "error_rate" (F64.of_Z 0) feature_dict in
    let causes :=
      (if F64.gtb error_rate (F64.dec 2 1)
       then ["High error rate (" +:+ Fmt.percent2 error_rate +:+ ")"] else [])
      ++ (if F64.gtb (Dict.get_default "keyword_timeout" (F64.of_Z 0) feature_dict) (F64.of_Z 5)
          then ["Multiple timeout errors"] else [])
      ++ (if F64.gtb (Dict.get_default "keyword_connection" (F64.of_Z 0) feature_dict) (F64.of_Z 5)
          then ["Connection failures"] else []) in
    if AnomalyDetector.nonempty causes then Ok (Fmt.join " and " causes)
    else Ok "Anomalous behavior detected".

Definition _identify_affected_services (X : ndarray)
    (feature_names : option (list string)) : list string :=
  ["api-service"; "worker-service"].

Definition _get_feature_importance (d : t)
    (feature_names : option (list string)) : Dict.t float :=
  if negb (is_trained d) || falsy feature_names then []
  else
    match rfc_feature_importances (classifier d) with
    | Ok importances => Dict.of_pairs (zip (names_or_empty feature_names) importances)
    | Raise _ => []
    end.

(** [proba[1]] inside [float(proba[1]) if len(proba) > 1 else confidence] *)
Definition prediction_probability (proba : list float) (confidence : float) : float :=
  match proba with
  | _ :: p1 :: _ => p1
  | _ => confidence
  end.

(** The body of the [try] of [predict]. *)
Definition predict_body (d : t) (X : ndarray)
    (feature_names : option (list string)) : exc prediction :=
  probas ← rfc_predict_proba (classifier d) X;
  proba ← index0 probas;
  predictions ← rfc_predict (classifier d) X;
  prediction ← index0 predictions;
  let confidence := np_max proba in
  let failure_detected := (prediction =? 1) in
  '(failure_type, severity, actions, root_cause, affected_services) ←
    (if failure_detected then
       failure_type ← _identify_failure_type X feature_names;
       let severity := _determine_failure_severity confidence X feature_names in
       let actions := _recommend_remediation_actions failure_type severity in
       root_cause ← _analyze_root_cause X feature_names;
       let affected_services := _identify_affected_services X feature_names in
       Ok (Some failure_type, severity, actions, Some root_cause, affected_services)
     else Ok (None, LOW, [NO_ACTION], None, []));
  let details :=
    [("confidence", PyFloat confidence);
     ("prediction_probability", PyFloat (prediction_probability proba confidence));
     ("feature_importance", PyFloatDict (_get_feature_importance d feature_names))] in
  Ok (failure_detected, failure_type, severity, actions, confidence, root_cause,
      affected_services, details).

Definition predict (d : t) (X : ndarray)
    (feature_names : option (list string)) : exc prediction :=
  if negb (is_trained d) then _heuristic_detection X feature_names
  else
    try_except (predict_body d X feature_names)
      (fun e => Ok (no_failure [("error", PyStr e)])).

End FailureDetector.

Arguments t : clear implicits.

End FailureDetector.

(** ** [app/services/preprocessing.py] *)

(** The system clock as one call sees it: the instant returned by
    [datetime.utcnow()], in microseconds. It is part of the environment
    of a call, not an argument the caller chooses. *)
Record Clock : Type := { utcnow : datetime }.

Module DataPreprocessor.

(** *** The intermediate table of [preprocess_metrics]

    [pd.DataFrame([{...} for m in metrics])]: one dictionary per
    sample. A cell holds an instant, a string or a float. *)

Inductive cell : Type :=
| CTime (t : datetime)
| CStr (s : string)
| CFloat (f : float).

(** [{'timestamp': m.timestamp, 'metric_type': m.metric_type.value,
      'value': m.value, **m.labels}]: the labels are written last, over
    the three fixed keys. *)
Definition record_of (m : MetricData) : gmap string cell :=
  (CStr <$> labels m) ∪
  <["value" := CFloat (value m)]>
    (<["metric_type" := CStr (metric_type_value (metric_type m))]>
      (<["timestamp" := CTime (timestamp m)]> ∅)).

Definition DataFrame : Type := list (gmap string cell).

(** [df[col]] of a column every record has. *)
Definition column (col : string) (df : DataFrame) : exc (list cell) :=
  mapM (fun r => match r !! col with
                 | Some c => Ok c
                 | None => Raise col
                 end) df.

(** The order used by [sort_values]: instants by time, strings
    lexicographically; a string and an instant do not compare. *)
Definition cell_le (a b : cell) : exc bool :=
  match a, b with
  | CTime x, CTime y => Ok (x <=? y)
  | CStr x, CStr y => Ok (String.leb x y)
  | CFloat x, CFloat y => Ok (F64.leb x y)
  | _, _ => Raise "'<' not supported between instances"
  end.

Fixpoint insert_by_timestamp (r : gmap string cell) (df : DataFrame) : exc DataFrame :=
  match df with
  | [] => Ok [r]
  | r' :: df' =>
      match r' !! "timestamp", r !! "timestamp" with
      | Some c', Some c =>
          b ← cell_le c' c;
          if (b : bool) then rest ← insert_by_timestamp r df'; Ok (r' :: rest)
          else Ok (r :: df)
      | _, _ => Raise "timestamp"
      end
  end.

(** [df.sort_values('timestamp')]; records with equal timestamps keep
    their order of arrival. *)
Definition sort_values_timestamp (df : DataFrame) : exc DataFrame :=
  foldl (fun acc r => sorted ← acc; insert_by_timestamp r sorted) (Ok []) df.

Fixpoint dedup_strings (seen : list string) (l : list string) : list string :=
  match l with
  | [] => []
  | x :: l' =>
      if existsb (String.eqb x) seen then dedup_strings seen l'
      else x :: dedup_strings (x :: seen) l'
  end.

(** [df['metric_type'].unique()]: the distinct values in order of first
    appearance. *)
Definition unique_metric_types (df : DataFrame) : exc (list string) :=
  cells ← column "metric_type" df;
  names ← mapM (fun c => match c with
                         | CStr s => Ok s
                         | _ => Raise "metric_type"
                         end) cells;
  Ok (dedup_strings [] names).

(** [df[df['metric_type'] == metric_type]] *)
Definition select_metric_type (metric_type : string) (df : DataFrame) : DataFrame :=
  List.filter (fun r => match r !! "metric_type" with
                        | Some (CStr s) => String.eqb s metric_type
                        | _ => false
                        end) df.

(** [metric_df['value'].values] as the floats the reductions work on:
    a string in the column makes every one of them raise. *)
Definition values_of (df : DataFrame) : exc (list float) :=
  cells ← column "value" df;
  mapM (fun c => match c with
                 | CFloat f => Ok f
                 | _ => Raise "unsupported operand type(s): 'str'"
                 end) cells.

Section DataPreprocessor.
Context `{!Numpy}.

(** The seven statistics of one metric type, in the order they are
    written to [features]. *)
Definition metric_features (metric_type : string) (values : list float)
    : exc (list (string * float)) :=
  let n := length values in
  let rate_of_change :=
    if (1 <? n)%nat
    then F64.div (F64.sub (List.last values (F64.of_Z 0)) (hd (F64.of_Z 0) values))
                 (F64.of_nat n)
    else F64.of_Z 0 in
  trend ← (if (2 <? n)%nat then np_polyfit_slope values else Ok (F64.of_Z 0));
  Ok [(metric_type +:+ "_mean", np_mean values);
      (metric_type +:+ "_std", np_std values);
      (metric_type +:+ "_min", np_min values);
      (metric_type +:+ "_max", np_max values);
      (metric_type +:+ "_median", np_median values);
      (metric_type +:+ "_rate_of_change", rate_of_change);
      (metric_type +:+ "_trend", trend)].

(** [sorted(features.keys())] and the array of their values, NaN and
    infinities replaced, as one row. *)
Definition to_row (features : Dict.t float) : ndarray * list string :=
  let feature_names := Str.sorted (Dict.keys features) in
  let feature_array :=
    map (fun name => Dict.get_default name (F64.of_Z 0) features) feature_names in
  (Np.reshape_row (Np.nan_to_num feature_array), feature_names).

Definition preprocess_metrics (metrics : list MetricData)
    : exc (ndarray * list string) :=
  match metrics with
  | [] => Ok (Arr1 [], [])
  | _ :: _ =>
      df ← sort_values_timestamp (map record_of metrics);
      metric_types ← unique_metric_types df;
      features ←
        foldl (fun acc metric_type =>
                 features ← acc;
                 values ← values_of (select_metric_type metric_type df);
                 stats ← metric_features metric_type values;
                 Ok (foldl (fun d kv => Dict.set (fst kv) (snd kv) d) features stats))
              (Ok []) metric_types;
      Ok (to_row features)
  end.

End DataPreprocessor.

(** *** [preprocess_logs] *)

Definition error_keywords : list string :=
  ["timeout"; "connection"; "failed"; "exception"; "error"; "crashed"].

(** [counts[key] = counts.get(key, 0) + 1] *)
Definition count_up (key : string) (counts : gmap string nat) : gmap string nat :=
  <[key := (default 0%nat (counts !! key) + 1)%nat]> counts.

(** [if keyword in message_lower: keyword_counts[keyword] += 1] *)
Definition count_keyword (message_lower : string) (counts : Dict.t nat)
    (keyword : string) : Dict.t nat :=
  if Str.contains keyword message_lower
  then Dict.set keyword (Dict.get_default keyword 0%nat counts + 1)%nat counts
  else counts.

(** The keyword loop over one log entry. *)
Definition scan_keywords (log : LogData) (keyword_counts : Dict.t nat) : Dict.t nat :=
  if String.eqb (Str.lower (level log)) "error" then
    foldl (count_keyword (Str.lower (message log))) keyword_counts error_keywords
  else keyword_counts.

(** [max(service_counts.values()) if service_counts else 0] *)
Definition max_count (counts : gmap string nat) : nat :=
  map_fold (fun _ n acc => Nat.max n acc) 0%nat counts.

(** The loops of [preprocess_logs] over the recent entries. *)
Definition count_levels (recent_logs : list LogData) : gmap string nat :=
  foldl (fun counts log => count_up (Str.lower (level log)) counts) ∅ recent_logs.

Definition count_services (recent_logs : list LogData) : gmap string nat :=
  foldl (fun counts log => count_up (service log) counts) ∅ recent_logs.

Definition count_keywords (recent_logs : list LogData) : Dict.t nat :=
  foldl (fun counts log => scan_keywords log counts)
        (Dict.of_pairs (map (fun kw => (kw, 0%nat)) error_keywords)) recent_logs.

(** The features of a non-empty list of recent entries. The counts are
    Python integers; [np.array] turns them into floats next to the
    error rate. *)
Definition log_features (recent_logs : list LogData) : Dict.t float :=
  let level_counts := count_levels recent_logs in
  let error_count := default 0%nat (level_counts !! "error") in
  let warn_count := default 0%nat (level_counts !! "warn") in
  let info_count := default 0%nat (level_counts !! "info") in
  let total_logs := length recent_logs in
  let error_rate :=
    if (0 <? total_logs)%nat then F64.div (F64.of_nat error_count) (F64.of_nat total_logs)
    else F64.of_Z 0 in
  let service_counts := count_services recent_logs in
  let keyword_counts := count_keywords recent_logs in
  let features :=
    [("error_count", F64.of_nat error_count);
     ("warn_count", F64.of_nat warn_count);
     ("info_count", F64.of_nat info_count);
     ("total_logs", F64.of_nat total_logs);
     ("error_rate", error_rate);
     ("unique_services", F64.of_nat (size service_counts));
     ("max_service_errors", F64.of_nat (max_count service_counts))] in
  foldl (fun d kv => Dict.set ("keyword_" +:+ fst kv) (F64.of_nat (snd kv)) d)
        features keyword_counts.

Definition timedelta_seconds (s : Z) : Z := s * 1000000.

Definition preprocess_logs (clock : Clock) (logs : list LogData) (window_size : Z)
    : ndarray * list string :=
  match logs with
  | [] => (Arr1 [], [])
  | _ :: _ =>
      let now := utcnow clock in
      let cutoff := now - timedelta_seconds window_size in
      let recent_logs := List.filter (fun log => cutoff <=? log_timestamp log) logs in
      match recent_logs with
      | [] => (Arr1 [], [])
      | _ :: _ => to_row (log_features recent_logs)
      end
  end.

Definition combine_features (metric_features log_features : ndarray) : exc ndarray :=
  if (Np.size metric_features =? 0)%nat && (Np.size log_features =? 0)%nat then Ok (Arr1 [])
  else if (Np.size metric_features =? 0)%nat then Ok log_features
  else if (Np.size log_features =? 0)%nat then Ok metric_features
  else Np.concatenate_axis1 metric_features log_features.

End DataPreprocessor.

(** ** [app/config.py] *)

Record Settings : Type := {
  anomaly_threshold : float;
  failure_detection_window : Z;
}.

Definition default_settings : Settings := {|
  anomaly_threshold := F64.dec 85 2;
  failure_detection_window := 300;
|}.

(** ** [app/services/model_service.py] *)

Record AnomalyDetectionResponse : Type := {
  is_anomaly : bool;
  anomaly_score : float;
  severity : SeverityLevel;
  recommended_action : RemediationAction;
  confidence : float;
  affected_metrics : gset string;
  details : Dict.t pyval;
}.

Record FailureDetectionResponse : Type := {
  failure_detected : bool;
  failure_type : option string;
  failure_severity : SeverityLevel;
  recommended_actions : list RemediationAction;
  failure_confidence : float;
  root_cause : option string;
  affected_services : list string;
  failure_details : Dict.t pyval;
}.

Module ModelService.

Section ModelService.
Context {F E C : Type}
  `{!IsolationForest F, !EllipticEnvelope E, !RandomForestClassifier C, !Numpy}.
Context (settings : Settings).

Record t : Type := {
  anomaly_detector : AnomalyDetector.t F E;
  failure_detector : FailureDetector.t C;
  models_loaded : bool;
}.

Definition init : t := {|
  anomaly_detector :=
    AnomalyDetector.init (F64.sub (F64.of_Z 1) (anomaly_threshold settings));
  failure_detector := FailureDetector.init;
  models_loaded := false;
|}.

(** [load_models], on the training matrix drawn by
    [np.random.randn(100, 10)]. *)
Definition load_models (svc : t) (X_train_anomaly : ndarray) : t :=
  match AnomalyDetector.train (anomaly_detector svc) X_train_anomaly with
  | Ok detector =>
      {| anomaly_detector := detector;
         failure_detector := failure_detector svc;
         models_loaded := true |}
  | Raise _ =>
      {| anomaly_detector := anomaly_detector svc;
         failure_detector := failure_detector svc;
         models_loaded := false |}
  end.

(** The response of the [except] branch and of the empty-input branch
    of [detect_anomaly]. *)
Definition anomaly_fallback (error : string) : AnomalyDetectionResponse := {|
  is_anomaly := false;
  anomaly_score := F64.of_Z 0;
  severity := LOW;
  recommended_action := NO_ACTION;
  confidence := F64.of_Z 0;
  affected_metrics := ∅;
  details := [("error", PyStr error)];
|}.

(** [details.get('model_confidence', 0.0)] *)
Definition model_confidence (details : Dict.t pyval) : float :=
  match Dict.get "model_confidence" details with
  | Some (PyFloat f) => f
  | _ => F64.of_Z 0
  end.

Definition detect_anomaly_body (svc : t) (metrics : list MetricData)
    : exc AnomalyDetectionResponse :=
  '(features, feature_names) ← DataPreprocessor.preprocess_metrics metrics;
  if (Np.size features =? 0)%nat then Ok (anomaly_fallback "No features extracted")
  else
    '(is_anomaly, score, severity, action, details) ←
      AnomalyDetector.predict (anomaly_detector svc) features (Some feature_names);
    let affected_metrics := map (fun m => metric_type_value (metric_type m)) metrics in
    Ok {| is_anomaly := is_anomaly;
          anomaly_score := score;
          severity := severity;
          recommended_action := action;
          confidence := model_confidence details;
          affected_metrics := list_to_set affected_metrics;
          details := details |}.

Definition detect_anomaly (svc : t) (metrics : list MetricData)
    : exc AnomalyDetectionResponse :=
  try_except (detect_anomaly_body svc metrics) (fun e => Ok (anomaly_fallback e)).

Definition failure_fallback (error : string) : FailureDetectionResponse := {|
  failure_detected := false;
  failure_type := None;
  failure_severity := LOW;
  recommended_actions := [NO_ACTION];
  failure_confidence := F64.of_Z 0;
  root_cause := None;
  affected_services := [];
  failure_details := [("error", PyStr error)];
|}.

Definition detect_failure_body (svc : t) (clock : Clock)
    (metrics : list MetricData) (logs : list LogData)
    : exc FailureDetectionResponse :=
  '(metric_features, metric_names) ← DataPreprocessor.preprocess_metrics metrics;
  let '(log_features, log_names) :=
    DataPreprocessor.preprocess_logs clock logs (failure_detection_window settings) in
  features ← DataPreprocessor.combine_features metric_features log_features;
  let feature_names := metric_names ++ log_names in
  if (Np.size features =? 0)%nat then Ok (failure_fallback "No features extracted")
  else
    '(failure_detected, failure_type, severity, actions, confidence, root_cause,
      affected_services, details) ←
      FailureDetector.predict (failure_detector svc) features (Some feature_names);
    Ok {| failure_detected := failure_detected;
          failure_type := failure_type;
          failure_severity := severity;
          recommended_actions := actions;
          failure_confidence := confidence;
          root_cause := root_cause;
          affected_services := affected_services;
          failure_details := details |}.

Definition detect_failure (svc : t) (clock : Clock)
    (metrics : list MetricData) (logs : list LogData)
    : exc FailureDetectionResponse :=
  try_except (detect_failure_body svc clock metrics logs)
    (fun e => Ok (failure_fallback e)).

End ModelService.

Arguments t : clear implicits.

End ModelService.

(** ** Stand-ins for the libraries, to run the services on examples

    The theorems below quantify over every implementation of the
    library interfaces. To evaluate the services on concrete inputs the
    interfaces are instantiated here: the reductions by their textbook
    definitions evaluated left to right in binary64 (what NumPy computes
    on the short lists of the examples), the estimators by stubs that
    answer what they are told to. *)

Module Ref.

Definition sum (l : list float) : float := fold_left F64.add l (F64.of_Z 0).

Definition mean (l : list float) : float := F64.div (sum l) (F64.of_nat (length l)).

Definition std (l : list float) : float :=
  let mu := mean l in
  SFsqrt F64.prec F64.emax
    (mean (map (fun x => F64.mul (F64.sub x mu) (F64.sub x mu)) l)).

(** A reduction by a comparison that lets NaN through. *)
Definition reduce (better : float -> float -> bool) (l : list float) : float :=
  match l with
  | [] => F64.nan
  | x :: l' =>
      fold_left (fun acc y =>
                   if F64.is_nan acc then acc
                   else if F64.is_nan y then y
                   else if better y acc then y else acc) l' x
  end.

Definition min (l : list float) : float := reduce F64.ltb l.
Definition max (l : list float) : float := reduce F64.gtb l.

Definition median (l : list float) : float :=
  let s := Str.sorted_by F64.leb l in
  let n := length s in
  if Nat.even n
  then mean [nth (n / 2 - 1) s F64.nan; nth (n / 2) s F64.nan]
  else nth (n / 2) s F64.nan.

(** The least-squares slope of the values against their indices. *)
Definition slope (l : list float) : exc float :=
  let xs := map F64.of_nat (seq 0 (length l)) in
  let mx := mean xs in
  let my := mean l in
  let sxy := sum (map (fun p => F64.mul (F64.sub (fst p) mx) (F64.sub (snd p) my)) (zip xs l)) in
  let sxx := sum (map (fun x => F64.mul (F64.sub x mx) (F64.sub x mx)) xs) in
  Ok (F64.div sxy sxx).

Definition numpy : Numpy := {|
  np_mean := mean;
  np_std := std;
  np_min := min;
  np_max := max;
  np_median := median;
  np_polyfit_slope := slope;
|}.

(** A fitted forest that answers [predict] and [score_samples] with a
    fixed outcome, whatever the input. *)
Record StubForest : Type := {
  stub_labels : exc (list Z);
  stub_scores : exc (list float);
}.

Definition forest : IsolationForest StubForest := {|
  iforest_init := fun _ => {| stub_labels := Raise "not fitted"; stub_scores := Raise "not fitted" |};
  iforest_fit := fun f _ => Ok f;
  iforest_predict := fun f _ => stub_labels f;
  iforest_score_samples := fun f _ => stub_scores f;
|}.

Definition envelope : EllipticEnvelope unit := {|
  envelope_init := fun _ => tt;
  envelope_fit := fun e _ => Ok e;
|}.

Record StubClassifier : Type := {
  stub_proba : exc (list (list float));
  stub_classes : exc (list Z);
  stub_importances : exc (list float);
}.

Definition classifier : RandomForestClassifier StubClassifier := {|
  rfc_init := {| stub_proba := Raise "not fitted"; stub_classes := Raise "not fitted";
                 stub_importances := Raise "not fitted" |};
  rfc_fit := fun c _ _ => Ok c;
  rfc_predict_proba := fun c _ => stub_proba c;
  rfc_predict := fun c _ => stub_classes c;
  rfc_feature_importances := fun c => stub_importances c;
|}.

(** A trained anomaly detector around a stub forest. *)
Definition detector (labels : exc (list Z)) (scores : exc (list float))
    : AnomalyDetector.t StubForest unit := {|
  AnomalyDetector.contamination := F64.dec 1 1;
  AnomalyDetector.isolation_forest := {| stub_labels := labels; stub_scores := scores |};
  AnomalyDetector.elliptic_envelope := tt;
  AnomalyDetector.is_trained := true;
|}.

End Ref.

(** ** The specification's formulas

    Definitions that follow the wording of the design specification,
    to be compared with the functions of the code above. *)

Module Spec.

(** §4.4: [anomaly_score = clamp(raw_negated_score * 2, 0, 1)], the
    negated score being the negation of the model's raw score. *)
Definition claimed_anomaly_score (raw_score : float) : float :=
  let raw_negated_score := F64.opp raw_score in
  F64.clamp01 (F64.mul raw_negated_score (F64.of_Z 2)).

(** The feature vector a row and its names stand for. *)
Definition feature_vector (names : option (list string)) (row : list float)
    : Dict.t float :=
  Dict.of_pairs (zip (names_or_empty names) row).

(** The values of the features whose name contains one of the words,
    case-insensitively. *)
Definition values_named (words : list string) (fv : Dict.t float) : list float :=
  map snd
    (List.filter
       (fun kv => existsb (fun w => Str.contains w (Str.lower (fst kv))) words) fv).

(** "Any feature name contains one of the words and the mean of those
    features' values exceeds the threshold." *)
Definition mean_exceeds `{!Numpy} (words : list string) (threshold : Z)
    (fv : Dict.t float) : bool :=
  match values_named words fv with
  | [] => false
  | vs => F64.gtb (np_mean vs) (F64.of_Z threshold)
  end.

(** §4.4, the five rules as they are worded: rule 1 takes one mean
    over the features named after cpu or memory, and a vector without
    names matches no rule before the fourth. *)
Definition claimed_action `{!Numpy} (score : float) (fv : Dict.t float)
    : RemediationAction :=
  if F64.geb score (F64.dec 5 1) then
    if mean_exceeds ["cpu"; "memory"] 80 fv then SCALE_UP
    else if mean_exceeds ["error"] 10 fv then RESTART_POD
    else if mean_exceeds ["request"] 1000 fv then THROTTLE_API
    else if F64.geb score (F64.dec 8 1) then ALERT_ADMIN
    else NO_ACTION
  else NO_ACTION.

(** The rules as the code applies them to a score of at least 0.5:
    without names or without values the answer is ALERT_ADMIN; rule 1
    takes the mean of the cpu features and the mean of the memory
    features separately. *)
Definition action_by_priority `{!Numpy} (score : float)
    (names : option (list string)) (row : list float) : RemediationAction :=
  if falsy names || (length row =? 0)%nat then ALERT_ADMIN
  else
    let fv := feature_vector names row in
    if mean_exceeds ["cpu"] 80 fv || mean_exceeds ["memory"] 80 fv then SCALE_UP
    else if mean_exceeds ["error"] 10 fv then RESTART_POD
    else if mean_exceeds ["request"] 1000 fv then THROTTLE_API
    else if F64.geb score (F64.dec 8 1) then ALERT_ADMIN
    else NO_ACTION.

(** The value of a named feature in the output of an extractor. *)
Definition feature (out : ndarray * list string) (name : string) : option float :=
  match fst out with
  | Arr2 [row] => Dict.get name (zip (snd out) row)
  | _ => None
  end.

(** A sample without its labels. *)
Definition without_labels (m : MetricData) : MetricData :=
  {| metric_type := metric_type m; value := value m; timestamp := timestamp m;
     labels := ∅ |}.

(** No label of the sample is named after a column of the table. *)
Definition labels_apart (m : MetricData) : Prop :=
  labels m !! "timestamp" = None /\
  labels m !! "metric_type" = None /\
  labels m !! "value" = None.

(** Two records of the table with the same three columns. *)
Definition same_columns (r r' : gmap string DataPreprocessor.cell) : Prop :=
  r !! "timestamp" = r' !! "timestamp" /\
  r !! "metric_type" = r' !! "metric_type" /\
  r !! "value" = r' !! "value".

(** Two outcomes that raise the same exception or return related
    values. *)
Definition exc_rel {A B} (R : A -> B -> Prop) (x : exc A) (y : exc B) : Prop :=
  match x, y with
  | Ok a, Ok b => R a b
  | Raise e, Raise e' => e = e'
  | _, _ => False
  end.

(** The entries the log extractor keeps: those not older than the
    window, counted back from the instant the clock shows. *)
Definition recent (clock : Clock) (window_size : Z) (logs : list LogData)
    : list LogData :=
  List.filter
    (fun log => utcnow clock - DataPreprocessor.timedelta_seconds window_size
                <=? log_timestamp log) logs.

Definition is_error (log : LogData) : bool :=
  String.eqb (Str.lower (level log)) "error".

(** §4.2 as worded: the occurrences of the keyword in the messages of
    the error entries. *)
Definition claimed_keyword_count (keyword : string) (logs : list LogData) : nat :=
  list_sum
    (map (fun log => Str.occurrences keyword (Str.lower (message log)))
         (List.filter is_error logs)).

(** The error entries whose message contains the keyword. *)
Definition keyword_entries (keyword : string) (logs : list LogData) : nat :=
  length
    (List.filter
       (fun log => is_error log && Str.contains keyword (Str.lower (message log)))
       logs).

End Spec.

(** ** [app/routers/inference.py] and the startup of [app/main.py] *)

(** What a route hands back to the framework: the response model, or
    an [HTTPException] with its status code and detail. *)
Inductive http (A : Type) : Type :=
| Response (body : A)
| HTTPException (status_code : Z) (detail : string).
Arguments Response {A} body.
Arguments HTTPException {A} status_code detail.

Module InferenceRouter.

Record AnomalyDetectionRequest : Type := {
  metrics : list MetricData;
}.

Record FailureDetectionRequest : Type := {
  failure_metrics : list MetricData;
  logs : list LogData;
}.

Section InferenceRouter.
Context {F E C : Type}
  `{!IsolationForest F, !EllipticEnvelope E, !RandomForestClassifier C, !Numpy}.
Context (settings : Settings).

Definition detect_anomaly (model_service : ModelService.t F E C)
    (data : AnomalyDetectionRequest) : http AnomalyDetectionResponse :=
  if negb (ModelService.models_loaded model_service) then
    HTTPException 503 "Models not loaded. Service is initializing."
  else
    match ModelService.detect_anomaly model_service (metrics data) with
    | Ok response => Response response
    | Raise e => HTTPException 500 e
    end.

Definition detect_failure (model_service : ModelService.t F E C) (clock : Clock)
    (data : FailureDetectionRequest) : http FailureDetectionResponse :=
  if negb (ModelService.models_loaded model_service) then
    HTTPException 503 "Models not loaded. Service is initializing."
  else
    match ModelService.detect_failure settings model_service clock
            (failure_metrics data) (logs data) with
    | Ok response => Response response
    | Raise e => HTTPException 500 e
    end.

(** The startup half of [lifespan]: [init_db()], of the database
    module, then [ModelService()] and [load_models()]; the result is
    what [app.state.model_service] holds while requests are served. *)
Definition lifespan_startup (init_db : exc unit) (X_train_anomaly : ndarray)
    : exc (ModelService.t F E C) :=
  _ ← init_db;
  Ok (ModelService.load_models (ModelService.init settings) X_train_anomaly).

End InferenceRouter.

End InferenceRouter.

(** ** Notions used to state properties of the services *)

Module View.

(** LOW < MEDIUM < HIGH < CRITICAL *)
Definition severity_rank (s : SeverityLevel) : nat :=
  match s with
  | LOW => 0
  | MEDIUM => 1
  | HIGH => 2
  | CRITICAL => 3
  end.

(** Neither a NaN nor an infinity. *)
Definition is_finite (x : float) : bool :=
  match x with
  | S754_zero _ | S754_finite _ _ _ => true
  | S754_infinity _ | S754_nan => false
  end.

(** The entries of a level, compared in lower case. *)
Definition level_entries (lvl : string) (logs : list LogData) : nat :=
  length (List.filter (fun log => String.eqb (Str.lower (level log)) lvl) logs).

(** The entries of a service, whatever their level. *)
Definition service_entries (svc : string) (logs : list LogData) : nat :=
  length (List.filter (fun log => String.eqb (service log) svc) logs).

(** The names of a list in ascending order, none twice. *)
Definition ascending (names : list string) : Prop :=
  StronglySorted (fun a b => String.ltb a b = true) names.

(** A feature vector as an extractor returns it: the empty array
    with no name, or one row with a name for every value, the names
    ascending, no value a NaN or an infinity. *)
Definition feature_vector_ok (out : ndarray * list string) : Prop :=
  out = (Arr1 [], []) \/
  exists row, fst out = Arr2 [row] /\ length row = length (snd out) /\
              Forall (fun x => is_finite x = true) row /\ ascending (snd out).

(** The thirteen names of the log features. *)
Definition log_feature_names : list string :=
  ["error_count"; "error_rate"; "info_count"; "keyword_connection";
   "keyword_crashed"; "keyword_error"; "keyword_exception"; "keyword_failed";
   "keyword_timeout"; "max_service_errors"; "total_logs"; "unique_services";
   "warn_count"].

(** The names of the six metric types. *)
Definition metric_type_names : list string :=
  map metric_type_value
      [CPU_USAGE; MEMORY_USAGE; REQUEST_RATE; ERROR_RATE; RESPONSE_TIME; DISK_IO].

(** The number of different metric types in a batch. *)
Definition distinct_metric_types (metrics : list MetricData) : nat :=
  size (list_to_set ((fun m => metric_type_value (metric_type m)) <$> metrics)
        : gset string).

(** The seven feature names of a metric type, as they are written. *)
Definition stat_names (metric_type : string) : list string :=
  map (fun stat => metric_type +:+ stat)
      ["_mean"; "_std"; "_min"; "_max"; "_median"; "_rate_of_change"; "_trend"].

(** What the parts of a failure verdict have to do with one another:
    without a failure every other part is at its default; with one,
    the type is one of the five the detector knows how to name, a root
    cause and services are given, and the actions are a duplicate-free
    choice among three. *)
Definition failure_verdict_ok (detected : bool) (failure_type : option string)
    (severity : SeverityLevel) (actions : list RemediationAction)
    (root_cause : option string) (services : list string) : Prop :=
  if detected then
    (exists t, failure_type = Some t /\
               In t ["high_error_rate"; "connection_timeout"; "service_down";
                     "unhandled_exception"; "unknown"]) /\
    (exists cause, root_cause = Some cause) /\
    services <> [] /\
    actions <> [] /\ NoDup actions /\
    (forall a, In a actions -> In a [RESTART_POD; ALERT_ADMIN; SCALE_UP]) /\
    (severity = HIGH \/ severity = CRITICAL -> In ALERT_ADMIN actions)
  else
    failure_type = None /\ severity = LOW /\ actions = [NO_ACTION] /\
    root_cause = None /\ services = [].

(** The endings of the names of the metric features. *)
Definition stat_suffixes : list string :=
  ["_mean"; "_std"; "_min"; "_max"; "_median"; "_rate_of_change"; "_trend"].

(** [s.endswith(suffix)] *)
Fixpoint ends_with (suffix s : string) : bool :=
  String.eqb s suffix
  || match s with
     | EmptyString => false
     | String _ s' => ends_with suffix s'
     end.

(** The value of a feature in one of two vectors, the first one first. *)
Definition feature_of_either (a b : ndarray * list string) (name : string)
    : option float :=
  match Spec.feature a name with
  | Some v => Some v
  | None => Spec.feature b name
  end.

End View.

(** ** Timestamps with and without a time zone

    [timestamp: datetime] of the schemas accepts both kinds: pydantic
    builds a naive datetime from "2024-01-01T12:00:00" and a
    timezone-aware one from "2024-01-01T12:00:00Z" or from a string
    with an offset. [datetime.utcnow()] is naive, and Python refuses
    to order a naive and an aware datetime. The definitions above take
    the log entries by the instants of naive timestamps; the ones of
    this module take them as a request carries them, and are the
    definitions above wherever every timestamp is naive. *)

Module Tz.

Local Abbreviation NaiveLogData := LogData.
Local Abbreviation naive_log := Build_LogData.

Inductive pydatetime : Type :=
| Naive (t : datetime)
| Aware (t : datetime) (utcoffset : Z).

Record LogData : Type := {
  timestamp : pydatetime;
  level : string;
  message : string;
  service : string;
}.


(** The [TypeError] of a comparison between the two kinds. *)
Definition type_error : string :=
  "can't compare offset-naive and offset-aware datetimes".

(** [log.timestamp >= cutoff], for the naive [cutoff] that
    [datetime.utcnow() - timedelta(...)] is. *)
Definition ge_cutoff (ts : pydatetime) (cutoff : datetime) : exc bool :=
  match ts with
  | Naive t => Ok (cutoff <=? t)
  | Aware _ _ => Raise type_error
  end.

(** [[log for log in logs if log.timestamp >= cutoff]]: the entries are
    compared in order, and the first aware timestamp ends the
    comprehension with its error. *)
Fixpoint recent_logs (cutoff : datetime) (logs : list LogData) : exc (list LogData) :=
  match logs with
  | [] => Ok []
  | log :: logs' =>
      keep ← ge_cutoff (timestamp log) cutoff;
      rest ← recent_logs cutoff logs';
      Ok (if (keep : bool) then log :: rest else rest)
  end.

(** An entry as the counting loops read it: they look at the level,
    the message and the service, never at the timestamp again. *)
Definition entry (log : LogData) : NaiveLogData :=
  naive_log (match timestamp log with Naive t | Aware t _ => t end)
            (level log) (message log) (service log).

(** [DataPreprocessor.preprocess_logs] on the entries of a request. *)
Definition preprocess_logs (clock : Clock) (logs : list LogData) (window_size : Z)
    : exc (ndarray * list string) :=
  match logs with
  | [] => Ok (Arr1 [], [])
  | _ :: _ =>
      let now := utcnow clock in
      let cutoff := now - DataPreprocessor.timedelta_seconds window_size in
      recent ← recent_logs cutoff logs;
      match recent with
      | [] => Ok (Arr1 [], [])
      | _ :: _ =>
          Ok (DataPreprocessor.to_row (DataPreprocessor.log_features (map entry recent)))
      end
  end.

Section Service.
Context {F E C : Type}
  `{!IsolationForest F, !EllipticEnvelope E, !RandomForestClassifier C, !Numpy}.
Context (settings : Settings).

(** [ModelService.detect_failure] on the entries of a request. *)
Definition detect_failure_body (svc : ModelService.t F E C) (clock : Clock)
    (metrics : list MetricData) (logs : list LogData)
    : exc FailureDetectionResponse :=
  '(metric_features, metric_names) ← DataPreprocessor.preprocess_metrics metrics;
  '(log_features, log_names) ←
    preprocess_logs clock logs (failure_detection_window settings);
  features ← DataPreprocessor.combine_features metric_features log_features;
  let feature_names := metric_names ++ log_names in
  if (Np.size features =? 0)%nat
  then Ok (ModelService.failure_fallback "No features extracted")
  else
    '(failure_detected, failure_type, severity, actions, confidence, root_cause,
      affected_services, details) ←
      FailureDetector.predict (ModelService.failure_detector svc) features
        (Some feature_names);
    Ok {| failure_detected := failure_detected;
          failure_type := failure_type;
          failure_severity := severity;
          recommended_actions := actions;
          failure_confidence := confidence;
          root_cause := root_cause;
          affected_services := affected_services;
          failure_details := details |}.

Definition detect_failure (svc : ModelService.t F E C) (clock : Clock)
    (metrics : list MetricData) (logs : list LogData)
    : exc FailureDetectionResponse :=
  try_except (detect_failure_body svc clock metrics logs)
    (fun e => Ok (ModelService.failure_fallback e)).

End Service.

End Tz.

(** * Properties *)

(** ** The order of binary64 *)

Module F64Facts.
Import F64.

Lemma compare_antisym (x y : float) :
  SFcompare y x = CompOpp <$> SFcompare x y.
Proof.
  destruct x as [sx|sx| |sx mx ex], y as [sy|sy| |sy my ey]; simpl;
    try destruct sx; try destruct sy; try reflexivity;
    rewrite (Z.compare_antisym ex ey);
    change (Pos.compare_cont Eq my mx) with (my ?= mx)%positive;
    change (Pos.compare_cont Eq mx my) with (mx ?= my)%positive;
    rewrite (Pos.compare_antisym mx my);
    destruct (ex ?= ey); simpl; try reflexivity;
    destruct (mx ?= my)%positive; reflexivity.
Qed.

Lemma compare_rank (x y : float) (c : comparison) :
  SFcompare x y = Some c -> lex_compare (rank x) (rank y) = c.
Proof.
  destruct x as [sx|sx| |sx mx ex], y as [sy|sy| |sy my ey]; simpl;
    try destruct sx; try destruct sy; unfold lex_compare; simpl;
    try discriminate; try (intros [= <-]; reflexivity).
  intros [= <-]. rewrite Z.compare_opp.
  rewrite (Z.compare_antisym ex ey). destruct (ex ?= ey); reflexivity.
Qed.

Lemma compare_defined (x y : float) :
  is_nan x = false -> is_nan y = false -> exists c, SFcompare x y = Some c.
Proof.
  destruct x as [sx|sx| |sx mx ex], y as [sy|sy| |sy my ey]; simpl;
    try discriminate; intros _ _; eauto.
Qed.

Lemma compare_not_nan (x y : float) (c : comparison) :
  SFcompare x y = Some c -> is_nan x = false /\ is_nan y = false.
Proof.
  destruct x as [sx|sx| |sx mx ex], y as [sy|sy| |sy my ey]; simpl;
    try discriminate; auto.
Qed.

Lemma lex_compare_lt (a b : Z * Z * Z) :
  lex_compare a b = Lt <->
  fst (fst a) < fst (fst b) \/
  (fst (fst a) = fst (fst b) /\
   (snd (fst a) < snd (fst b) \/ (snd (fst a) = snd (fst b) /\ snd a < snd b))).
Proof.
  destruct a as [[a1 a2] a3], b as [[b1 b2] b3]; unfold lex_compare; simpl.
  destruct (Z.compare_spec a1 b1), (Z.compare_spec a2 b2), (Z.compare_spec a3 b3);
    split; intros; try discriminate; try reflexivity; lia.
Qed.

Lemma lex_compare_gt (a b : Z * Z * Z) :
  lex_compare a b = Gt <-> lex_compare b a = Lt.
Proof.
  destruct a as [[a1 a2] a3], b as [[b1 b2] b3]; unfold lex_compare; simpl.
  destruct (Z.compare_spec a1 b1), (Z.compare_spec a2 b2), (Z.compare_spec a3 b3),
    (Z.compare_spec b1 a1), (Z.compare_spec b2 a2), (Z.compare_spec b3 a3);
    split; intros; try discriminate; try reflexivity; lia.
Qed.

(** [x < y] and [x <= y] through the places on the line. *)
Lemma ltb_rank (x y : float) :
  ltb x y = true <->
  is_nan x = false /\ is_nan y = false /\ lex_compare (rank x) (rank y) = Lt.
Proof.
  unfold ltb, SFltb. split.
  - destruct (SFcompare x y) as [c|] eqn:Hc; [|discriminate].
    destruct (compare_not_nan _ _ _ Hc). apply compare_rank in Hc.
    destruct c; try discriminate. auto.
  - intros (Hx & Hy & Hlt). destruct (compare_defined x y Hx Hy) as [c Hc].
    rewrite Hc. apply compare_rank in Hc. rewrite Hlt in Hc. subst c. reflexivity.
Qed.

Lemma leb_rank (x y : float) :
  leb x y = true <->
  is_nan x = false /\ is_nan y = false /\ lex_compare (rank y) (rank x) <> Lt.
Proof.
  unfold leb, SFleb. split.
  - destruct (SFcompare x y) as [c|] eqn:Hc; [|discriminate].
    destruct (compare_not_nan _ _ _ Hc). apply compare_rank in Hc.
    intros Hle. repeat split; try assumption.
    rewrite <- lex_compare_gt, Hc. destruct c; discriminate.
  - intros (Hx & Hy & Hge). destruct (compare_defined x y Hx Hy) as [c Hc].
    rewrite Hc. apply compare_rank in Hc.
    destruct c; try reflexivity. apply lex_compare_gt in Hc. contradiction.
Qed.

Lemma ltb_leb (a b : float) : ltb a b = true -> leb a b = true.
Proof.
  rewrite ltb_rank, leb_rank, !lex_compare_lt. intros (? & ? & ?). repeat split; auto. lia.
Qed.

Lemma ltb_leb_trans (a b c : float) :
  ltb a b = true -> leb b c = true -> ltb a c = true.
Proof.
  rewrite !ltb_rank, leb_rank, !lex_compare_lt.
  intros (? & ? & ?) (? & ? & ?). repeat split; auto. lia.
Qed.

Lemma leb_ltb_trans (a b c : float) :
  leb a b = true -> ltb b c = true -> ltb a c = true.
Proof.
  rewrite !ltb_rank, leb_rank, !lex_compare_lt.
  intros (? & ? & ?) (? & ? & ?). repeat split; auto. lia.
Qed.

Lemma ltb_asym (a b : float) : ltb a b = true -> leb b a = false.
Proof.
  intros Hlt. destruct (leb b a) eqn:Hle; [|reflexivity].
  rewrite ltb_rank in Hlt. rewrite leb_rank in Hle. tauto.
Qed.

Lemma leb_false_ltb (a b : float) :
  is_nan a = false -> is_nan b = false -> leb a b = false -> ltb b a = true.
Proof.
  intros Ha Hb Hle. rewrite ltb_rank. repeat split; auto.
  destruct (lex_compare (rank b) (rank a)) eqn:Hc; try reflexivity;
    exfalso; apply not_true_iff_false in Hle; apply Hle; rewrite leb_rank;
    repeat split; auto; congruence.
Qed.

Lemma leb_not_nan (a b : float) :
  leb a b = true -> is_nan a = false /\ is_nan b = false.
Proof. rewrite leb_rank. tauto. Qed.

(** The clamp never leaves the unit interval, NaN included. *)
Lemma clamp01_range (x : float) :
  leb (of_Z 0) (clamp01 x) = true /\ leb (clamp01 x) (of_Z 1) = true.
Proof.
  unfold clamp01, py_min, py_max, gtb. fold (ltb (of_Z 0) x).
  assert (H01 : leb (of_Z 0) (of_Z 1) = true) by reflexivity.
  assert (H00 : leb (of_Z 0) (of_Z 0) = true) by reflexivity.
  assert (H11 : leb (of_Z 1) (of_Z 1) = true) by reflexivity.
  destruct (ltb (of_Z 0) x) eqn:H0.
  - destruct (ltb x (of_Z 1)) eqn:H1; split; auto using ltb_leb.
  - destruct (ltb (of_Z 0) (of_Z 1)) eqn:H1; split; auto.
Qed.

End F64Facts.

(** ** Dictionaries *)

Module DictFacts.

Section DictFacts.
Context {V : Type}.
Implicit Types (d : Dict.t V) (k : string) (v : V).

Lemma keys_set d k v :
  Dict.keys (Dict.set k v d) =
  if Dict.mem k d then Dict.keys d else Dict.keys d ++ [k].
Proof.
  unfold Dict.mem. induction d as [|[k' v'] d IH]; simpl; [reflexivity|].
  destruct (String.eqb k' k) eqn:Hk; simpl; [reflexivity|].
  rewrite IH. destruct (Dict.get k d); reflexivity.
Qed.

Lemma get_None_keys d k : Dict.get k d = None <-> ~ In k (Dict.keys d).
Proof.
  induction d as [|[k' v'] d IH]; simpl; [tauto|].
  destruct (String.eqb_spec k' k) as [->|Hne]; split; intros H.
  - discriminate.
  - exfalso; apply H; auto.
  - intros [Heq|Hin]; [contradiction|]. apply IH in H. contradiction.
  - apply IH. tauto.
Qed.

Lemma NoDup_keys_set d k v : NoDup (Dict.keys d) -> NoDup (Dict.keys (Dict.set k v d)).
Proof.
  intros Hd. rewrite keys_set. unfold Dict.mem.
  destruct (Dict.get k d) eqn:Hk; [assumption|].
  apply get_None_keys in Hk. apply NoDup_app. repeat split; auto.
  - intros x Hx Hx'. apply list_elem_of_In in Hx, Hx'. destruct Hx' as [<-|[]]. auto.
  - apply NoDup_singleton.
Qed.

Lemma NoDup_keys_fold (l : list (string * V)) d :
  NoDup (Dict.keys d) ->
  NoDup (Dict.keys (fold_left (fun d kv => Dict.set (fst kv) (snd kv) d) l d)).
Proof.
  revert d. induction l as [|[k v] l IH]; intros d Hd; simpl; [assumption|].
  apply IH, NoDup_keys_set, Hd.
Qed.

Lemma NoDup_keys_of_pairs (l : list (string * V)) : NoDup (Dict.keys (Dict.of_pairs l)).
Proof. apply NoDup_keys_fold. constructor. Qed.

Lemma get_In d k v : NoDup (Dict.keys d) -> In (k, v) d -> Dict.get k d = Some v.
Proof.
  induction d as [|[k' v'] d IH]; simpl; [tauto|].
  intros Hnd [Heq|Hin].
  - injection Heq as -> ->. rewrite String.eqb_refl. reflexivity.
  - apply NoDup_cons in Hnd as [Hk' Hnd].
    destruct (String.eqb_spec k' k) as [->|Hne].
    + exfalso. apply Hk'. apply list_elem_of_In. apply (in_map fst) in Hin. exact Hin.
    + auto.
Qed.

(** Reading back the values of the selected keys gives the selected
    entries, in order. *)
Lemma select_items (p : string -> bool) (default : V) d :
  NoDup (Dict.keys d) ->
  map (fun k => Dict.get_default k default d) (List.filter p (Dict.keys d)) =
  map snd (List.filter (fun kv => p (fst kv)) d).
Proof.
  intros Hnd.
  assert (Hsub : forall l, (forall kv, In kv l -> In kv d) ->
             map (fun k => Dict.get_default k default d) (List.filter p (map fst l)) =
             map snd (List.filter (fun kv => p (fst kv)) l)).
  { induction l as [|[k v] l IH]; intros Hl; simpl; [reflexivity|].
    destruct (p k); simpl.
    - unfold Dict.get_default at 1. rewrite (get_In d k v Hnd) by (apply Hl; left; reflexivity).
      f_equal. apply IH. intros kv Hkv. apply Hl. right. exact Hkv.
    - apply IH. intros kv Hkv. apply Hl. right. exact Hkv. }
  apply Hsub. auto.
Qed.


Lemma get_set d k k' v :
  Dict.get k (Dict.set k' v d) = if String.eqb k' k then Some v else Dict.get k d.
Proof.
  induction d as [|[a b] d IH]; simpl; [reflexivity|].
  destruct (String.eqb_spec a k') as [->|Hak']; simpl.
  - destruct (String.eqb k' k); reflexivity.
  - rewrite IH. destruct (String.eqb_spec a k) as [->|Hak]; [|reflexivity].
    destruct (String.eqb_spec k' k) as [->|]; [contradiction|reflexivity].
Qed.

Lemma mem_keys d k : Dict.mem k d = true <-> In k (Dict.keys d).
Proof.
  unfold Dict.mem. destruct (Dict.get k d) eqn:Hk.
  - split; [intros _|reflexivity].
    destruct (in_dec string_dec k (Dict.keys d)) as [Hin|Hin]; [exact Hin|].
    apply get_None_keys in Hin. congruence.
  - split; [discriminate|]. intros Hin. apply get_None_keys in Hk. contradiction.
Qed.

(** A dictionary is its keys, each with the value read back. *)
Lemma items_by_keys (default : V) d :
  NoDup (Dict.keys d) ->
  d = map (fun k => (k, Dict.get_default k default d)) (Dict.keys d).
Proof.
  intros Hnd.
  assert (Hsub : forall l, (forall kv, In kv l -> In kv d) ->
             l = map (fun k => (k, Dict.get_default k default d)) (map fst l)).
  { induction l as [|[k v] l IH]; intros Hl; simpl; [reflexivity|].
    unfold Dict.get_default at 1. rewrite (get_In d k v Hnd) by (apply Hl; left; reflexivity).
    f_equal. apply IH. intros kv Hkv. apply Hl. right. exact Hkv. }
  apply Hsub. auto.
Qed.

End DictFacts.

End DictFacts.

(** ** The anomaly detector *)

Module AnomalyDetectorFacts.
Import F64 F64Facts AnomalyDetector.

Lemma opp_involutive (x : float) : opp (opp x) = x.
Proof. destruct x as [s|s| |s m e]; simpl; rewrite ?negb_involutive; reflexivity. Qed.

(** What [predict] hands to [_normalize_score] is already negated, and
    [_normalize_score] negates again: the score that is clamped is
    twice the raw score itself. *)
Lemma normalize_score_of_negated (iso_score : float) :
  _normalize_score (opp iso_score) = clamp01 (mul iso_score (of_Z 2)).
Proof. unfold _normalize_score. rewrite opp_involutive. reflexivity. Qed.

Lemma normalize_score_range (score : float) :
  leb (of_Z 0) (_normalize_score score) = true /\
  leb (_normalize_score score) (of_Z 1) = true.
Proof. apply clamp01_range. Qed.

Section Predict.
Context {F E : Type} `{!IsolationForest F, !EllipticEnvelope E, !Numpy}.
Implicit Types (d : AnomalyDetector.t F E) (X : ndarray) (names : option (list string)).

(** A trained prediction that goes through carries the clamp of twice
    the raw score, a number of the unit interval. *)
Lemma predict_trained_score d X names labels iso_score scores r :
  is_trained d = true ->
  iforest_predict (isolation_forest d) X = Ok labels ->
  iforest_score_samples (isolation_forest d) X = Ok (iso_score :: scores) ->
  predict_body d X names = Ok r ->
  predict d X names = Ok r /\
  r.1.1.1.2 = clamp01 (mul iso_score (of_Z 2)) /\
  leb (of_Z 0) r.1.1.1.2 = true /\ leb r.1.1.1.2 (of_Z 1) = true.
Proof.
  intros Ht Hl Hs Hb. unfold predict. rewrite Ht, Hb. simpl. split; [reflexivity|].
  unfold predict_body in Hb. rewrite Hl, Hs in Hb. simpl in Hb.
  destruct (index0 labels) as [l|]; simpl in Hb; [|discriminate].
  destruct (_recommend_action _ X names) as [a|]; simpl in Hb; [|discriminate].
  destruct (_get_affected_features X names) as [af|]; simpl in Hb; [|discriminate].
  injection Hb as Hb. subst r. cbn [fst snd]. rewrite normalize_score_of_negated.
  split; [reflexivity|]. apply clamp01_range.
Qed.

End Predict.

(** C2 (the code departs from the formula). For a raw score of -0.4,
    which the isolation forest gives to an outlier, the formula of the
    specification, clamp of twice the negated raw score, is 0.8;
    [predict] returns 0.0, with severity LOW and NO_ACTION, although
    the forest has labelled the point an outlier. For every raw score
    the returned value is the clamp of twice the raw score, without
    the negation, inside the unit interval. *)
Theorem predict_score_double_negation :
  (forall iso_score,
     _normalize_score (opp iso_score) = clamp01 (mul iso_score (of_Z 2)) /\
     leb (of_Z 0) (_normalize_score (opp iso_score)) = true /\
     leb (_normalize_score (opp iso_score)) (of_Z 1) = true) /\
  (let iso_score := opp (dec 4 1) in
   let d := Ref.detector (Ok [-1]) (Ok [iso_score]) in
   Spec.claimed_anomaly_score iso_score = dec 8 1 /\
   exists details,
     @predict _ _ Ref.forest Ref.numpy d (Arr2 [[of_Z 95]]) (Some ["cpu_usage_mean"])
     = Ok (true, of_Z 0, LOW, NO_ACTION, details)).
Proof.
  split.
  - intros s. split; [apply normalize_score_of_negated|apply normalize_score_range].
  - split; [reflexivity|]. eexists. vm_compute. reflexivity.
Qed.

(** The four severities are the bands of a line cut at 0.5, 0.7 and
    0.9, and [_determine_failure_severity] is the same function of the
    confidence. *)
Lemma severity_cuts (x : float) :
  (_determine_severity x = CRITICAL <-> leb (dec 9 1) x = true) /\
  (_determine_severity x = HIGH <-> leb (dec 7 1) x = true /\ ltb x (dec 9 1) = true) /\
  (_determine_severity x = MEDIUM <-> leb (dec 5 1) x = true /\ ltb x (dec 7 1) = true) /\
  (_determine_severity x = LOW <-> ltb x (dec 5 1) = true \/ is_nan x = true) /\
  (ltb (of_Z 0) (dec 5 1) && ltb (dec 5 1) (dec 7 1)
   && ltb (dec 7 1) (dec 9 1) && ltb (dec 9 1) (of_Z 1) = true) /\
  (forall X names,
     FailureDetector._determine_failure_severity x X names = _determine_severity x).
Proof.
  assert (H57 : ltb (dec 5 1) (dec 7 1) = true) by reflexivity.
  assert (H79 : ltb (dec 7 1) (dec 9 1) = true) by reflexivity.
  assert (H59 : ltb (dec 5 1) (dec 9 1) = true) by reflexivity.
  assert (Hn5 : is_nan (dec 5 1) = false) by reflexivity.
  assert (Hn7 : is_nan (dec 7 1) = false) by reflexivity.
  assert (Hn9 : is_nan (dec 9 1) = false) by reflexivity.
  assert (Hup : forall a b, ltb a b = true -> leb b x = true -> leb a x = true).
  { intros a b Hab Hbx. apply ltb_leb. eapply ltb_leb_trans; eauto. }
  assert (Hlow : forall a, is_nan a = false -> leb a x = false ->
                   ltb x a = true \/ is_nan x = true).
  { intros a Ha Hax. destruct (is_nan x) eqn:Hx; [right; reflexivity|left].
    apply leb_false_ltb; assumption. }
  unfold _determine_severity, FailureDetector._determine_failure_severity, geb.
  fold (leb (dec 9 1) x) (leb (dec 7 1) x) (leb (dec 5 1) x).
  destruct (leb (dec 9 1) x) eqn:H9.
  { (* 0.9 <= x *)
    pose proof (Hup _ _ H79 H9) as H7. pose proof (Hup _ _ H59 H9) as H5.
    apply leb_not_nan in H5 as H5n. destruct H5n as [_ Hx].
    split; [tauto|]. split; [|split; [|split; [|split; [reflexivity|reflexivity]]]].
    - split; [discriminate|]. intros [_ Hlt]. apply ltb_asym in Hlt. congruence.
    - split; [discriminate|]. intros [_ Hlt]. apply ltb_asym in Hlt. congruence.
    - split; [discriminate|]. intros [Hlt|Hnan]; [apply ltb_asym in Hlt|]; congruence. }
  destruct (leb (dec 7 1) x) eqn:H7.
  { (* 0.7 <= x < 0.9 *)
    pose proof (Hup _ _ H57 H7) as H5.
    apply leb_not_nan in H5 as H5n. destruct H5n as [_ Hx].
    destruct (Hlow _ Hn9 H9) as [Hlt9|Hnan]; [|congruence].
    split; [split; discriminate|].
    split; [|split; [|split; [|split; [reflexivity|reflexivity]]]].
    - tauto.
    - split; [discriminate|]. intros [_ Hlt]. apply ltb_asym in Hlt. congruence.
    - split; [discriminate|]. intros [Hlt|Hnan]; [apply ltb_asym in Hlt|]; congruence. }
  destruct (leb (dec 5 1) x) eqn:H5.
  { (* 0.5 <= x < 0.7 *)
    apply leb_not_nan in H5 as H5n. destruct H5n as [_ Hx].
    destruct (Hlow _ Hn7 H7) as [Hlt7|Hnan]; [|congruence].
    split; [split; discriminate|].
    split; [split; [discriminate|intros [? _]; discriminate]|].
    split; [tauto|].
    split; [|split; [reflexivity|reflexivity]].
    split; [discriminate|]. intros [Hlt|Hnan]; [apply ltb_asym in Hlt|]; congruence. }
  (* x < 0.5, or x is a NaN *)
  split; [split; discriminate|].
  split; [split; [discriminate|intros [? _]; discriminate]|].
  split; [split; [discriminate|intros [? _]; discriminate]|].
  split; [|split; [reflexivity|reflexivity]].
  split; [|reflexivity]. intros _. exact (Hlow _ Hn5 H5).
Qed.

Section Bands.
Context {F E C : Type}
  `{!IsolationForest F, !EllipticEnvelope E, !RandomForestClassifier C, !Numpy}.

(** The severity that [AnomalyDetector.predict] returns is the band of
    the score it returns, on every path. *)
Lemma predict_severity_band (d : AnomalyDetector.t F E) (X : ndarray)
    (names : option (list string)) (is_anomaly : bool) (score : float)
    (severity : SeverityLevel) (action : RemediationAction) (details : Dict.t pyval) :
  predict d X names = Ok (is_anomaly, score, severity, action, details) ->
  severity = _determine_severity score.
Proof.
  unfold predict. destruct (is_trained d); cbn [negb].
  2:{ intros [= <- <- <- <- <-]. reflexivity. }
  destruct (predict_body d X names) as [r|e] eqn:Hbody; cbn [try_except].
  2:{ intros [= <- <- <- <- <-]. reflexivity. }
  intros [= ->]. unfold predict_body in Hbody.
  destruct (iforest_predict (isolation_forest d) X) as [labels|e];
    cbn [mbind exc_bind] in Hbody; [|discriminate].
  destruct (index0 labels) as [iso_prediction|e]; cbn [mbind exc_bind] in Hbody;
    [|discriminate].
  destruct (iforest_score_samples (isolation_forest d) X) as [scores|e];
    cbn [mbind exc_bind] in Hbody; [|discriminate].
  destruct (index0 scores) as [iso_score|e]; cbn [mbind exc_bind] in Hbody;
    [|discriminate].
  destruct (_recommend_action _ X names) as [action'|e];
    cbn [mbind exc_bind] in Hbody; [|discriminate].
  destruct (_get_affected_features X names) as [affected|e];
    cbn [mbind exc_bind] in Hbody; [|discriminate].
  injection Hbody as <- <- <- <- <-. reflexivity.
Qed.

(** The severity that a trained [FailureDetector.predict] returns with
    a detected failure is the band of the confidence it returns. *)
Lemma failure_severity_band (fd : FailureDetector.t C) (X : ndarray)
    (names : option (list string)) (failure_type : option string)
    (severity : SeverityLevel) (actions : list RemediationAction)
    (confidence : float) (root_cause : option string) (services : list string)
    (details : Dict.t pyval) :
  FailureDetector.is_trained fd = true ->
  FailureDetector.predict fd X names
  = Ok (true, failure_type, severity, actions, confidence, root_cause, services,
        details) ->
  severity = FailureDetector._determine_failure_severity confidence X names.
Proof.
  intros Htrained. unfold FailureDetector.predict. rewrite Htrained. cbn [negb].
  destruct (FailureDetector.predict_body fd X names) as [r|e] eqn:Hbody;
    cbn [try_except]; [|discriminate].
  intros [= ->]. unfold FailureDetector.predict_body in Hbody.
  destruct (rfc_predict_proba (FailureDetector.classifier fd) X) as [probas|e];
    cbn [mbind exc_bind] in Hbody; [|discriminate].
  destruct (index0 probas) as [proba|e]; cbn [mbind exc_bind] in Hbody; [|discriminate].
  destruct (rfc_predict (FailureDetector.classifier fd) X) as [predictions|e];
    cbn [mbind exc_bind] in Hbody; [|discriminate].
  destruct (index0 predictions) as [label|e]; cbn [mbind exc_bind] in Hbody;
    [|discriminate].
  destruct (label =? 1).
  - destruct (FailureDetector._identify_failure_type X names) as [t|e];
      cbn [mbind exc_bind] in Hbody; [|discriminate].
    destruct (FailureDetector._analyze_root_cause X names) as [cause|e];
      cbn [mbind exc_bind] in Hbody; [|discriminate].
    injection Hbody as <- <- <- <- <- <- <-. reflexivity.
  - cbn [mbind exc_bind] in Hbody. discriminate.
Qed.

(** C8. The four severities are the bands of a line cut at 0.5, 0.7
    and 0.9: CRITICAL from 0.9 up, HIGH from 0.7 to below 0.9, MEDIUM
    from 0.5 to below 0.7, LOW below 0.5 (and for a NaN); the cuts lie
    in increasing order strictly inside the unit interval, so the bands
    are contiguous, disjoint and cover it. The failure detector bands
    by the same function, and both detectors apply it in [predict]:
    the severity that [AnomalyDetector.predict] returns is the band of
    the score it returns, and the severity that a trained
    [FailureDetector.predict] returns with a detected failure is the
    band of the confidence it returns. *)
Theorem severity_bands (x : float) :
  (_determine_severity x = CRITICAL <-> leb (dec 9 1) x = true) /\
  (_determine_severity x = HIGH <-> leb (dec 7 1) x = true /\ ltb x (dec 9 1) = true) /\
  (_determine_severity x = MEDIUM <-> leb (dec 5 1) x = true /\ ltb x (dec 7 1) = true) /\
  (_determine_severity x = LOW <-> ltb x (dec 5 1) = true \/ is_nan x = true) /\
  (ltb (of_Z 0) (dec 5 1) && ltb (dec 5 1) (dec 7 1)
   && ltb (dec 7 1) (dec 9 1) && ltb (dec 9 1) (of_Z 1) = true) /\
  (forall X names,
     FailureDetector._determine_failure_severity x X names = _determine_severity x) /\
  (forall (d : AnomalyDetector.t F E) X names is_anomaly severity action details,
     predict d X names = Ok (is_anomaly, x, severity, action, details) ->
     severity = _determine_severity x) /\
  (forall (fd : FailureDetector.t C) X names failure_type severity actions
          root_cause services details,
     FailureDetector.is_trained fd = true ->
     FailureDetector.predict fd X names
     = Ok (true, failure_type, severity, actions, x, root_cause, services, details) ->
     severity = _determine_severity x).
Proof.
  destruct (severity_cuts x) as (H9 & H7 & H5 & H0 & Hcuts & Hsame).
  split; [exact H9|]. split; [exact H7|]. split; [exact H5|]. split; [exact H0|].
  split; [exact Hcuts|]. split; [exact Hsame|]. split.
  - intros d X names is_anomaly severity action details.
    apply predict_severity_band.
  - intros fd X names failure_type severity actions root_cause services details
      Htrained Hpredict.
    rewrite <- (Hsame X names).
    exact (failure_severity_band fd X names _ _ _ _ _ _ _ Htrained Hpredict).
Qed.

End Bands.

(** A trained classifier that is 80% sure of a failure: the severity
    returned is HIGH, the band of 0.8. *)
Lemma severity_bands_witness :
  let fd := {| FailureDetector.classifier :=
                 {| Ref.stub_proba := Ok [[dec 2 1; dec 8 1]];
                    Ref.stub_classes := Ok [1];
                    Ref.stub_importances := Ok [dec 1 0] |};
               FailureDetector.is_trained := true;
               FailureDetector.failure_types := [] |} in
  exists failure_type actions root_cause services details,
    @FailureDetector.predict _ Ref.classifier Ref.numpy fd (Arr2 [[dec 5 1]])
      (Some ["error_rate"])
    = Ok (true, failure_type, HIGH, actions, dec 8 1, root_cause, services, details) /\
    HIGH = _determine_severity (dec 8 1).
Proof.
  intros fd.
  destruct (@FailureDetector.predict _ Ref.classifier Ref.numpy fd (Arr2 [[dec 5 1]])
              (Some ["error_rate"]))
    as [[[[[[[[detected failure_type] severity] actions] confidence] root_cause]
           services] details]|e] eqn:Hpredict;
    [|vm_compute in Hpredict; discriminate Hpredict].
  assert (Hvalues : detected = true /\ severity = HIGH /\ confidence = dec 8 1).
  { vm_compute in Hpredict. injection Hpredict as <- _ <- _ <- _ _ _.
    repeat split; vm_compute; reflexivity. }
  destruct Hvalues as (-> & -> & ->).
  exists failure_type, actions, root_cause, services, details.
  split; [reflexivity|].
  exact (proj2 (proj2 (proj2 (proj2 (proj2 (proj2 (proj2
           (@severity_bands Ref.StubForest unit _ Ref.forest
              Ref.classifier Ref.numpy (dec 8 1))))))))
           fd (Arr2 [[dec 5 1]]) (Some ["error_rate"]) failure_type HIGH actions
           root_cause services details eq_refl Hpredict).
Defined.

(** The verdicts of the heuristic are fixed pairs, not banded: an
    untrained detector answers connection_timeout with confidence 0.7
    and MEDIUM, where the band of 0.7 is HIGH. *)
Lemma heuristic_severity_not_banded :
  (exists root_cause services details,
     @FailureDetector.predict _ Ref.classifier Ref.numpy
       (@FailureDetector.init _ Ref.classifier)
       (Arr2 [[of_Z 11]]) (Some ["keyword_connection"])
     = Ok (true, Some "connection_timeout", MEDIUM, [RESTART_POD], dec 7 1,
           root_cause, services, details)) /\
  _determine_severity (dec 7 1) = HIGH.
Proof. split; [do 3 eexists; vm_compute; reflexivity|reflexivity]. Qed.


(** *** Training *)

Section Train.
Context {F E : Type} `{!IsolationForest F, !EllipticEnvelope E, !Numpy}.
Implicit Types (d : AnomalyDetector.t F E) (X : ndarray) (names : option (list string)).

(** C7. On fewer than ten rows [train] returns without raising and
    without touching the detector; an untrained detector stays
    untrained, and every later [predict] answers with the default: not
    an anomaly, score 0.0, LOW, NO_ACTION, and no details (so no
    affected features). *)
Theorem train_insufficient_samples d X :
  is_trained d = false ->
  (Np.shape0 X < 10)%nat ->
  train d X = Ok d /\
  forall X' names, predict d X' names = Ok (false, of_Z 0, LOW, NO_ACTION, []).
Proof.
  intros Hd Hrows. split.
  - unfold train. apply Nat.ltb_lt in Hrows. rewrite Hrows. reflexivity.
  - intros X' names. unfold predict. rewrite Hd. reflexivity.
Qed.

End Train.

Lemma train_insufficient_samples_witness :
  let d := @AnomalyDetector.init _ _ Ref.forest Ref.envelope (dec 1 1) in
  let X := Arr2 (repeat [of_Z 1; of_Z 2; of_Z 3] 5) in
  @train _ _ Ref.forest Ref.envelope d X = Ok d /\
  forall X' names,
    @predict _ _ Ref.forest Ref.numpy d X' names = Ok (false, of_Z 0, LOW, NO_ACTION, []).
Proof.
  apply (@train_insufficient_samples _ _ Ref.forest Ref.envelope Ref.numpy);
    [reflexivity | simpl; lia].
Defined.

(** *** The recommended action *)

Section RecommendAction.
Context `{!Numpy}.

Lemma items_of_features_named (word : string) (fd : Dict.t float) :
  NoDup (Dict.keys fd) ->
  items_of fd (features_named word fd) = Spec.values_named [word] fd.
Proof.
  intros Hfd. unfold items_of, features_named, Spec.values_named.
  rewrite (DictFacts.select_items _ (of_Z 0) fd Hfd).
  f_equal. apply List.filter_ext. intros [k v]. simpl. rewrite orb_false_r. reflexivity.
Qed.

(** One rule of the code, [if features: if np.mean(...) > threshold],
    is the test of the specification. *)
Lemma rule_mean_exceeds (word : string) (threshold : Z) (fd : Dict.t float) :
  NoDup (Dict.keys fd) ->
  nonempty (features_named word fd)
  && gtb (np_mean (items_of fd (features_named word fd))) (of_Z threshold)
  = Spec.mean_exceeds [word] threshold fd.
Proof.
  intros Hfd. unfold Spec.mean_exceeds.
  rewrite <- (items_of_features_named word fd Hfd). unfold items_of.
  destruct (features_named word fd); reflexivity.
Qed.

(** The first rule of the code, with its two means and the 0 that
    stands for a missing group. *)
Lemma rule_cpu_memory (fd : Dict.t float) :
  NoDup (Dict.keys fd) ->
  (nonempty (features_named "cpu" fd) || nonempty (features_named "memory" fd))
  && (gtb (if nonempty (features_named "cpu" fd)
           then np_mean (items_of fd (features_named "cpu" fd)) else of_Z 0)
          (of_Z 80)
      || gtb (if nonempty (features_named "memory" fd)
              then np_mean (items_of fd (features_named "memory" fd)) else of_Z 0)
             (of_Z 80))
  = Spec.mean_exceeds ["cpu"] 80 fd || Spec.mean_exceeds ["memory"] 80 fd.
Proof.
  intros Hfd.
  rewrite <- (rule_mean_exceeds "cpu" 80 fd Hfd), <- (rule_mean_exceeds "memory" 80 fd Hfd).
  assert (H0 : gtb (of_Z 0) (of_Z 80) = false) by reflexivity.
  destruct (nonempty (features_named "cpu" fd)),
           (nonempty (features_named "memory" fd));
    rewrite ?H0; simpl; rewrite ?orb_false_r; reflexivity.
Qed.

(** C4, as the code has it. Below 0.5 the action is NO_ACTION whatever
    the features. From 0.5 up, on a feature row: ALERT_ADMIN when the
    names or the values are missing; otherwise the first rule that
    matches among (1) the mean of the features named after "cpu" above
    80 or the mean of the features named after "memory" above 80, each
    mean taken on its own, SCALE_UP; (2) "error", mean above 10,
    RESTART_POD; (3) "request", mean above 1000, THROTTLE_API; (4) a
    score of at least 0.8, ALERT_ADMIN; (5) NO_ACTION. Names are matched
    in lower case. *)
Theorem recommend_action_rules (score : float) (names : option (list string))
    (row : list float) :
  (forall X, ltb score (dec 5 1) = true ->
             _recommend_action score X names = Ok NO_ACTION) /\
  (leb (dec 5 1) score = true ->
   _recommend_action score (Arr2 [row]) names
   = Ok (Spec.action_by_priority score names row)).
Proof.
  split.
  - intros X Hlt. unfold _recommend_action. rewrite Hlt. reflexivity.
  - intros Hge. unfold _recommend_action, Spec.action_by_priority.
    destruct (ltb score (dec 5 1)) eqn:Hlt.
    { apply ltb_asym in Hlt. congruence. }
    unfold Np.size. simpl concat. rewrite app_nil_r.
    destruct (falsy names || (length row =? 0)%nat) eqn:Hguard; [reflexivity|].
    cbn [Np.row0 mbind exc_bind].
    change (Dict.of_pairs (zip (names_or_empty names) row))
      with (Spec.feature_vector names row).
    assert (Hfd : NoDup (Dict.keys (Spec.feature_vector names row)))
      by apply DictFacts.NoDup_keys_of_pairs.
    rewrite (rule_cpu_memory _ Hfd), !(rule_mean_exceeds _ _ _ Hfd).
    destruct (Spec.mean_exceeds ["cpu"] 80 _ || Spec.mean_exceeds ["memory"] 80 _);
      [reflexivity|].
    destruct (Spec.mean_exceeds ["error"] 10 _); [reflexivity|].
    destruct (Spec.mean_exceeds ["request"] 1000 _); [reflexivity|].
    destruct (geb score (dec 8 1)); reflexivity.
Qed.

End RecommendAction.

Lemma recommend_action_rules_witness :
  let names := Some ["cpu_usage_mean"; "memory_usage_mean"] in
  let row := [of_Z 100; of_Z 0] in
  @_recommend_action Ref.numpy (dec 6 1) (Arr2 [row]) names = Ok SCALE_UP /\
  @_recommend_action Ref.numpy (dec 3 1) (Arr2 [row]) names = Ok NO_ACTION.
Proof.
  intros names row.
  destruct (@recommend_action_rules Ref.numpy (dec 6 1) names row) as [_ Hhigh].
  destruct (@recommend_action_rules Ref.numpy (dec 3 1) names row) as [Hlow _].
  split.
  - rewrite Hhigh; reflexivity.
  - apply Hlow. reflexivity.
Defined.

(** C4 as worded fails on the code: with a score of 0.6, a cpu feature
    at 100 and a memory feature at 0 the one mean over both is 50 and
    no rule of the wording applies, yet the code answers SCALE_UP; and
    without feature names the code answers ALERT_ADMIN where the
    wording leaves NO_ACTION. *)
Lemma recommend_action_not_as_worded :
  (let names := Some ["cpu_usage_mean"; "memory_usage_mean"] in
   let row := [of_Z 100; of_Z 0] in
   @_recommend_action Ref.numpy (dec 6 1) (Arr2 [row]) names
   <> Ok (@Spec.claimed_action Ref.numpy (dec 6 1) (Spec.feature_vector names row))) /\
  (let row := [of_Z 100] in
   @_recommend_action Ref.numpy (dec 6 1) (Arr2 [row]) None
   <> Ok (@Spec.claimed_action Ref.numpy (dec 6 1) (Spec.feature_vector None row))).
Proof. split; vm_compute; discriminate. Qed.

End AnomalyDetectorFacts.

(** ** The failure detector *)

Module FailureDetectorFacts.
Import F64 F64Facts FailureDetector.

Lemma zip_nil_r {A B} (a : list A) : zip a (@nil B) = [].
Proof. destruct a; reflexivity. Qed.

(** Without names or without values there are no features. *)
Lemma feature_vector_guard (names : option (list string)) (row : list float) :
  (length row =? 0)%nat || falsy names = true ->
  Spec.feature_vector names row = [].
Proof.
  unfold Spec.feature_vector. intros Hg. apply orb_true_iff in Hg as [Hrow|Hnames].
  - apply Nat.eqb_eq in Hrow. destruct row; [|discriminate]. rewrite zip_nil_r. reflexivity.
  - destruct names as [[|n names]|]; try discriminate; reflexivity.
Qed.

Section Heuristic.
Context {C : Type} `{!RandomForestClassifier C, !Numpy}.
Implicit Types (d : FailureDetector.t C).

(** The heuristic as a function of the three features it reads, each
    one 0 when the vector does not have it. *)
Lemma heuristic_detection_features (names : option (list string)) (row : list float) :
  let fd := Spec.feature_vector names row in
  let error_rate := Dict.get_default "error_rate" (of_Z 0) fd in
  let error_count := Dict.get_default "error_count" (of_Z 0) fd in
  let keyword_connection := Dict.get_default "keyword_connection" (of_Z 0) fd in
  _heuristic_detection (Arr2 [row]) names =
  Ok (if gtb error_rate (dec 2 1) || gtb error_count (of_Z 50) then
        (true, Some "high_error_rate", HIGH, [RESTART_POD; ALERT_ADMIN], dec 8 1,
         Some ("High error rate detected: " +:+ Fmt.percent2 error_rate),
         ["api-service"],
         [("heuristic", PyBool true); ("error_rate", PyFloat error_rate)])
      else if gtb keyword_connection (of_Z 10) then
        (true, Some "connection_timeout", MEDIUM, [RESTART_POD], dec 7 1,
         Some "Multiple connection timeout errors detected",
         ["database"; "api-service"], [("heuristic", PyBool true)])
      else no_failure []).
Proof.
  intros fd error_rate error_count keyword_connection.
  unfold _heuristic_detection, Np.size. simpl concat. rewrite app_nil_r.
  destruct ((length row =? 0)%nat || falsy names) eqn:Hguard.
  - subst error_rate error_count keyword_connection fd.
    rewrite (feature_vector_guard _ _ Hguard). reflexivity.
  - cbn [Np.row0 mbind exc_bind].
    change (Dict.of_pairs (zip (names_or_empty names) row)) with fd.
    fold error_rate. fold error_count.
    destruct (gtb error_rate (dec 2 1) || gtb error_count (of_Z 50)); [reflexivity|].
    subst keyword_connection. unfold Dict.mem, Dict.get_default.
    assert (H0 : gtb (of_Z 0) (of_Z 10) = false) by reflexivity.
    destruct (Dict.get "keyword_connection" fd) as [kc|]; cbn [andb];
      [destruct (gtb kc (of_Z 10))|rewrite H0]; reflexivity.
Qed.

(** C5. The untrained failure detector on a feature row: an
    [error_rate] above 0.2 or an [error_count] above 50 gives a
    detected "high_error_rate" of severity HIGH with actions
    RESTART_POD then ALERT_ADMIN, confidence 0.8, the root cause
    "High error rate detected: " followed by the rate as a percentage
    with two decimals, and the service "api-service"; otherwise a
    [keyword_connection] above 10 gives a detected "connection_timeout"
    of severity MEDIUM with action RESTART_POD and confidence 0.7;
    otherwise nothing is detected: LOW, NO_ACTION, confidence 0. *)
Theorem heuristic_detection_untrained d (names : option (list string))
    (row : list float) :
  is_trained d = false ->
  let fd := Spec.feature_vector names row in
  let error_rate := Dict.get_default "error_rate" (of_Z 0) fd in
  let error_count := Dict.get_default "error_count" (of_Z 0) fd in
  let keyword_connection := Dict.get_default "keyword_connection" (of_Z 0) fd in
  (gtb error_rate (dec 2 1) = true \/ gtb error_count (of_Z 50) = true ->
   predict d (Arr2 [row]) names =
   Ok (true, Some "high_error_rate", HIGH, [RESTART_POD; ALERT_ADMIN], dec 8 1,
       Some ("High error rate detected: " +:+ Fmt.percent2 error_rate),
       ["api-service"],
       [("heuristic", PyBool true); ("error_rate", PyFloat error_rate)])) /\
  (gtb error_rate (dec 2 1) = false -> gtb error_count (of_Z 50) = false ->
   gtb keyword_connection (of_Z 10) = true ->
   predict d (Arr2 [row]) names =
   Ok (true, Some "connection_timeout", MEDIUM, [RESTART_POD], dec 7 1,
       Some "Multiple connection timeout errors detected",
       ["database"; "api-service"], [("heuristic", PyBool true)])) /\
  (gtb error_rate (dec 2 1) = false -> gtb error_count (of_Z 50) = false ->
   gtb keyword_connection (of_Z 10) = false ->
   predict d (Arr2 [row]) names =
   Ok (false, None, LOW, [NO_ACTION], of_Z 0, None, [], [])).
Proof.
  intros Hd fd error_rate error_count keyword_connection.
  unfold predict. rewrite Hd. cbn [negb].
  rewrite heuristic_detection_features.
  fold fd. fold error_rate. fold error_count. fold keyword_connection.
  split; [|split].
  - intros [Hrate|Hcount]; [rewrite Hrate|rewrite Hcount, orb_true_r]; reflexivity.
  - intros -> -> ->. reflexivity.
  - intros -> -> ->. reflexivity.
Qed.

End Heuristic.

(** The example of the specification: an error rate of 0.25 and no
    connection keyword. *)
Lemma heuristic_detection_untrained_witness :
  @predict _ Ref.classifier Ref.numpy (@init _ Ref.classifier)
    (Arr2 [[dec 25 2; of_Z 0]]) (Some ["error_rate"; "keyword_connection"]) =
  Ok (true, Some "high_error_rate", HIGH, [RESTART_POD; ALERT_ADMIN], dec 8 1,
      Some "High error rate detected: 25.00%", ["api-service"],
      [("heuristic", PyBool true); ("error_rate", PyFloat (dec 25 2))]).
Proof.
  apply (proj1 (@heuristic_detection_untrained _ Ref.classifier Ref.numpy
                  (@init _ Ref.classifier)
                  (Some ["error_rate"; "keyword_connection"]) [dec 25 2; of_Z 0]
                  eq_refl)).
  left. reflexivity.
Defined.

End FailureDetectorFacts.

(** ** Feature extraction *)

Module DataPreprocessorFacts.
Import F64 DataPreprocessor.

(** *** Combining the two vectors *)

Lemma zip_app {A B} (a1 a2 : list A) (b1 b2 : list B) :
  length a1 = length b1 ->
  zip (a1 ++ a2) (b1 ++ b2) = zip a1 b1 ++ zip a2 b2.
Proof.
  revert b1. induction a1 as [|x a1 IH]; intros [|y b1] Hlen; simpl in *;
    try discriminate; [reflexivity|].
  f_equal. apply IH. lia.
Qed.

Lemma size_row (row : list float) : Np.size (Arr2 [row]) = length row.
Proof. unfold Np.size. simpl. rewrite app_nil_r. reflexivity. Qed.

(** C9. Two empty vectors combine to the empty vector; an empty
    vector on either side leaves the other side as it is; two feature
    rows combine to the entries of the first followed by the entries of
    the second, each side in its own order, and the concatenated names
    go with the concatenated values. *)
Theorem combine_features_order :
  combine_features (Arr1 []) (Arr1 []) = Ok (Arr1 []) /\
  (forall A, Np.size A <> 0%nat \/ A = Arr1 [] ->
             combine_features A (Arr1 []) = Ok A) /\
  (forall B, Np.size B <> 0%nat \/ B = Arr1 [] ->
             combine_features (Arr1 []) B = Ok B) /\
  (forall a b, a <> [] -> b <> [] ->
               combine_features (Arr2 [a]) (Arr2 [b]) = Ok (Arr2 [a ++ b])) /\
  (forall (names_a names_b : list string) (a b : list float),
     length names_a = length a ->
     zip (names_a ++ names_b) (a ++ b) = zip names_a a ++ zip names_b b).
Proof.
  split; [reflexivity|]. split; [|split; [|split]].
  - intros A [HA| ->]; [|reflexivity]. unfold combine_features.
    apply Nat.eqb_neq in HA. rewrite HA. reflexivity.
  - intros B [HB| ->]; [|reflexivity]. unfold combine_features.
    apply Nat.eqb_neq in HB. rewrite HB. reflexivity.
  - intros a b Ha Hb. unfold combine_features. rewrite !size_row.
    destruct a as [|x a]; [contradiction|]. destruct b as [|y b]; [contradiction|].
    reflexivity.
  - intros. apply zip_app. assumption.
Qed.

Lemma combine_features_order_witness :
  combine_features (Arr2 [[of_Z 1; of_Z 2; of_Z 3]]) (Arr1 []) =
    Ok (Arr2 [[of_Z 1; of_Z 2; of_Z 3]]) /\
  combine_features (Arr1 []) (Arr2 [[of_Z 6; of_Z 7]]) = Ok (Arr2 [[of_Z 6; of_Z 7]]) /\
  combine_features (Arr2 [[of_Z 1; of_Z 2; of_Z 3]]) (Arr2 [[of_Z 6; of_Z 7]]) =
    Ok (Arr2 [[of_Z 1; of_Z 2; of_Z 3; of_Z 6; of_Z 7]]) /\
  zip (["a"; "b"; "c"] ++ ["x"; "y"]) ([of_Z 1; of_Z 2; of_Z 3] ++ [of_Z 6; of_Z 7]) =
    zip ["a"; "b"; "c"] [of_Z 1; of_Z 2; of_Z 3] ++ zip ["x"; "y"] [of_Z 6; of_Z 7].
Proof.
  destruct combine_features_order as (_ & Hleft & Hright & Hboth & Hnames).
  split; [|split; [|split]].
  - apply Hleft. left. simpl. lia.
  - apply Hright. left. simpl. lia.
  - apply (Hboth [of_Z 1; of_Z 2; of_Z 3] [of_Z 6; of_Z 7]); discriminate.
  - apply (Hnames ["a"; "b"; "c"] ["x"; "y"]). reflexivity.
Defined.

(** *** The window of the log extractor *)

(** [preprocess_logs] through the entries it keeps. *)
Lemma preprocess_logs_recent (clock : Clock) (logs : list LogData) (window_size : Z) :
  preprocess_logs clock logs window_size =
  match Spec.recent clock window_size logs with
  | [] => (Arr1 [], [])
  | recent_logs => to_row (log_features recent_logs)
  end.
Proof.
  unfold preprocess_logs, Spec.recent. destruct logs as [|log logs]; [reflexivity|].
  destruct (List.filter _ (log :: logs)); reflexivity.
Qed.

(** C3, as the code has it. The cutoff of the window is taken from the
    system clock that [preprocess_logs] reads itself; the caller passes
    the entries and the window length only. The result is a function of
    the entries, the window length and the instant read: two calls on
    the same entries and window length return the same feature vector
    when they read the same instant and, more generally, whenever each
    entry falls on the same side of the cutoff at both instants. *)
Theorem preprocess_logs_clock (clock1 clock2 : Clock) (logs : list LogData)
    (window_size : Z) :
  (forall log, In log logs ->
     (utcnow clock1 - timedelta_seconds window_size <= log_timestamp log <->
      utcnow clock2 - timedelta_seconds window_size <= log_timestamp log)) ->
  preprocess_logs clock1 logs window_size = preprocess_logs clock2 logs window_size.
Proof.
  intros Hside. rewrite !preprocess_logs_recent.
  assert (Hrecent : Spec.recent clock1 window_size logs = Spec.recent clock2 window_size logs).
  { unfold Spec.recent. induction logs as [|log logs IH]; [reflexivity|]. simpl.
    assert (Hlog : (utcnow clock1 - timedelta_seconds window_size <=? log_timestamp log)
                 = (utcnow clock2 - timedelta_seconds window_size <=? log_timestamp log)).
    { apply eq_true_iff_eq. rewrite !Z.leb_le. apply Hside. left. reflexivity. }
    rewrite Hlog, IH; [reflexivity|]. intros l Hl. apply Hside. right. exact Hl. }
  rewrite Hrecent. reflexivity.
Qed.

Lemma preprocess_logs_clock_witness :
  let logs := [ {| log_timestamp := 1000000000; level := "error";
                   message := "Connection timeout"; service := "api" |} ] in
  preprocess_logs {| utcnow := 1010000000 |} logs 300
  = preprocess_logs {| utcnow := 1020000000 |} logs 300.
Proof.
  intros logs. apply preprocess_logs_clock.
  intros log [<-|[]]. simpl. unfold timedelta_seconds. lia.
Defined.

(** C3 as worded fails on the code: the same entry and the same window
    length give a feature vector ten seconds after the entry and the
    empty vector after ten minutes, the instant being read from the
    clock and not passed in. *)
Lemma preprocess_logs_reads_clock :
  ~ (forall (clock1 clock2 : Clock) (logs : list LogData) (window_size : Z),
       preprocess_logs clock1 logs window_size
       = preprocess_logs clock2 logs window_size).
Proof.
  intros Hpure.
  specialize (Hpure {| utcnow := 1010000000 |} {| utcnow := 1600000000 |}
                [ {| log_timestamp := 1000000000; level := "error";
                     message := "Connection timeout"; service := "api" |} ] 300).
  vm_compute in Hpure. discriminate Hpure.
Qed.


(** *** The keyword scan *)

Lemma error_keywords_NoDup : NoDup error_keywords.
Proof. apply NoDup_ListNoDup. repeat constructor; simpl; intuition discriminate. Qed.

Lemma count_keyword_get (msg : string) (counts : Dict.t nat) (k kw : string) :
  Dict.get_default kw 0%nat (count_keyword msg counts k) =
  (Dict.get_default kw 0%nat counts
   + (if String.eqb k kw && Str.contains kw msg then 1 else 0))%nat.
Proof.
  unfold count_keyword, Dict.get_default.
  destruct (String.eqb_spec k kw) as [->|Hne]; simpl.
  - destruct (Str.contains kw msg); [|lia]. rewrite DictFacts.get_set, String.eqb_refl.
    reflexivity.
  - destruct (Str.contains k msg); [|lia]. rewrite DictFacts.get_set.
    apply String.eqb_neq in Hne. rewrite Hne. lia.
Qed.

Lemma count_keyword_keys (msg : string) (counts : Dict.t nat) (k : string) :
  In k (Dict.keys counts) -> Dict.keys (count_keyword msg counts k) = Dict.keys counts.
Proof.
  intros Hk. unfold count_keyword. destruct (Str.contains k msg); [|reflexivity].
  rewrite DictFacts.keys_set. apply DictFacts.mem_keys in Hk. rewrite Hk. reflexivity.
Qed.

(** One pass over a list of distinct keywords adds one to the keyword
    found in the message and leaves the other counts. *)
Lemma count_keywords_get (msg : string) (kw : string) (ks : list string)
    (counts : Dict.t nat) :
  NoDup ks ->
  Dict.get_default kw 0%nat (foldl (count_keyword msg) counts ks) =
  (Dict.get_default kw 0%nat counts
   + (if existsb (String.eqb kw) ks && Str.contains kw msg then 1 else 0))%nat.
Proof.
  revert counts. induction ks as [|k ks IH]; intros counts Hnd; simpl; [lia|].
  apply NoDup_cons in Hnd as [Hk Hnd]. rewrite (IH _ Hnd), count_keyword_get.
  destruct (String.eqb_spec k kw) as [->|Hne]; simpl.
  - rewrite String.eqb_refl. simpl.
    assert (Hnot : existsb (String.eqb kw) ks = false).
    { apply not_true_iff_false. rewrite existsb_exists. intros (x & Hx & Heq).
      apply String.eqb_eq in Heq. subst x. apply Hk. apply list_elem_of_In. exact Hx. }
    rewrite Hnot. simpl. lia.
  - assert (Hkw : String.eqb kw k = false) by (apply String.eqb_neq; congruence).
    rewrite Hkw. simpl. lia.
Qed.

Lemma count_keywords_keys (msg : string) (ks : list string) (counts : Dict.t nat) :
  (forall k, In k ks -> In k (Dict.keys counts)) ->
  Dict.keys (foldl (count_keyword msg) counts ks) = Dict.keys counts.
Proof.
  revert counts. induction ks as [|k ks IH]; intros counts Hks; simpl; [reflexivity|].
  rewrite IH.
  - apply count_keyword_keys. apply Hks. left. reflexivity.
  - intros k' Hk'. rewrite count_keyword_keys by (apply Hks; left; reflexivity).
    apply Hks. right. exact Hk'.
Qed.

Lemma scan_keywords_get (log : LogData) (kw : string) (counts : Dict.t nat) :
  In kw error_keywords ->
  Dict.get_default kw 0%nat (scan_keywords log counts) =
  (Dict.get_default kw 0%nat counts
   + (if Spec.is_error log && Str.contains kw (Str.lower (message log)) then 1 else 0))%nat.
Proof.
  intros Hkw. unfold scan_keywords, Spec.is_error.
  destruct (String.eqb (Str.lower (level log)) "error"); cbn [andb]; [|lia].
  rewrite count_keywords_get by apply error_keywords_NoDup.
  assert (Hin : existsb (String.eqb kw) error_keywords = true).
  { apply existsb_exists. exists kw. split; [exact Hkw|apply String.eqb_refl]. }
  rewrite Hin. reflexivity.
Qed.

Lemma scan_keywords_keys (log : LogData) (counts : Dict.t nat) :
  Dict.keys counts = error_keywords ->
  Dict.keys (scan_keywords log counts) = error_keywords.
Proof.
  intros Hkeys. unfold scan_keywords.
  destruct (String.eqb (Str.lower (level log)) "error"); [|exact Hkeys].
  rewrite count_keywords_keys; [exact Hkeys|]. intros k Hk. rewrite Hkeys. exact Hk.
Qed.

Lemma count_keywords_fold (logs : list LogData) (kw : string) (counts : Dict.t nat) :
  In kw error_keywords ->
  Dict.get_default kw 0%nat (foldl (fun counts log => scan_keywords log counts) counts logs) =
  (Dict.get_default kw 0%nat counts + Spec.keyword_entries kw logs)%nat.
Proof.
  intros Hkw. revert counts. unfold Spec.keyword_entries.
  induction logs as [|log logs IH]; intros counts; simpl; [lia|].
  rewrite IH, scan_keywords_get by exact Hkw.
  destruct (Spec.is_error log && Str.contains kw (Str.lower (message log))); simpl; lia.
Qed.

(** The counter of a keyword after the loop is the number of error
    entries whose message contains it. *)
Lemma count_keywords_entries (logs : list LogData) (kw : string) :
  In kw error_keywords ->
  Dict.get_default kw 0%nat (count_keywords logs) = Spec.keyword_entries kw logs.
Proof.
  intros Hkw. unfold count_keywords. rewrite count_keywords_fold by exact Hkw.
  simpl in Hkw. intuition subst; reflexivity.
Qed.

Lemma count_keywords_dict_keys (logs : list LogData) :
  Dict.keys (count_keywords logs) = error_keywords.
Proof.
  unfold count_keywords.
  generalize (eq_refl : Dict.keys (Dict.of_pairs (map (fun kw => (kw, 0%nat)) error_keywords))
                        = error_keywords).
  generalize (Dict.of_pairs (map (fun kw => (kw, 0%nat)) error_keywords)).
  induction logs as [|log logs IH]; intros counts Hkeys; simpl; [exact Hkeys|].
  apply IH, scan_keywords_keys, Hkeys.
Qed.


(** The feature dictionary of the log extractor: seven counters and
    rates, then one entry per keyword. *)
Lemma log_features_items (recent_logs : list LogData) :
  exists f1 f2 f3 f4 f5 f6 f7 : float,
    log_features recent_logs =
    [("error_count", f1); ("warn_count", f2); ("info_count", f3);
     ("total_logs", f4); ("error_rate", f5); ("unique_services", f6);
     ("max_service_errors", f7);
     ("keyword_timeout", of_nat (Spec.keyword_entries "timeout" recent_logs));
     ("keyword_connection", of_nat (Spec.keyword_entries "connection" recent_logs));
     ("keyword_failed", of_nat (Spec.keyword_entries "failed" recent_logs));
     ("keyword_exception", of_nat (Spec.keyword_entries "exception" recent_logs));
     ("keyword_error", of_nat (Spec.keyword_entries "error" recent_logs));
     ("keyword_crashed", of_nat (Spec.keyword_entries "crashed" recent_logs))].
Proof.
  unfold log_features. cbv zeta.
  assert (Hkc : count_keywords recent_logs =
                map (fun k => (k, Spec.keyword_entries k recent_logs)) error_keywords).
  { rewrite (DictFacts.items_by_keys 0%nat (count_keywords recent_logs)) at 1
      by (rewrite count_keywords_dict_keys; apply error_keywords_NoDup).
    rewrite count_keywords_dict_keys. apply map_ext_in. intros k Hk.
    rewrite count_keywords_entries by exact Hk. reflexivity. }
  rewrite Hkc. do 7 eexists. reflexivity.
Qed.

(** C6, as the code has it. Among the entries inside the window, the
    scan looks at those whose level, in lower case, is "error", and for
    each keyword of the fixed set counts the entries whose message, in
    lower case, contains the keyword: an entry counts once, however
    often the keyword occurs in it. The count is the feature
    [keyword_{kw}]. *)
Theorem keyword_features (clock : Clock) (logs : list LogData) (window_size : Z)
    (kw : string) :
  In kw error_keywords ->
  Spec.recent clock window_size logs <> [] ->
  Spec.feature (preprocess_logs clock logs window_size) ("keyword_" +:+ kw) =
  Some (F64.nan_to_num
          (of_nat (Spec.keyword_entries kw (Spec.recent clock window_size logs)))).
Proof.
  intros Hkw Hrecent. rewrite preprocess_logs_recent.
  destruct (Spec.recent clock window_size logs) as [|log recent_logs] eqn:Hr;
    [contradiction|].
  destruct (log_features_items (log :: recent_logs))
    as (f1 & f2 & f3 & f4 & f5 & f6 & f7 & ->).
  simpl in Hkw. destruct Hkw as [<-|[<-|[<-|[<-|[<-|[<-|[]]]]]]];
    repeat match goal with
           | |- context [of_nat (Spec.keyword_entries ?k ?l)] =>
               generalize (of_nat (Spec.keyword_entries k l)); intro
           end;
    reflexivity.
Qed.

Lemma keyword_features_witness :
  let logs := [ {| log_timestamp := 1000000000; level := "ERROR";
                   message := "Connection timeout, retry after timeout";
                   service := "api" |};
                {| log_timestamp := 1000000000; level := "info";
                   message := "no timeout"; service := "api" |} ] in
  Spec.feature (preprocess_logs {| utcnow := 1010000000 |} logs 300) "keyword_timeout"
  = Some (of_Z 1).
Proof.
  intros logs.
  apply (keyword_features {| utcnow := 1010000000 |} logs 300 "timeout");
    [simpl; tauto | discriminate].
Defined.

(** C6 as worded fails on the code: one error entry whose message
    holds the keyword twice adds one to the feature, not two. *)
Lemma keyword_feature_not_occurrences :
  let clock := {| utcnow := 1010000000 |} in
  let logs := [ {| log_timestamp := 1000000000; level := "error";
                   message := "Error: upstream error"; service := "api" |} ] in
  Spec.claimed_keyword_count "error" (Spec.recent clock 300 logs) = 2%nat /\
  Spec.feature (preprocess_logs clock logs 300) "keyword_error" = Some (of_Z 1) /\
  Spec.feature (preprocess_logs clock logs 300) "keyword_error"
  <> Some (F64.nan_to_num
             (of_nat (Spec.claimed_keyword_count "error" (Spec.recent clock 300 logs)))).
Proof. repeat split; vm_compute; discriminate. Qed.


(** *** Labels in the table of [preprocess_metrics] *)

(** Away from the three column names the labels do not reach the
    features. *)

Lemma record_of_same_columns (m : MetricData) :
  Spec.labels_apart m -> Spec.same_columns (record_of m) (record_of (Spec.without_labels m)).
Proof.
  intros (Ht & Hm & Hv). unfold Spec.same_columns, record_of. simpl.
  rewrite !lookup_union, !lookup_fmap, Ht, Hm, Hv, !lookup_empty. simpl.
  repeat split; reflexivity.
Qed.

Lemma insert_by_timestamp_same (r r' : gmap string cell) (df df' : DataFrame) :
  Spec.same_columns r r' -> Forall2 Spec.same_columns df df' ->
  Spec.exc_rel (Forall2 Spec.same_columns)
    (insert_by_timestamp r df) (insert_by_timestamp r' df').
Proof.
  intros Hr Hdf. induction Hdf as [|x x' df df' Hx Hdf IH]; simpl.
  - constructor; [exact Hr|constructor].
  - assert (Hxt : x' !! "timestamp" = x !! "timestamp") by (symmetry; apply Hx).
    assert (Hrt : r' !! "timestamp" = r !! "timestamp") by (symmetry; apply Hr).
    rewrite Hxt, Hrt. clear Hxt Hrt.
    destruct (x !! "timestamp") as [c'|] eqn:Hc'; [|reflexivity].
    destruct (r !! "timestamp") as [c|] eqn:Hc; [|reflexivity].
    destruct (cell_le c' c) as [[|]|e]; simpl; [| |reflexivity].
    + destruct (insert_by_timestamp r df) as [s|e],
               (insert_by_timestamp r' df') as [s'|e']; simpl in *;
        try contradiction; [|exact IH].
      constructor; [exact Hx|exact IH].
    + constructor; [exact Hr|]. constructor; [exact Hx|exact Hdf].
Qed.

Lemma sort_values_timestamp_same (df df' : DataFrame) :
  Forall2 Spec.same_columns df df' ->
  Spec.exc_rel (Forall2 Spec.same_columns)
    (sort_values_timestamp df) (sort_values_timestamp df').
Proof.
  unfold sort_values_timestamp. intros Hdf.
  assert (Hfold : forall acc acc' : exc DataFrame,
            Spec.exc_rel (Forall2 Spec.same_columns) acc acc' ->
            Spec.exc_rel (Forall2 Spec.same_columns)
              (foldl (fun acc r => sorted ← acc; insert_by_timestamp r sorted) acc df)
              (foldl (fun acc r => sorted ← acc; insert_by_timestamp r sorted) acc' df')).
  { induction Hdf as [|r r' df df' Hr Hdf IH]; intros acc acc' Hacc; simpl; [exact Hacc|].
    apply IH. destruct acc as [s|e], acc' as [s'|e']; simpl in *; try contradiction.
    - apply insert_by_timestamp_same; assumption.
    - exact Hacc. }
  apply Hfold. constructor.
Qed.

Lemma column_same (col : string) (df df' : DataFrame) :
  Forall2 (fun r r' => r !! col = r' !! col) df df' ->
  column col df = column col df'.
Proof.
  unfold column. induction 1 as [|r r' df df' Hr Hdf IH]; simpl; [reflexivity|].
  rewrite Hr, IH. reflexivity.
Qed.

Lemma select_metric_type_same (metric_type : string) (df df' : DataFrame) :
  Forall2 Spec.same_columns df df' ->
  Forall2 Spec.same_columns
    (select_metric_type metric_type df) (select_metric_type metric_type df').
Proof.
  unfold select_metric_type. induction 1 as [|r r' df df' Hr Hdf IH]; simpl; [constructor|].
  pose proof Hr as (_ & Hm & _). rewrite <- Hm.
  destruct (r !! "metric_type") as [[| s |]|]; try exact IH.
  destruct (String.eqb s metric_type); [constructor; assumption|exact IH].
Qed.

Section LabelsApart.
Context `{!Numpy}.

(** The features of two tables with the same three columns. *)
Lemma features_same (df df' : DataFrame) :
  Forall2 Spec.same_columns df df' ->
  (metric_types ← unique_metric_types df;
   features ←
     foldl (fun acc metric_type =>
              features ← acc;
              values ← values_of (select_metric_type metric_type df);
              stats ← metric_features metric_type values;
              Ok (foldl (fun d kv => Dict.set (fst kv) (snd kv) d) features stats))
           (Ok []) metric_types;
   Ok (to_row features))
  =
  (metric_types ← unique_metric_types df';
   features ←
     foldl (fun acc metric_type =>
              features ← acc;
              values ← values_of (select_metric_type metric_type df');
              stats ← metric_features metric_type values;
              Ok (foldl (fun d kv => Dict.set (fst kv) (snd kv) d) features stats))
           (Ok []) metric_types;
   Ok (to_row features)).
Proof.
  intros Hdf.
  assert (Htypes : unique_metric_types df = unique_metric_types df').
  { unfold unique_metric_types. rewrite (column_same "metric_type" df df'); [reflexivity|].
    eapply Forall2_impl; [exact Hdf|]. intros r r' (_ & Hm & _). exact Hm. }
  rewrite <- Htypes. clear Htypes.
  destruct (unique_metric_types df) as [metric_types|e]; [|reflexivity].
  cbn [mbind exc_bind]. generalize (Ok [] : exc (Dict.t float)).
  induction metric_types as [|metric_type metric_types IH]; intros acc; [reflexivity|].
  cbn [foldl].
  assert (Hvalues : values_of (select_metric_type metric_type df)
                    = values_of (select_metric_type metric_type df')).
  { unfold values_of.
    rewrite (column_same "value" (select_metric_type metric_type df)
               (select_metric_type metric_type df')); [reflexivity|].
    eapply Forall2_impl; [apply select_metric_type_same, Hdf|].
    intros r r' (_ & _ & Hv). exact Hv. }
  rewrite Hvalues. apply IH.
Qed.

(** When no label is named "timestamp", "metric_type" or "value", the
    features are those of the samples without their labels: they
    depend on the metric type, the value and the timestamp of each
    sample only. *)
Lemma preprocess_metrics_labels_apart (metrics : list MetricData) :
  Forall Spec.labels_apart metrics ->
  preprocess_metrics metrics = preprocess_metrics (map Spec.without_labels metrics).
Proof.
  intros Hlabels. unfold preprocess_metrics.
  destruct metrics as [|m metrics]; [reflexivity|].
  change (map Spec.without_labels (m :: metrics))
    with (Spec.without_labels m :: map Spec.without_labels metrics).
  cbv iota beta.
  assert (Hdf : Forall2 Spec.same_columns (map record_of (m :: metrics))
                  (map record_of (map Spec.without_labels (m :: metrics)))).
  { rewrite map_map. apply Forall2_fmap, Forall_Forall2_diag.
    eapply Forall_impl; [exact Hlabels|]. intros x Hx. apply record_of_same_columns, Hx. }
  apply sort_values_timestamp_same in Hdf.
  change (Spec.without_labels m :: map Spec.without_labels metrics)
    with (map Spec.without_labels (m :: metrics)).
  destruct (sort_values_timestamp (map record_of (m :: metrics))) as [s|e],
           (sort_values_timestamp (map record_of (map Spec.without_labels (m :: metrics))))
             as [s'|e']; simpl in Hdf; try contradiction.
  - cbn [mbind exc_bind]. apply features_same, Hdf.
  - subst e'. reflexivity.
Qed.

End LabelsApart.



Section MetricLabels.
Context `{!Numpy}.

(** C10 (the code lets labels through). Three batches of one sample
    each, equal in metric type, value and timestamp, different in
    labels only. Without labels the features are those of [cpu_usage].
    A label named "metric_type" replaces the metric type in the table:
    the same seven values come out under the names of the label's
    value. A label named "value" replaces the number by a string and
    the extraction raises. *)
Theorem preprocess_metrics_label_collision :
  let sample (labels : gmap string string) :=
    {| metric_type := CPU_USAGE; value := of_Z 50; timestamp := 1000000000;
       labels := labels |} in
  (exists row,
     preprocess_metrics [sample ∅] =
     Ok (Arr2 [row],
         ["cpu_usage_max"; "cpu_usage_mean"; "cpu_usage_median"; "cpu_usage_min";
          "cpu_usage_rate_of_change"; "cpu_usage_std"; "cpu_usage_trend"]) /\
     preprocess_metrics [sample {[ "metric_type" := "shadow" ]}] =
     Ok (Arr2 [row],
         ["shadow_max"; "shadow_mean"; "shadow_median"; "shadow_min";
          "shadow_rate_of_change"; "shadow_std"; "shadow_trend"])) /\
  preprocess_metrics [sample ∅]
    <> preprocess_metrics [sample {[ "metric_type" := "shadow" ]}] /\
  (exists e, preprocess_metrics [sample {[ "value" := "999" ]}] = Raise e).
Proof.
  intros sample. split; [|split].
  - eexists. split; vm_compute; reflexivity.
  - vm_compute. discriminate.
  - eexists. vm_compute. reflexivity.
Qed.

End MetricLabels.

End DataPreprocessorFacts.

(** ** The model service *)

Module ModelServiceFacts.
Import F64 ModelService.

Section Endpoints.
Context {F E C : Type}
  `{!IsolationForest F, !EllipticEnvelope E, !RandomForestClassifier C, !Numpy}.
Context (settings : Settings).

Lemma try_except_returns {A} (body : exc A) (handler : string -> A) :
  exists r, try_except body (fun e => Ok (handler e)) = Ok r.
Proof. destruct body as [a|e]; simpl; eauto. Qed.

(** C1. No prediction raises, whatever the libraries underneath do.
    [AnomalyDetector.predict] returns on every input, and a failure in
    the body of its [try] becomes the default answer with the message
    under "error". [FailureDetector.predict] does the same once
    trained; untrained it runs the heuristic, which returns on every
    feature row. The two endpoints of the model service return on
    every input, a failure anywhere below them becoming the degraded
    response (nothing found, score or confidence 0.0, LOW, NO_ACTION)
    with the message under "error". *)
Theorem detection_endpoints_total
    (ad : AnomalyDetector.t F E) (fd : FailureDetector.t C)
    (svc : ModelService.t F E C) (clock : Clock)
    (X : ndarray) (row : list float) (names : option (list string))
    (metrics : list MetricData) (logs : list LogData) :
  ((exists r, AnomalyDetector.predict ad X names = Ok r) /\
   (forall e, AnomalyDetector.is_trained ad = true ->
              AnomalyDetector.predict_body ad X names = Raise e ->
              AnomalyDetector.predict ad X names
              = Ok (false, of_Z 0, LOW, NO_ACTION, [("error", PyStr e)]))) /\
  ((FailureDetector.is_trained fd = true ->
    exists r, FailureDetector.predict fd X names = Ok r) /\
   (exists r, FailureDetector.predict fd (Arr2 [row]) names = Ok r) /\
   (forall e, FailureDetector.is_trained fd = true ->
              FailureDetector.predict_body fd X names = Raise e ->
              FailureDetector.predict fd X names
              = Ok (false, None, LOW, [NO_ACTION], of_Z 0, None, [],
                    [("error", PyStr e)]))) /\
  ((exists r, detect_anomaly svc metrics = Ok r) /\
   (forall e, detect_anomaly_body svc metrics = Raise e ->
              detect_anomaly svc metrics =
              Ok {| is_anomaly := false; anomaly_score := of_Z 0; severity := LOW;
                    recommended_action := NO_ACTION; confidence := of_Z 0;
                    affected_metrics := ∅; details := [("error", PyStr e)] |}) /\
   (forall features feature_names e,
      DataPreprocessor.preprocess_metrics metrics = Ok (features, feature_names) ->
      Np.size features <> 0%nat ->
      AnomalyDetector.is_trained (anomaly_detector svc) = true ->
      AnomalyDetector.predict_body (anomaly_detector svc) features (Some feature_names)
      = Raise e ->
      detect_anomaly svc metrics =
      Ok {| is_anomaly := false; anomaly_score := of_Z 0; severity := LOW;
            recommended_action := NO_ACTION; confidence := of_Z 0;
            affected_metrics :=
              list_to_set (map (fun m => metric_type_value (metric_type m)) metrics);
            details := [("error", PyStr e)] |})) /\
  ((exists r, detect_failure settings svc clock metrics logs = Ok r) /\
   (forall e, detect_failure_body settings svc clock metrics logs = Raise e ->
              detect_failure settings svc clock metrics logs =
              Ok {| failure_detected := false; failure_type := None;
                    failure_severity := LOW; recommended_actions := [NO_ACTION];
                    failure_confidence := of_Z 0; root_cause := None;
                    affected_services := [];
                    failure_details := [("error", PyStr e)] |}) /\
   (forall metric_features metric_names features e,
      DataPreprocessor.preprocess_metrics metrics = Ok (metric_features, metric_names) ->
      DataPreprocessor.combine_features metric_features
        (DataPreprocessor.preprocess_logs clock logs
           (failure_detection_window settings)).1 = Ok features ->
      Np.size features <> 0%nat ->
      FailureDetector.is_trained (failure_detector svc) = true ->
      FailureDetector.predict_body (failure_detector svc) features
        (Some (metric_names
               ++ (DataPreprocessor.preprocess_logs clock logs
                     (failure_detection_window settings)).2))
      = Raise e ->
      detect_failure settings svc clock metrics logs =
      Ok {| failure_detected := false; failure_type := None;
            failure_severity := LOW; recommended_actions := [NO_ACTION];
            failure_confidence := of_Z 0; root_cause := None;
            affected_services := [];
            failure_details := [("error", PyStr e)] |})).
Proof.
  repeat apply conj.
  - unfold AnomalyDetector.predict.
    destruct (AnomalyDetector.is_trained ad); simpl; [|eauto].
    apply (try_except_returns _ (fun e => AnomalyDetector.default_prediction _)).
  - intros e Ht Hb. unfold AnomalyDetector.predict. rewrite Ht, Hb. reflexivity.
  - intros Ht. unfold FailureDetector.predict. rewrite Ht. simpl.
    apply (try_except_returns _ (fun e => FailureDetector.no_failure _)).
  - unfold FailureDetector.predict.
    destruct (FailureDetector.is_trained fd); simpl.
    + apply (try_except_returns _ (fun e => FailureDetector.no_failure _)).
    + rewrite FailureDetectorFacts.heuristic_detection_features. eauto.
  - intros e Ht Hb. unfold FailureDetector.predict. rewrite Ht, Hb. reflexivity.
  - apply (try_except_returns _ anomaly_fallback).
  - intros e Hb. unfold detect_anomaly. rewrite Hb. reflexivity.
  - intros features feature_names e Hpre Hsize Ht Hb.
    unfold detect_anomaly, detect_anomaly_body. rewrite Hpre. cbn [mbind exc_bind].
    apply Nat.eqb_neq in Hsize. rewrite Hsize.
    unfold AnomalyDetector.predict. rewrite Ht, Hb. reflexivity.
  - apply (try_except_returns _ failure_fallback).
  - intros e Hb. unfold detect_failure. rewrite Hb. reflexivity.
  - intros metric_features metric_names features e Hpre Hcombine Hsize Ht Hb.
    unfold detect_failure, detect_failure_body. rewrite Hpre. cbn [mbind exc_bind].
    destruct (DataPreprocessor.preprocess_logs clock logs
                (failure_detection_window settings)) as [log_features log_names].
    cbn [fst snd] in Hcombine, Hb. rewrite Hcombine. cbn [mbind exc_bind].
    apply Nat.eqb_neq in Hsize. rewrite Hsize.
    unfold FailureDetector.predict. rewrite Ht, Hb. reflexivity.
Qed.

End Endpoints.

(** The service as it starts: the forest was fitted on rows of ten
    numbers and refuses the seven features of one metric type; the
    classifier is untrained. *)
Lemma detection_endpoints_total_witness :
  let refusal := "X has 7 features, but IsolationForest is expecting 10 features" in
  let ad := Ref.detector (Raise refusal) (Raise refusal) in
  let svc := {| anomaly_detector := ad;
                failure_detector := @FailureDetector.init _ Ref.classifier;
                models_loaded := true |} in
  let metrics := [ {| metric_type := CPU_USAGE; value := of_Z 95;
                      timestamp := 1000000000; labels := ∅ |} ] in
  @detect_anomaly _ _ _ Ref.forest Ref.numpy svc metrics =
  Ok {| is_anomaly := false; anomaly_score := of_Z 0; severity := LOW;
        recommended_action := NO_ACTION; confidence := of_Z 0;
        affected_metrics := {[ "cpu_usage" ]};
        details := [("error", PyStr refusal)] |}.
Proof.
  intros refusal ad svc metrics.
  pose proof (@detection_endpoints_total _ _ _ Ref.forest Ref.classifier
                Ref.numpy default_settings ad (failure_detector svc) svc
                {| utcnow := 1010000000 |} (Arr1 []) [] None metrics [])
    as (_ & _ & (_ & _ & Hinner) & _).
  eapply (Hinner _ _ refusal); [vm_compute; reflexivity | simpl; lia | reflexivity
                               | reflexivity].
Defined.

(** Outside its declared domain the untrained failure detector does
    raise: the heuristic is not under the [try] of [predict], and a
    one-dimensional array has no first row to pair with the names. *)
Remark failure_predict_untrained_one_dimensional :
  @FailureDetector.predict _ Ref.classifier Ref.numpy (@FailureDetector.init _ Ref.classifier)
    (Arr1 [of_Z 1]) (Some ["error_rate"])
  = Raise "'numpy.float64' object is not iterable".
Proof. reflexivity. Qed.

End ModelServiceFacts.

(** * Further properties of the services *)

(** ** Sorting *)

Module SortFacts.
Import Str.

Section Insertion.
Context {A : Type} (le : A -> A -> bool) (P : A -> Prop).
Hypothesis le_total : forall a b, P a -> P b -> le a b = true \/ le b a = true.
Hypothesis le_trans :
  forall a b c, P a -> P b -> P c -> le a b = true -> le b c = true -> le a c = true.

Lemma insert_sorted_perm (x : A) (l : list A) : insert_sorted le x l ≡ₚ x :: l.
Proof.
  induction l as [|y l IH]; simpl; [reflexivity|].
  destruct (le y x); [|reflexivity]. rewrite IH. apply Permutation_swap.
Qed.

Lemma fold_insert_perm (l acc : list A) :
  fold_left (fun acc x => insert_sorted le x acc) l acc ≡ₚ acc ++ l.
Proof.
  revert acc. induction l as [|x l IH]; intros acc; simpl.
  - rewrite app_nil_r. reflexivity.
  - rewrite IH, insert_sorted_perm. simpl. apply Permutation_middle.
Qed.

Lemma sorted_by_perm (l : list A) : sorted_by le l ≡ₚ l.
Proof. unfold sorted_by. rewrite fold_insert_perm. reflexivity. Qed.

Lemma insert_sorted_sorted (x : A) (l : list A) :
  P x -> Forall P l ->
  StronglySorted (fun a b => le a b = true) l ->
  StronglySorted (fun a b => le a b = true) (insert_sorted le x l).
Proof.
  intros Hx Hl Hs. induction Hs as [|y l Hs IH Hy]; simpl.
  - repeat constructor.
  - apply Forall_cons in Hl as [Py Pl].
    destruct (le y x) eqn:Hyx.
    + constructor; [apply IH, Pl|].
      rewrite insert_sorted_perm. constructor; [exact Hyx|exact Hy].
    + assert (Hxy : le x y = true).
      { destruct (le_total x y Hx Py) as [H|H]; [exact H|congruence]. }
      constructor; [constructor; assumption|].
      constructor; [exact Hxy|].
      rewrite Forall_forall in Hy, Pl. apply Forall_forall. intros z Hz.
      apply (le_trans x y z); auto.
Qed.

Lemma sorted_by_sorted (l : list A) :
  Forall P l -> StronglySorted (fun a b => le a b = true) (sorted_by le l).
Proof.
  unfold sorted_by. intros Hl.
  assert (Hfold : forall acc, Forall P acc ->
            StronglySorted (fun a b => le a b = true) acc ->
            StronglySorted (fun a b => le a b = true)
              (fold_left (fun acc x => insert_sorted le x acc) l acc)).
  { induction Hl as [|x l Hx Hl IH]; intros acc Pacc Hacc; simpl; [exact Hacc|].
    apply IH.
    - rewrite insert_sorted_perm. constructor; assumption.
    - apply insert_sorted_sorted; assumption. }
  apply Hfold; constructor.
Qed.

End Insertion.

(** *** The order of strings *)

Lemma ascii_compare_lt_trans (a b c : ascii) :
  Ascii.compare a b = Lt -> Ascii.compare b c = Lt -> Ascii.compare a c = Lt.
Proof. unfold Ascii.compare. rewrite !N.compare_lt_iff. lia. Qed.

Lemma string_compare_lt_trans (a b c : string) :
  String.compare a b = Lt -> String.compare b c = Lt -> String.compare a c = Lt.
Proof.
  revert b c. induction a as [|x a IH]; intros [|y b] [|z c]; simpl;
    try discriminate; try reflexivity.
  destruct (Ascii.compare x y) eqn:Hxy; try discriminate;
    destruct (Ascii.compare y z) eqn:Hyz; try discriminate; intros Hab Hbc.
  - apply Ascii.compare_eq_iff in Hxy, Hyz. subst y z.
    assert (Hxx : Ascii.compare x x = Eq) by apply N.compare_refl.
    rewrite Hxx. eapply IH; eassumption.
  - apply Ascii.compare_eq_iff in Hxy. subst y. rewrite Hyz. reflexivity.
  - apply Ascii.compare_eq_iff in Hyz. subst z. rewrite Hxy. reflexivity.
  - rewrite (ascii_compare_lt_trans _ _ _ Hxy Hyz). reflexivity.
Qed.

Lemma string_compare_refl (a : string) : String.compare a a = Eq.
Proof.
  induction a as [|x a IH]; simpl; [reflexivity|].
  assert (Hxx : Ascii.compare x x = Eq) by apply N.compare_refl.
  rewrite Hxx. exact IH.
Qed.

Lemma string_leb_trans (a b c : string) :
  String.leb a b = true -> String.leb b c = true -> String.leb a c = true.
Proof.
  unfold String.leb.
  destruct (String.compare a b) eqn:Hab; try discriminate;
    destruct (String.compare b c) eqn:Hbc; try discriminate; intros _ _.
  - apply String.compare_eq_iff in Hab, Hbc. subst. rewrite string_compare_refl. reflexivity.
  - apply String.compare_eq_iff in Hab. subst. rewrite Hbc. reflexivity.
  - apply String.compare_eq_iff in Hbc. subst. rewrite Hab. reflexivity.
  - rewrite (string_compare_lt_trans _ _ _ Hab Hbc). reflexivity.
Qed.

Lemma string_leb_ltb (a b : string) :
  String.leb a b = true -> a <> b -> String.ltb a b = true.
Proof.
  unfold String.leb, String.ltb. destruct (String.compare a b) eqn:Hab;
    try discriminate; try reflexivity.
  apply String.compare_eq_iff in Hab. contradiction.
Qed.

(** [sorted] of names that are all different puts them in ascending
    order and keeps every one of them. *)
Lemma sorted_ascending (names : list string) :
  NoDup names -> View.ascending (sorted names) /\ sorted names ≡ₚ names.
Proof.
  intros Hnd. split; [|apply sorted_by_perm].
  pose proof (sorted_by_perm String.leb names) as Hperm.
  assert (Hs : StronglySorted (fun a b => String.leb a b = true) (sorted names)).
  { apply (sorted_by_sorted String.leb (fun _ => True)).
    - intros a b _ _. apply String.leb_total.
    - intros a b c _ _ _. apply string_leb_trans.
    - apply Forall_forall. auto. }
  assert (Hnd' : NoDup (sorted names)) by (unfold sorted; rewrite Hperm; exact Hnd).
  unfold View.ascending. induction Hs as [|x l Hs IH Hx]; constructor.
  - apply IH. apply NoDup_cons in Hnd' as [_ ?]. assumption.
  - apply NoDup_cons in Hnd' as [Hx' _]. rewrite Forall_forall in Hx.
    apply Forall_forall. intros y Hy. apply string_leb_ltb; [auto|].
    intros ->. contradiction.
Qed.

End SortFacts.

(** ** Feature vectors *)

Module FeatureVectorFacts.
Import F64 DataPreprocessor.

Lemma nan_to_num_finite (x : float) : View.is_finite (F64.nan_to_num x) = true.
Proof. destruct x as [s|[|]| |s m e]; reflexivity. Qed.

Lemma get_zip_map (f : string -> float) (names : list string) (k : string) :
  Dict.get k (zip names (map f names)) = if bool_decide (k ∈ names) then Some (f k) else None.
Proof.
  induction names as [|n names IH]; simpl; [reflexivity|].
  destruct (String.eqb_spec n k) as [->|Hne].
  - rewrite bool_decide_eq_true_2 by left. reflexivity.
  - rewrite IH.
    destruct (bool_decide (k ∈ names)) eqn:Hk.
    + apply bool_decide_eq_true in Hk. rewrite bool_decide_eq_true_2 by (right; exact Hk).
      reflexivity.
    + apply bool_decide_eq_false in Hk. rewrite bool_decide_eq_false_2; [reflexivity|].
      intros Hin. apply elem_of_cons in Hin as [->|Hin]; [congruence|contradiction].
Qed.

Lemma zip_map_length {A B} (f : A -> B) (l : list A) : length (map f l) = length l.
Proof. apply length_map. Qed.

(** The value that goes with a name in the row is the value stored
    under that name, NaN and infinities replaced. *)
Lemma feature_to_row (features : Dict.t float) (k : string) :
  Spec.feature (to_row features) k = F64.nan_to_num <$> Dict.get k features.
Proof.
  unfold Spec.feature, to_row, Np.reshape_row, Np.nan_to_num. cbn [fst snd].
  rewrite map_map, get_zip_map.
  pose proof (SortFacts.sorted_by_perm String.leb (Dict.keys features)) as Hperm.
  destruct (Dict.get k features) as [v|] eqn:Hk.
  - rewrite bool_decide_eq_true_2.
    + unfold Dict.get_default. rewrite Hk. reflexivity.
    + unfold Str.sorted. rewrite Hperm. apply list_elem_of_In.
      apply DictFacts.mem_keys. unfold Dict.mem. rewrite Hk. reflexivity.
  - rewrite bool_decide_eq_false_2; [reflexivity|].
    unfold Str.sorted. rewrite Hperm. intros Hin. apply list_elem_of_In in Hin.
    apply DictFacts.get_None_keys in Hk. contradiction.
Qed.

(** A dictionary with distinct keys becomes a well-formed vector. *)
Lemma to_row_ok (features : Dict.t float) :
  NoDup (Dict.keys features) -> View.feature_vector_ok (to_row features).
Proof.
  intros Hnd. right. unfold to_row, Np.reshape_row, Np.nan_to_num. cbn [fst snd].
  eexists. split; [reflexivity|]. split; [|split].
  - rewrite !length_map. reflexivity.
  - apply Forall_forall. intros x Hx. apply list_elem_of_In, in_map_iff in Hx.
    destruct Hx as (y & <- & _). apply nan_to_num_finite.
  - apply SortFacts.sorted_ascending, Hnd.
Qed.

End FeatureVectorFacts.

(** ** The log features *)

Module LogFeatureFacts.
Import F64 DataPreprocessor.

(** Counting by a key: the counter of a key grows by the number of
    entries that have it. *)
Lemma count_up_fold (key : LogData -> string) (logs : list LogData)
    (counts : gmap string nat) (k : string) :
  default 0%nat (foldl (fun counts log => count_up (key log) counts) counts logs !! k) =
  (default 0%nat (counts !! k)
   + length (List.filter (fun log => String.eqb (key log) k) logs))%nat.
Proof.
  revert counts. induction logs as [|log logs IH]; intros counts; simpl; [lia|].
  rewrite IH. unfold count_up. rewrite lookup_insert.
  destruct (String.eqb_spec (key log) k) as [Heq|Hne].
  - rewrite decide_True by exact Heq. subst k. simpl. lia.
  - rewrite decide_False by exact Hne. lia.
Qed.

Lemma count_up_dom (key : LogData -> string) (logs : list LogData)
    (counts : gmap string nat) :
  dom (foldl (fun counts log => count_up (key log) counts) counts logs) =
  dom counts ∪ list_to_set (key <$> logs).
Proof.
  revert counts. induction logs as [|log logs IH]; intros counts; cbn [foldl].
  - rewrite fmap_nil, list_to_set_nil, (right_id_L ∅ (∪)). reflexivity.
  - rewrite IH. unfold count_up. rewrite dom_insert_L, fmap_cons, list_to_set_cons.
    rewrite (comm_L (∪) {[key log]} (dom counts)), (assoc_L (∪)). reflexivity.
Qed.

Lemma count_levels_entries (lvl : string) (logs : list LogData) :
  default 0%nat (count_levels logs !! lvl) = View.level_entries lvl logs.
Proof.
  unfold count_levels, View.level_entries.
  rewrite (count_up_fold (fun log => Str.lower (level log))), lookup_empty. reflexivity.
Qed.

Lemma count_services_entries (svc : string) (logs : list LogData) :
  default 0%nat (count_services logs !! svc) = View.service_entries svc logs.
Proof.
  unfold count_services, View.service_entries.
  rewrite (count_up_fold service), lookup_empty. reflexivity.
Qed.

Lemma count_services_size (logs : list LogData) :
  size (count_services logs) = size (list_to_set (service <$> logs) : gset string).
Proof.
  rewrite <- (size_dom (D:=gset string)). unfold count_services.
  rewrite (count_up_dom service), dom_empty_L, (left_id_L ∅ (∪)). reflexivity.
Qed.

(** The largest value of a map of counters bounds every counter and
    is one of them. *)
Lemma max_count_spec (counts : gmap string nat) :
  (forall k n, counts !! k = Some n -> (n <= max_count counts)%nat) /\
  ((counts = ∅ /\ max_count counts = 0%nat)
   \/ exists k, counts !! k = Some (max_count counts)).
Proof.
  unfold max_count.
  apply (map_fold_weak_ind
           (fun r (m : gmap string nat) =>
              (forall k n, m !! k = Some n -> (n <= r)%nat) /\
              ((m = ∅ /\ r = 0%nat) \/ exists k, m !! k = Some r))).
  - split; [|left; split; reflexivity].
    intros k n Hk. rewrite lookup_empty in Hk. discriminate.
  - intros i x m r Hi [Hle Hmax]. split.
    + intros k n Hk. rewrite lookup_insert in Hk. destruct (decide (i = k)) as [->|Hne].
      * injection Hk as <-. apply Nat.le_max_l.
      * apply Hle in Hk. etrans; [exact Hk|apply Nat.le_max_r].
    + right. destruct Hmax as [[-> ->]|[k Hk]].
      * exists i. rewrite Nat.max_0_r. apply lookup_insert_eq.
      * destruct (Nat.max_spec_le x r) as [[Hxr Hm]|[Hrx Hm]]; rewrite Hm.
        { exists k. rewrite lookup_insert_ne; [exact Hk|]. intros ->. congruence. }
        exists i. apply lookup_insert_eq.
Qed.

(** The feature dictionary of the log extractor, every value spelled
    out. *)
Lemma log_features_values (recent_logs : list LogData) :
  recent_logs <> [] ->
  log_features recent_logs =
  [("error_count", of_nat (View.level_entries "error" recent_logs));
   ("warn_count", of_nat (View.level_entries "warn" recent_logs));
   ("info_count", of_nat (View.level_entries "info" recent_logs));
   ("total_logs", of_nat (length recent_logs));
   ("error_rate", div (of_nat (View.level_entries "error" recent_logs))
                      (of_nat (length recent_logs)));
   ("unique_services",
     of_nat (size (list_to_set (service <$> recent_logs) : gset string)));
   ("max_service_errors", of_nat (max_count (count_services recent_logs)));
   ("keyword_timeout", of_nat (Spec.keyword_entries "timeout" recent_logs));
   ("keyword_connection", of_nat (Spec.keyword_entries "connection" recent_logs));
   ("keyword_failed", of_nat (Spec.keyword_entries "failed" recent_logs));
   ("keyword_exception", of_nat (Spec.keyword_entries "exception" recent_logs));
   ("keyword_error", of_nat (Spec.keyword_entries "error" recent_logs));
   ("keyword_crashed", of_nat (Spec.keyword_entries "crashed" recent_logs))].
Proof.
  intros Hne. unfold log_features. cbv zeta.
  assert (Hkc : count_keywords recent_logs =
                map (fun k => (k, Spec.keyword_entries k recent_logs)) error_keywords).
  { rewrite (DictFacts.items_by_keys 0%nat (count_keywords recent_logs)) at 1
      by (rewrite DataPreprocessorFacts.count_keywords_dict_keys;
          apply DataPreprocessorFacts.error_keywords_NoDup).
    rewrite DataPreprocessorFacts.count_keywords_dict_keys. apply map_ext_in. intros k Hk.
    rewrite DataPreprocessorFacts.count_keywords_entries by exact Hk. reflexivity. }
  rewrite Hkc, !count_levels_entries, count_services_size.
  assert (Hlen : (0 <? length recent_logs)%nat = true).
  { apply Nat.ltb_lt. destruct recent_logs; [contradiction|simpl; lia]. }
  rewrite Hlen. reflexivity.
Qed.


Lemma log_features_keys (recent_logs : list LogData) :
  recent_logs <> [] ->
  NoDup (Dict.keys (log_features recent_logs)) /\
  Str.sorted (Dict.keys (log_features recent_logs)) = View.log_feature_names.
Proof.
  intros Hne. rewrite (log_features_values _ Hne). split.
  - apply (bool_decide_unpack _). vm_compute. exact I.
  - reflexivity.
Qed.



(** X2. The counters of the log extractor, over the entries inside the
    window: [error_count], [warn_count] and [info_count] are the
    numbers of entries whose level, in lower case, is "error", "warn"
    and "info"; [total_logs] is the number of entries of any level;
    [error_rate] is the quotient of [error_count] by [total_logs]. *)
Theorem log_level_features (clock : Clock) (logs : list LogData) (window_size : Z) :
  let recent_logs := Spec.recent clock window_size logs in
  let out := preprocess_logs clock logs window_size in
  recent_logs <> [] ->
  Spec.feature out "error_count"
    = Some (F64.nan_to_num (of_nat (View.level_entries "error" recent_logs))) /\
  Spec.feature out "warn_count"
    = Some (F64.nan_to_num (of_nat (View.level_entries "warn" recent_logs))) /\
  Spec.feature out "info_count"
    = Some (F64.nan_to_num (of_nat (View.level_entries "info" recent_logs))) /\
  Spec.feature out "total_logs"
    = Some (F64.nan_to_num (of_nat (length recent_logs))) /\
  Spec.feature out "error_rate"
    = Some (F64.nan_to_num
              (div (of_nat (View.level_entries "error" recent_logs))
                   (of_nat (length recent_logs)))).
Proof.
  cbv zeta. intros Hne. rewrite DataPreprocessorFacts.preprocess_logs_recent.
  destruct (Spec.recent clock window_size logs) as [|log recent_logs] eqn:Hr;
    [contradiction|].
  rewrite !FeatureVectorFacts.feature_to_row, (log_features_values _ Hne).
  repeat split; reflexivity.
Qed.

(** The example of the test suite: two errors, one warning and one
    informational entry. *)
Lemma log_level_features_witness :
  let entry lvl := {| log_timestamp := 1000000000; level := lvl;
                      message := "Request completed"; service := "api" |} in
  let out := preprocess_logs {| utcnow := 1010000000 |}
               [entry "error"; entry "ERROR"; entry "warn"; entry "info"] 300 in
  Spec.feature out "error_count" = Some (of_Z 2) /\
  Spec.feature out "warn_count" = Some (of_Z 1) /\
  Spec.feature out "info_count" = Some (of_Z 1) /\
  Spec.feature out "total_logs" = Some (of_Z 4) /\
  Spec.feature out "error_rate" = Some (dec 5 1).
Proof.
  intros entry out.
  apply (log_level_features {| utcnow := 1010000000 |}
           [entry "error"; entry "ERROR"; entry "warn"; entry "info"] 300).
  discriminate.
Defined.

(** X3. The service features of the log extractor, over the entries inside
    the window: [unique_services] is the number of distinct services;
    [max_service_errors] is the largest number of entries of one
    service, of any level, not of its errors only: no service has more
    entries, and the service of some entry has exactly that many. *)
Theorem log_service_features (clock : Clock) (logs : list LogData) (window_size : Z) :
  let recent_logs := Spec.recent clock window_size logs in
  let out := preprocess_logs clock logs window_size in
  recent_logs <> [] ->
  Spec.feature out "unique_services"
    = Some (F64.nan_to_num
              (of_nat (size (list_to_set (service <$> recent_logs) : gset string)))) /\
  exists most : nat,
    Spec.feature out "max_service_errors" = Some (F64.nan_to_num (of_nat most)) /\
    (forall svc, (View.service_entries svc recent_logs <= most)%nat) /\
    (exists log, In log recent_logs /\
                 View.service_entries (service log) recent_logs = most).
Proof.
  cbv zeta. intros Hne. rewrite DataPreprocessorFacts.preprocess_logs_recent.
  destruct (Spec.recent clock window_size logs) as [|log recent_logs] eqn:Hr;
    [contradiction|].
  rewrite !FeatureVectorFacts.feature_to_row, (log_features_values _ Hne).
  split; [reflexivity|].
  exists (max_count (count_services (log :: recent_logs))). split; [reflexivity|].
  destruct (max_count_spec (count_services (log :: recent_logs))) as [Hle Hmax].
  assert (Hbound : forall svc,
            (View.service_entries svc (log :: recent_logs)
             <= max_count (count_services (log :: recent_logs)))%nat).
  { intros svc. rewrite <- count_services_entries.
    destruct (count_services (log :: recent_logs) !! svc) as [n|] eqn:Hn; simpl;
      [eapply Hle; eassumption|lia]. }
  split; [exact Hbound|].
  assert (Hfirst : (1 <= View.service_entries (service log) (log :: recent_logs))%nat).
  { unfold View.service_entries. simpl. rewrite String.eqb_refl. simpl. lia. }
  destruct Hmax as [[Hempty _]|[k Hk]].
  - exfalso. pose proof (count_services_entries (service log) (log :: recent_logs)) as Hc.
    rewrite Hempty, lookup_empty in Hc. simpl in Hc. lia.
  - pose proof (count_services_entries k (log :: recent_logs)) as Hc.
    rewrite Hk in Hc. simpl in Hc.
    assert (Hpos : (1 <= View.service_entries k (log :: recent_logs))%nat).
    { rewrite <- Hc. etrans; [exact Hfirst|apply Hbound]. }
    unfold View.service_entries in Hpos.
    destruct (List.filter (fun l => String.eqb (service l) k) (log :: recent_logs))
      as [|l ls] eqn:Hf; [simpl in Hpos; lia|].
    assert (Hl : In l (List.filter (fun l => String.eqb (service l) k) (log :: recent_logs)))
      by (rewrite Hf; left; reflexivity).
    apply filter_In in Hl as [Hin Hsvc]. apply String.eqb_eq in Hsvc.
    exists l. split; [exact Hin|]. rewrite Hsvc. symmetry. exact Hc.
Qed.

(** Three entries of one service, one of them an error, and one entry
    of another: the feature named after errors is 3. *)
Lemma log_service_features_witness :
  let entry lvl svc := {| log_timestamp := 1000000000; level := lvl;
                          message := "Request completed"; service := svc |} in
  let out := preprocess_logs {| utcnow := 1010000000 |}
               [entry "error" "api"; entry "info" "api"; entry "info" "worker";
                entry "info" "api"] 300 in
  Spec.feature out "unique_services" = Some (of_Z 2) /\
  Spec.feature out "max_service_errors" = Some (of_Z 3).
Proof.
  intros entry out.
  destruct (log_service_features {| utcnow := 1010000000 |}
              [entry "error" "api"; entry "info" "api"; entry "info" "worker";
               entry "info" "api"] 300) as [Hunique _]; [discriminate|].
  split; [exact Hunique|reflexivity].
Defined.

End LogFeatureFacts.

(** ** The metric features *)

Module MetricFeatureFacts.
Import F64 DataPreprocessor.

Lemma mapM_exc_length {A B} (f : A -> exc B) (l : list A) (k : list B) :
  mapM f l = Ok k -> length k = length l.
Proof.
  revert k. induction l as [|x l IH]; intros k; simpl.
  - intros [= <-]. reflexivity.
  - destruct (f x) as [y|e]; simpl; [|discriminate].
    destruct (mapM f l) as [k'|e]; simpl; [|discriminate].
    intros [= <-]. simpl. rewrite (IH k' eq_refl). reflexivity.
Qed.

Lemma insert_by_timestamp_length (r : gmap string cell) (df s : DataFrame) :
  insert_by_timestamp r df = Ok s -> length s = S (length df).
Proof.
  revert s. induction df as [|r' df IH]; intros s; simpl.
  - intros [= <-]. reflexivity.
  - destruct (r' !! "timestamp") as [c'|]; [|discriminate].
    destruct (r !! "timestamp") as [c|]; [|discriminate].
    destruct (cell_le c' c) as [[|]|e]; simpl; try discriminate.
    + destruct (insert_by_timestamp r df) as [rest|e]; simpl; [|discriminate].
      intros [= <-]. simpl. rewrite (IH rest eq_refl). reflexivity.
    + intros [= <-]. reflexivity.
Qed.

Lemma sort_values_timestamp_length (df s : DataFrame) :
  sort_values_timestamp df = Ok s -> length s = length df.
Proof.
  unfold sort_values_timestamp.
  assert (Hfold : forall (acc : exc DataFrame) s,
            foldl (fun acc r => sorted ← acc; insert_by_timestamp r sorted) acc df = Ok s ->
            exists s0, acc = Ok s0 /\ length s = (length s0 + length df)%nat).
  { induction df as [|r df IH]; intros acc s0; simpl.
    - intros ->. exists s0. split; [reflexivity|lia].
    - intros Hs. apply IH in Hs as (s1 & Hs1 & Hlen).
      destruct acc as [a|e]; simpl in Hs1; [|discriminate].
      apply insert_by_timestamp_length in Hs1. exists a. split; [reflexivity|lia]. }
  intros Hs. apply Hfold in Hs as (s0 & [= <-] & Hlen). simpl in Hlen. exact Hlen.
Qed.

Lemma unique_metric_types_nonempty (df : DataFrame) (types : list string) :
  df <> [] -> unique_metric_types df = Ok types -> types <> [].
Proof.
  intros Hdf. unfold unique_metric_types, column.
  destruct (mapM _ df) as [cells|e] eqn:Hcells; simpl; [|discriminate].
  destruct (mapM _ cells) as [names|e] eqn:Hnames; simpl; [|discriminate].
  intros [= <-]. apply mapM_exc_length in Hcells, Hnames.
  destruct names as [|n names]; [|discriminate].
  destruct df; [contradiction|]. simpl in *. lia.
Qed.

Lemma set_nonempty {V} (k : string) (v : V) (d : Dict.t V) : Dict.set k v d <> [].
Proof.
  destruct d as [|[k' v'] d]; simpl; [discriminate|].
  destruct (String.eqb k' k); discriminate.
Qed.

Lemma foldl_set_keys {V} (l : list (string * V)) (d : Dict.t V) :
  NoDup (Dict.keys d) ->
  NoDup (Dict.keys (foldl (fun d kv => Dict.set (fst kv) (snd kv) d) d l)).
Proof.
  revert d. induction l as [|[k v] l IH]; intros d Hd; simpl; [exact Hd|].
  apply IH, DictFacts.NoDup_keys_set, Hd.
Qed.

Lemma foldl_set_nonempty {V} (l : list (string * V)) (d : Dict.t V) :
  l <> [] \/ d <> [] ->
  foldl (fun d kv => Dict.set (fst kv) (snd kv) d) d l <> [].
Proof.
  revert d. induction l as [|[k v] l IH]; intros d Hne; simpl.
  - destruct Hne as [Hne|Hne]; [contradiction|exact Hne].
  - apply IH. right. apply set_nonempty.
Qed.

Section Features.
Context `{!Numpy}.

Lemma metric_features_length (metric_type : string) (values : list float)
    (stats : list (string * float)) :
  metric_features metric_type values = Ok stats ->
  map fst stats = View.stat_names metric_type.
Proof.
  unfold metric_features.
  destruct (if (2 <? length values)%nat then np_polyfit_slope values else Ok (of_Z 0))
    as [trend|e]; simpl; [|discriminate].
  intros [= <-]. reflexivity.
Qed.

(** The loop over the metric types keeps the keys distinct and leaves
    a dictionary that is not empty once a type has been handled. *)
Lemma features_fold_keys (df : DataFrame) (types : list string)
    (acc : exc (Dict.t float)) (features : Dict.t float) :
  foldl (fun acc metric_type =>
           features ← acc;
           values ← values_of (select_metric_type metric_type df);
           stats ← metric_features metric_type values;
           Ok (foldl (fun d kv => Dict.set (fst kv) (snd kv) d) features stats))
        acc types = Ok features ->
  exists d0, acc = Ok d0 /\
             (NoDup (Dict.keys d0) -> NoDup (Dict.keys features)) /\
             (types <> [] \/ d0 <> [] -> features <> []).
Proof.
  revert acc. induction types as [|metric_type types IH]; intros acc; simpl.
  - intros ->. exists features. repeat split; [auto|].
    intros [Hnil|Hd]; [contradiction|exact Hd].
  - intros Hfold. apply IH in Hfold as (d1 & Hd1 & Hnd & Hne).
    destruct acc as [d0|e]; simpl in Hd1; [|discriminate].
    destruct (values_of (select_metric_type metric_type df)) as [values|e];
      simpl in Hd1; [|discriminate].
    destruct (metric_features metric_type values) as [stats|e] eqn:Hstats;
      simpl in Hd1; [|discriminate].
    injection Hd1 as <-. exists d0. split; [reflexivity|]. split.
    + intros Hd0. apply Hnd, foldl_set_keys, Hd0.
    + intros _. apply Hne. right. apply foldl_set_nonempty. left.
      apply metric_features_length in Hstats. destruct stats; [discriminate|discriminate].
Qed.

(** X4. Whenever the metric extractor returns, it returns a well-formed
    vector: the empty one for an empty batch and for no other batch;
    otherwise one row of finite numbers with a name for each, the
    names ascending. *)
Theorem preprocess_metrics_vector (metrics : list MetricData)
    (out : ndarray * list string) :
  preprocess_metrics metrics = Ok out ->
  View.feature_vector_ok out /\
  (metrics = [] -> out = (Arr1 [], [])) /\
  (metrics <> [] -> Np.size (fst out) <> 0%nat).
Proof.
  unfold preprocess_metrics. destruct metrics as [|m metrics].
  - intros [= <-]. split; [left; reflexivity|]. split; [reflexivity|contradiction].
  - destruct (sort_values_timestamp (map record_of (m :: metrics))) as [df|e] eqn:Hdf;
      cbn [mbind exc_bind]; [|discriminate].
    destruct (unique_metric_types df) as [types|e] eqn:Htypes;
      cbn [mbind exc_bind]; [|discriminate].
    match goal with
    | |- context [foldl ?step (Ok []) types] =>
        destruct (foldl step (Ok []) types) as [features|e] eqn:Hfold
    end; cbn [mbind exc_bind]; [|discriminate].
    intros [= <-].
    apply sort_values_timestamp_length in Hdf.
    assert (Hdfne : df <> []) by (destruct df; [discriminate|discriminate]).
    pose proof (unique_metric_types_nonempty _ _ Hdfne Htypes) as Htne.
    apply features_fold_keys in Hfold as (d0 & [= <-] & Hnd & Hne).
    split; [apply FeatureVectorFacts.to_row_ok, Hnd; constructor|].
    split; [discriminate|]. intros _.
    unfold to_row, Np.reshape_row. cbn [fst]. rewrite DataPreprocessorFacts.size_row.
    unfold Np.nan_to_num. rewrite !length_map.
    pose proof (SortFacts.sorted_by_perm String.leb (Dict.keys features)) as Hperm.
    unfold Str.sorted. rewrite (Permutation_length Hperm). unfold Dict.keys.
    rewrite length_map. specialize (Hne (or_introl Htne)).
    destruct features; [contradiction|discriminate].
Qed.

End Features.

Lemma preprocess_metrics_vector_witness :
  let metrics := [ {| metric_type := REQUEST_RATE; value := of_Z 10;
                      timestamp := 1000000000; labels := {[ "pod" := "api-1" ]} |};
                   {| metric_type := REQUEST_RATE; value := of_Z 20;
                      timestamp := 1010000000; labels := {[ "pod" := "api-1" ]} |} ] in
  exists out, @preprocess_metrics Ref.numpy metrics = Ok out /\
              View.feature_vector_ok out /\ Np.size (fst out) <> 0%nat.
Proof.
  intros metrics.
  destruct (@preprocess_metrics Ref.numpy metrics) as [out|e] eqn:Hout;
    [|vm_compute in Hout; discriminate Hout].
  exists out. split; [reflexivity|].
  destruct (@preprocess_metrics_vector Ref.numpy metrics out Hout) as (Hok & _ & Hsize).
  split; [exact Hok|]. apply Hsize. discriminate.
Defined.


(** *** The order of the samples *)

Lemma record_of_timestamp (m : MetricData) :
  labels m !! "timestamp" = None ->
  record_of m !! "timestamp" = Some (CTime (timestamp m)).
Proof.
  intros Hl. unfold record_of. rewrite lookup_union, lookup_fmap, Hl. reflexivity.
Qed.

(** On samples whose labels leave the timestamp alone, sorting the
    table is sorting the samples by their instants. *)
Lemma insert_by_timestamp_samples (m : MetricData) (l : list MetricData) :
  labels m !! "timestamp" = None ->
  Forall (fun m => labels m !! "timestamp" = None) l ->
  insert_by_timestamp (record_of m) (map record_of l) =
  Ok (map record_of
        (Str.insert_sorted (fun a b => timestamp a <=? timestamp b) m l)).
Proof.
  intros Hm Hl. induction Hl as [|y l Hy Hl IH]; simpl; [reflexivity|].
  rewrite (record_of_timestamp y Hy), (record_of_timestamp m Hm). simpl.
  destruct (timestamp y <=? timestamp m); [|reflexivity].
  rewrite IH. reflexivity.
Qed.

Lemma insert_sorted_clean (m : MetricData) (l : list MetricData) :
  labels m !! "timestamp" = None ->
  Forall (fun m => labels m !! "timestamp" = None) l ->
  Forall (fun m => labels m !! "timestamp" = None)
    (Str.insert_sorted (fun a b => timestamp a <=? timestamp b) m l).
Proof.
  intros Hm Hl.
  rewrite (SortFacts.insert_sorted_perm (fun a b => timestamp a <=? timestamp b) m l).
  constructor; assumption.
Qed.

Lemma sort_values_timestamp_samples (l : list MetricData) :
  Forall (fun m => labels m !! "timestamp" = None) l ->
  sort_values_timestamp (map record_of l) =
  Ok (map record_of (Str.sorted_by (fun a b => timestamp a <=? timestamp b) l)).
Proof.
  unfold sort_values_timestamp, Str.sorted_by. intros Hl.
  assert (Hfold : forall acc,
            Forall (fun m => labels m !! "timestamp" = None) acc ->
            foldl (fun acc r => sorted ← acc; insert_by_timestamp r sorted)
                  (Ok (map record_of acc)) (map record_of l) =
            Ok (map record_of
                  (fold_left
                     (fun acc x =>
                        Str.insert_sorted (fun a b => timestamp a <=? timestamp b) x acc)
                     l acc))).
  { induction Hl as [|m l Hm Hl IH]; intros acc Hacc; simpl; [reflexivity|].
    rewrite (insert_by_timestamp_samples m acc Hm Hacc).
    apply IH, insert_sorted_clean; assumption. }
  apply (Hfold []). constructor.
Qed.

Lemma NoDup_fmap_inj {A B} (f : A -> B) (l : list A) (x y : A) :
  NoDup (f <$> l) -> x ∈ l -> y ∈ l -> f x = f y -> x = y.
Proof.
  induction l as [|z l IH]; intros Hnd Hx Hy Hxy; [inversion Hx|].
  rewrite fmap_cons in Hnd. apply NoDup_cons in Hnd as [Hz Hnd].
  apply elem_of_cons in Hx as [->|Hx]; apply elem_of_cons in Hy as [->|Hy].
  - reflexivity.
  - exfalso. apply Hz. rewrite Hxy. apply list_elem_of_fmap_2, Hy.
  - exfalso. apply Hz. rewrite <- Hxy. apply list_elem_of_fmap_2, Hx.
  - apply IH; assumption.
Qed.

(** Samples at distinct instants sort to one list, in whatever order
    they arrive. *)
Lemma sorted_by_timestamp_unique (l l' : list MetricData) :
  l ≡ₚ l' -> NoDup (timestamp <$> l) ->
  Str.sorted_by (fun a b => timestamp a <=? timestamp b) l =
  Str.sorted_by (fun a b => timestamp a <=? timestamp b) l'.
Proof.
  intros Hperm Hnd.
  set (le := fun a b : MetricData => timestamp a <=? timestamp b).
  pose proof (SortFacts.sorted_by_perm le l) as Hl.
  pose proof (SortFacts.sorted_by_perm le l') as Hl'.
  assert (Hsorted : forall k, StronglySorted (fun a b => le a b = true) (Str.sorted_by le k)).
  { intros k. apply (SortFacts.sorted_by_sorted le (fun _ => True)).
    - intros a b _ _. unfold le. rewrite !Z.leb_le. lia.
    - intros a b c _ _ _. unfold le. rewrite !Z.leb_le. lia.
    - apply Forall_forall. auto. }
  apply (StronglySorted_unique_strong (fun a b => le a b = true));
    [|apply Hsorted|apply Hsorted|rewrite Hl, Hl'; exact Hperm].
  intros x1 x2 Hx1 Hx2 H12 H21. unfold le in H12, H21. rewrite Z.leb_le in H12, H21.
  apply (NoDup_fmap_inj timestamp l); [exact Hnd| | |lia].
  - rewrite <- Hl. exact Hx1.
  - rewrite Hperm, <- Hl'. exact Hx2.
Qed.

Section Order.
Context `{!Numpy}.

(** X5. The metric extractor sorts by timestamp before it computes: two
    batches with the same samples in different orders give the same
    outcome, features or exception, when the instants of the samples
    are all different and no label is named "timestamp". *)
Theorem preprocess_metrics_order (metrics metrics' : list MetricData) :
  metrics ≡ₚ metrics' ->
  NoDup (timestamp <$> metrics) ->
  Forall (fun m => labels m !! "timestamp" = None) metrics ->
  preprocess_metrics metrics = preprocess_metrics metrics'.
Proof.
  intros Hperm Hnd Hclean.
  assert (Hclean' : Forall (fun m => labels m !! "timestamp" = None) metrics')
    by (rewrite <- Hperm; exact Hclean).
  unfold preprocess_metrics.
  destruct metrics as [|m metrics], metrics' as [|m' metrics'].
  - reflexivity.
  - symmetry in Hperm. apply Permutation_nil_r in Hperm. discriminate.
  - apply Permutation_nil_r in Hperm. discriminate.
  - rewrite (sort_values_timestamp_samples _ Hclean),
            (sort_values_timestamp_samples _ Hclean'),
            (sorted_by_timestamp_unique _ _ Hperm Hnd).
    reflexivity.
Qed.

End Order.

(** Three samples of the request rate, handed over newest first and
    oldest first. *)
Lemma preprocess_metrics_order_witness :
  let sample v t := {| metric_type := REQUEST_RATE; value := of_Z v;
                       timestamp := t; labels := {[ "pod" := "api-1" ]} |} in
  @preprocess_metrics Ref.numpy
    [sample 30 1020000000; sample 20 1010000000; sample 10 1000000000]
  = @preprocess_metrics Ref.numpy
    [sample 10 1000000000; sample 20 1010000000; sample 30 1020000000].
Proof.
  intros sample. apply (@preprocess_metrics_order Ref.numpy).
  - etrans; [apply Permutation_rev|]. reflexivity.
  - apply (bool_decide_unpack _). vm_compute. exact I.
  - repeat constructor.
Defined.


(** *** The number of features *)

Lemma insert_by_timestamp_perm (r : gmap string cell) (df s : DataFrame) :
  insert_by_timestamp r df = Ok s -> s ≡ₚ r :: df.
Proof.
  revert s. induction df as [|r' df IH]; intros s; simpl.
  - intros [= <-]. reflexivity.
  - destruct (r' !! "timestamp") as [c'|]; [|discriminate].
    destruct (r !! "timestamp") as [c|]; [|discriminate].
    destruct (cell_le c' c) as [[|]|e]; simpl; try discriminate.
    + destruct (insert_by_timestamp r df) as [rest|e]; simpl; [|discriminate].
      intros [= <-]. rewrite (IH rest eq_refl). apply Permutation_swap.
    + intros [= <-]. reflexivity.
Qed.

Lemma sort_values_timestamp_perm (df s : DataFrame) :
  sort_values_timestamp df = Ok s -> s ≡ₚ df.
Proof.
  unfold sort_values_timestamp.
  assert (Hfold : forall (acc : exc DataFrame) s,
            foldl (fun acc r => sorted ← acc; insert_by_timestamp r sorted) acc df = Ok s ->
            exists s0, acc = Ok s0 /\ s ≡ₚ s0 ++ df).
  { induction df as [|r df IH]; intros acc s0; simpl.
    - intros ->. exists s0. split; [reflexivity|]. rewrite app_nil_r. reflexivity.
    - intros Hs. apply IH in Hs as (s1 & Hs1 & Hperm).
      destruct acc as [a|e]; simpl in Hs1; [|discriminate].
      apply insert_by_timestamp_perm in Hs1. exists a. split; [reflexivity|].
      rewrite Hperm, Hs1. simpl. apply Permutation_middle. }
  intros Hs. apply Hfold in Hs as (s0 & [= <-] & Hperm). exact Hperm.
Qed.

Lemma record_of_metric_type (m : MetricData) :
  labels m !! "metric_type" = None ->
  record_of m !! "metric_type" = Some (CStr (metric_type_value (metric_type m))).
Proof.
  intros Hl. unfold record_of. rewrite lookup_union, lookup_fmap, Hl. reflexivity.
Qed.

Lemma unique_metric_types_samples (ms : list MetricData) :
  Forall (fun m => labels m !! "metric_type" = None) ms ->
  unique_metric_types (map record_of ms) =
  Ok (dedup_strings [] (map (fun m => metric_type_value (metric_type m)) ms)).
Proof.
  intros Hms. unfold unique_metric_types, column.
  assert (Hcells : mapM (fun r : gmap string cell =>
                           match r !! "metric_type" with
                           | Some c => Ok c
                           | None => Raise "metric_type"
                           end) (map record_of ms)
                   = Ok (map (fun m => CStr (metric_type_value (metric_type m))) ms)).
  { induction Hms as [|m ms Hm Hms IH]; simpl; [reflexivity|].
    rewrite (record_of_metric_type m Hm), IH. reflexivity. }
  rewrite Hcells. cbn [mbind exc_bind].
  assert (Hnames : mapM (fun c => match c with
                                  | CStr s => Ok s
                                  | _ => Raise "metric_type"
                                  end)
                        (map (fun m => CStr (metric_type_value (metric_type m))) ms)
                   = Ok (map (fun m => metric_type_value (metric_type m)) ms)).
  { clear. induction ms as [|m ms IH]; simpl; [reflexivity|]. rewrite IH. reflexivity. }
  rewrite Hnames. reflexivity.
Qed.

(** [unique()] keeps each value once. *)
Lemma dedup_strings_spec (l seen : list string) :
  NoDup (dedup_strings seen l) /\
  (forall x, x ∈ dedup_strings seen l <-> x ∈ l /\ x ∉ seen).
Proof.
  revert seen. induction l as [|y l IH]; intros seen; simpl.
  - split; [constructor|]. intros x. split; [intros H; inversion H|intros [H _]; inversion H].
  - destruct (existsb (String.eqb y) seen) eqn:Hy.
    + destruct (IH seen) as [Hnd Hin]. split; [exact Hnd|]. intros x. rewrite Hin.
      apply existsb_exists in Hy as (z & Hz & Heq). apply String.eqb_eq in Heq. subst z.
      apply list_elem_of_In in Hz. rewrite elem_of_cons.
      split; [tauto|]. intros [[->|Hx] Hns]; [contradiction|tauto].
    + destruct (IH (y :: seen)) as [Hnd Hin].
      assert (Hys : y ∉ seen).
      { intros Hin'. apply not_true_iff_false in Hy. apply Hy. apply existsb_exists.
        exists y. split; [apply list_elem_of_In, Hin'|apply String.eqb_refl]. }
      split.
      * constructor; [|exact Hnd]. rewrite Hin. intros [_ Hn]. apply Hn. left.
      * intros x. rewrite !elem_of_cons, Hin, elem_of_cons.
        destruct (decide (x = y)) as [->|Hne]; [tauto|]. tauto.
Qed.

Lemma dedup_strings_length (l : list string) :
  length (dedup_strings [] l) = size (list_to_set l : gset string).
Proof.
  destruct (dedup_strings_spec l []) as [Hnd Hin].
  rewrite <- (size_list_to_set (C:=gset string) _ Hnd). f_equal.
  apply set_eq. intros x. rewrite !elem_of_list_to_set, Hin.
  split; [tauto|]. intros Hx. split; [exact Hx|]. intros H. inversion H.
Qed.

(** No feature name belongs to two metric types. *)
Lemma stat_names_apart (t1 t2 x : string) :
  In t1 View.metric_type_names -> In t2 View.metric_type_names ->
  In x (View.stat_names t1) -> In x (View.stat_names t2) -> t1 = t2.
Proof.
  intros H1 H2 Hx1 Hx2.
  assert (Hcheck :
    forallb (fun t1 =>
      forallb (fun t2 =>
        String.eqb t1 t2
        || forallb (fun x => negb (existsb (String.eqb x) (View.stat_names t2)))
                   (View.stat_names t1))
        View.metric_type_names) View.metric_type_names = true) by (vm_compute; reflexivity).
  rewrite forallb_forall in Hcheck. specialize (Hcheck t1 H1).
  rewrite forallb_forall in Hcheck. specialize (Hcheck t2 H2).
  apply orb_true_iff in Hcheck as [Heq|Hdis]; [apply String.eqb_eq, Heq|].
  rewrite forallb_forall in Hdis. specialize (Hdis x Hx1).
  apply negb_true_iff in Hdis. exfalso. apply not_true_iff_false in Hdis. apply Hdis.
  apply existsb_exists. exists x. split; [exact Hx2|apply String.eqb_refl].
Qed.

Lemma stat_names_NoDup (t : string) :
  In t View.metric_type_names -> NoDup (View.stat_names t).
Proof.
  intros Ht. simpl in Ht.
  destruct Ht as [<-|[<-|[<-|[<-|[<-|[<-|[]]]]]]];
    apply (bool_decide_unpack _); vm_compute; exact I.
Qed.

(** Writing keys that are new appends them. *)
Lemma foldl_set_fresh {V} (l : list (string * V)) (d : Dict.t V) :
  NoDup (Dict.keys d ++ map fst l) ->
  Dict.keys (foldl (fun d kv => Dict.set (fst kv) (snd kv) d) d l) = Dict.keys d ++ map fst l.
Proof.
  revert d. induction l as [|[k v] l IH]; intros d Hnd; simpl.
  - rewrite app_nil_r. reflexivity.
  - assert (Hk : Dict.mem k d = false).
    { apply not_true_iff_false. rewrite DictFacts.mem_keys. intros Hin.
      apply NoDup_app in Hnd as (_ & Hdis & _).
      apply (Hdis k); [apply list_elem_of_In, Hin|left]. }
    assert (Hkeys : Dict.keys (Dict.set k v d) = Dict.keys d ++ [k])
      by (rewrite DictFacts.keys_set, Hk; reflexivity).
    rewrite IH; rewrite Hkeys, <- app_assoc; [reflexivity|exact Hnd].
Qed.

Section Count.
Context `{!Numpy}.

Lemma features_fold_names (df : DataFrame) (types : list string)
    (d0 features : Dict.t float) :
  NoDup (Dict.keys d0 ++ concat (map View.stat_names types)) ->
  foldl (fun acc metric_type =>
           features ← acc;
           values ← values_of (select_metric_type metric_type df);
           stats ← metric_features metric_type values;
           Ok (foldl (fun d kv => Dict.set (fst kv) (snd kv) d) features stats))
        (Ok d0) types = Ok features ->
  Dict.keys features = Dict.keys d0 ++ concat (map View.stat_names types).
Proof.
  revert d0. induction types as [|t types IH]; intros d0 Hnd;
    cbn [foldl map concat] in *.
  - intros [= <-]. rewrite app_nil_r. reflexivity.
  - assert (Hraise : forall e (ts : list string),
              foldl (fun acc metric_type =>
                       features ← acc;
                       values ← values_of (select_metric_type metric_type df);
                       stats ← metric_features metric_type values;
                       Ok (foldl (fun d kv => Dict.set (fst kv) (snd kv) d) features stats))
                    (Raise e) ts <> Ok features).
    { intros e ts. induction ts as [|t' ts IHts]; cbn [foldl]; [discriminate|exact IHts]. }
    cbn [mbind exc_bind].
    destruct (values_of (select_metric_type t df)) as [values|e];
      cbn [mbind exc_bind]; [|intros Hfold; exfalso; exact (Hraise _ _ Hfold)].
    destruct (metric_features t values) as [stats|e] eqn:Hstats;
      cbn [mbind exc_bind]; [|intros Hfold; exfalso; exact (Hraise _ _ Hfold)].
    apply metric_features_length in Hstats. intros Hfold.
    rewrite app_assoc in Hnd.
    assert (Hfresh : Dict.keys (foldl (fun d kv => Dict.set (fst kv) (snd kv) d) d0 stats)
                     = Dict.keys d0 ++ View.stat_names t).
    { rewrite foldl_set_fresh; rewrite Hstats; [reflexivity|].
      apply NoDup_app in Hnd as (Hnd & _ & _). exact Hnd. }
    apply IH in Hfold; [|rewrite Hfresh; exact Hnd].
    rewrite Hfold, Hfresh, <- app_assoc. reflexivity.
Qed.

Lemma stat_names_concat_NoDup (types : list string) :
  NoDup types -> Forall (fun t => In t View.metric_type_names) types ->
  NoDup (concat (map View.stat_names types)).
Proof.
  intros Hnd Hall. induction Hnd as [|t types Ht Hnd IH]; cbn [map concat]; [constructor|].
  apply Forall_cons in Hall as [Hin Hall]. apply NoDup_app. split; [|split].
  - apply stat_names_NoDup, Hin.
  - intros x Hx Hx'. apply list_elem_of_In in Hx, Hx'.
    apply in_concat in Hx' as (names & Hnames & Hx').
    apply in_map_iff in Hnames as (t' & <- & Ht').
    rewrite Forall_forall in Hall.
    assert (t = t') as -> by (eapply stat_names_apart; eauto;
                              apply Hall, list_elem_of_In, Ht').
    apply Ht, list_elem_of_In, Ht'.
  - apply IH, Hall.
Qed.

(** X6. Seven features for each metric type of the batch, and so never
    the ten columns on which [load_models] fits the forest: when no
    label is named "metric_type", a batch that is processed yields
    seven times as many features as it has different metric types. *)
Theorem preprocess_metrics_feature_count (metrics : list MetricData)
    (out : ndarray * list string) :
  Forall (fun m => labels m !! "metric_type" = None) metrics ->
  preprocess_metrics metrics = Ok out ->
  length (snd out) = (7 * View.distinct_metric_types metrics)%nat /\
  length (snd out) <> 10%nat.
Proof.
  intros Hclean Hout.
  assert (Hcount : length (snd out) = (7 * View.distinct_metric_types metrics)%nat);
    [|split; [exact Hcount|lia]].
  unfold preprocess_metrics in Hout. destruct metrics as [|m metrics].
  { injection Hout as <-. reflexivity. }
  destruct (sort_values_timestamp (map record_of (m :: metrics))) as [df|e] eqn:Hdf;
    cbn [mbind exc_bind] in Hout; [|discriminate].
  apply sort_values_timestamp_perm in Hdf.
  apply Permutation_map_inv in Hdf as (ms & -> & Hperm).
  assert (Hms : Forall (fun m => labels m !! "metric_type" = None) ms)
    by (rewrite <- Hperm; exact Hclean).
  rewrite (unique_metric_types_samples ms Hms) in Hout. cbn [mbind exc_bind] in Hout.
  set (types := dedup_strings [] (map (fun m => metric_type_value (metric_type m)) ms))
    in Hout.
  match type of Hout with
  | context [foldl ?step (Ok []) types] =>
      destruct (foldl step (Ok []) types) as [features|e] eqn:Hfold
  end; cbn [mbind exc_bind] in Hout; [|discriminate].
  injection Hout as <-.
  destruct (dedup_strings_spec (map (fun m => metric_type_value (metric_type m)) ms) [])
    as [Hnd Hin].
  assert (Hall : Forall (fun t => In t View.metric_type_names) types).
  { apply Forall_forall. intros t Ht. apply Hin in Ht as [Ht _].
    apply list_elem_of_In, in_map_iff in Ht as (x & <- & _).
    destruct (metric_type x); simpl; tauto. }
  apply features_fold_names in Hfold;
    [|simpl; apply stat_names_concat_NoDup; assumption].
  unfold to_row. cbn [snd].
  pose proof (SortFacts.sorted_by_perm String.leb (Dict.keys features)) as Hsorted.
  unfold Str.sorted. rewrite (Permutation_length Hsorted), Hfold.
  change (Dict.keys (@nil (string * float))) with (@nil string). rewrite app_nil_l.
  assert (Hlen : forall ts, length (concat (map View.stat_names ts)) = (7 * length ts)%nat).
  { induction ts as [|t ts IH]; cbn [map concat]; [reflexivity|].
    rewrite length_app, IH. unfold View.stat_names. rewrite length_map.
    cbn [length]. lia. }
  rewrite Hlen. unfold types. rewrite dedup_strings_length.
  unfold View.distinct_metric_types. do 2 f_equal.
  apply set_eq. intros x. rewrite !elem_of_list_to_set.
  change (map (fun m => metric_type_value (metric_type m)) ms)
    with ((fun m => metric_type_value (metric_type m)) <$> ms).
  rewrite Hperm. reflexivity.
Qed.

End Count.

Lemma preprocess_metrics_feature_count_witness :
  let sample t v := {| metric_type := t; value := of_Z v; timestamp := 1000000000;
                       labels := {[ "pod" := "api-1" ]} |} in
  let metrics := [sample CPU_USAGE 75; sample MEMORY_USAGE 82; sample CPU_USAGE 80] in
  exists out, @preprocess_metrics Ref.numpy metrics = Ok out /\
              length (snd out) = 14%nat.
Proof.
  intros sample metrics.
  destruct (@preprocess_metrics Ref.numpy metrics) as [out|e] eqn:Hout;
    [|vm_compute in Hout; discriminate Hout].
  exists out. split; [reflexivity|].
  destruct (@preprocess_metrics_feature_count Ref.numpy metrics out) as [Hcount _];
    [repeat constructor|exact Hout|].
  rewrite Hcount. reflexivity.
Defined.

End MetricFeatureFacts.

(** ** More on the anomaly detector *)

Module AnomalyDetectorMore.
Import F64 F64Facts AnomalyDetector.

Lemma leb_trans (a b c : float) :
  leb a b = true -> leb b c = true -> leb a c = true.
Proof.
  rewrite !leb_rank, !lex_compare_lt. intros (? & ? & ?) (? & ? & ?).
  repeat split; auto. lia.
Qed.

Lemma ltb_false_leb (a b : float) :
  is_nan a = false -> is_nan b = false -> ltb a b = false -> leb b a = true.
Proof.
  intros Ha Hb Hlt. destruct (leb b a) eqn:Hle; [reflexivity|].
  rewrite (leb_false_ltb b a Hb Ha Hle) in Hlt. discriminate.
Qed.

Lemma abs_not_nan (x : float) : is_nan x = false -> is_nan (abs x) = false.
Proof. destruct x; simpl; auto. Qed.

(** *** Severity *)

(** X7. The severity grows with the score: a score that is at least
    another never gets a lower severity. *)
Theorem determine_severity_monotone (x y : float) :
  leb x y = true ->
  (View.severity_rank (_determine_severity x)
   <= View.severity_rank (_determine_severity y))%nat.
Proof.
  intros Hxy. unfold _determine_severity, geb.
  fold (leb (dec 9 1) x) (leb (dec 7 1) x) (leb (dec 5 1) x).
  fold (leb (dec 9 1) y) (leb (dec 7 1) y) (leb (dec 5 1) y).
  assert (Hup : forall a, leb a x = true -> leb a y = true)
    by (intros a Ha; exact (leb_trans _ _ _ Ha Hxy)).
  destruct (leb (dec 9 1) x) eqn:H9.
  { rewrite (Hup _ H9). simpl. lia. }
  destruct (leb (dec 7 1) x) eqn:H7.
  { rewrite (Hup _ H7). destruct (leb (dec 9 1) y); simpl; lia. }
  destruct (leb (dec 5 1) x) eqn:H5.
  { rewrite (Hup _ H5). destruct (leb (dec 9 1) y), (leb (dec 7 1) y); simpl; lia. }
  simpl. lia.
Qed.

Lemma determine_severity_monotone_witness :
  (View.severity_rank (_determine_severity (dec 55 2))
   <= View.severity_rank (_determine_severity (dec 95 2)))%nat.
Proof. apply determine_severity_monotone. reflexivity. Defined.

(** *** What [predict] returns *)

Section Predict.
Context {F E : Type} `{!IsolationForest F, !EllipticEnvelope E, !Numpy}.
Implicit Types (d : AnomalyDetector.t F E) (X : ndarray) (names : option (list string)).

Lemma recommend_action_sound (score : float) X names (action : RemediationAction) :
  _recommend_action score X names = Ok action ->
  (action = NO_ACTION \/ action = ALERT_ADMIN \/ action = SCALE_UP
   \/ action = RESTART_POD \/ action = THROTTLE_API) /\
  (ltb score (dec 5 1) = true -> action = NO_ACTION) /\
  (ltb score (dec 5 1) = false -> geb score (dec 8 1) = true -> action <> NO_ACTION).
Proof.
  unfold _recommend_action.
  destruct (ltb score (dec 5 1)) eqn:Hlow.
  { intros [= <-]. repeat split; auto; discriminate. }
  destruct (falsy names || (Np.size X =? 0)%nat).
  { intros [= <-]. repeat split; auto; discriminate. }
  destruct (Np.row0 X) as [row|e]; cbn [mbind exc_bind]; [|discriminate].
  match goal with |- context [if ?c then Ok SCALE_UP else _] => destruct c end.
  { intros [= <-]. repeat split; auto; discriminate. }
  match goal with |- context [if ?c then Ok RESTART_POD else _] => destruct c end.
  { intros [= <-]. repeat split; auto; discriminate. }
  match goal with |- context [if ?c then Ok THROTTLE_API else _] => destruct c end.
  { intros [= <-]. repeat split; auto; discriminate. }
  destruct (geb score (dec 8 1)); intros [= <-]; repeat split; auto; discriminate.
Qed.

Lemma severity_low_score (score : float) :
  is_nan score = false -> _determine_severity score = LOW ->
  ltb score (dec 5 1) = true.
Proof.
  intros Hn. unfold _determine_severity, geb.
  fold (leb (dec 9 1) score) (leb (dec 7 1) score) (leb (dec 5 1) score).
  destruct (leb (dec 9 1) score); [discriminate|].
  destruct (leb (dec 7 1) score); [discriminate|].
  destruct (leb (dec 5 1) score) eqn:H5; [discriminate|].
  intros _. apply leb_false_ltb; [reflexivity|exact Hn|exact H5].
Qed.

Lemma severity_critical_score (score : float) :
  _determine_severity score = CRITICAL ->
  ltb score (dec 5 1) = false /\ geb score (dec 8 1) = true.
Proof.
  unfold _determine_severity, geb.
  fold (leb (dec 9 1) score) (leb (dec 7 1) score) (leb (dec 5 1) score).
  fold (leb (dec 8 1) score).
  destruct (leb (dec 9 1) score) eqn:H9.
  - intros _.
    assert (H59 : leb (dec 5 1) (dec 9 1) = true) by reflexivity.
    assert (H89 : leb (dec 8 1) (dec 9 1) = true) by reflexivity.
    split; [|exact (leb_trans _ _ _ H89 H9)].
    destruct (ltb score (dec 5 1)) eqn:Hlt; [|reflexivity].
    apply ltb_asym in Hlt. rewrite (leb_trans _ _ _ H59 H9) in Hlt. discriminate.
  - destruct (leb (dec 7 1) score); [discriminate|].
    destruct (leb (dec 5 1) score); discriminate.
Qed.

(** X8. Whatever the detector, the input and the libraries, [predict]
    returns a score of the unit interval with the severity of that
    score; a LOW severity comes with NO_ACTION, a CRITICAL severity
    never does, and the action is never SCALE_DOWN or CLEAR_CACHE. *)
Theorem predict_result_coherent d X names :
  exists is_anomaly score severity action details,
    predict d X names = Ok (is_anomaly, score, severity, action, details) /\
    leb (of_Z 0) score = true /\ leb score (of_Z 1) = true /\
    severity = _determine_severity score /\
    (severity = LOW -> action = NO_ACTION) /\
    (severity = CRITICAL -> action <> NO_ACTION) /\
    action <> SCALE_DOWN /\ action <> CLEAR_CACHE.
Proof.
  assert (Hdefault : forall details,
    exists is_anomaly score severity action details',
      Ok (default_prediction details)
      = Ok (is_anomaly, score, severity, action, details') /\
      leb (of_Z 0) score = true /\ leb score (of_Z 1) = true /\
      severity = _determine_severity score /\
      (severity = LOW -> action = NO_ACTION) /\
      (severity = CRITICAL -> action <> NO_ACTION) /\
      action <> SCALE_DOWN /\ action <> CLEAR_CACHE).
  { intros details. exists false, (of_Z 0), LOW, NO_ACTION, details.
    repeat split; try reflexivity; discriminate. }
  unfold predict. destruct (is_trained d); cbn [negb]; [|apply Hdefault].
  destruct (predict_body d X names) as [r|e] eqn:Hbody; cbn [try_except];
    [|apply Hdefault].
  unfold predict_body in Hbody.
  destruct (iforest_predict (isolation_forest d) X) as [labels|e];
    cbn [mbind exc_bind] in Hbody; [|discriminate].
  destruct (index0 labels) as [iso_prediction|e]; cbn [mbind exc_bind] in Hbody;
    [|discriminate].
  destruct (iforest_score_samples (isolation_forest d) X) as [scores|e];
    cbn [mbind exc_bind] in Hbody; [|discriminate].
  destruct (index0 scores) as [iso_score|e]; cbn [mbind exc_bind] in Hbody;
    [|discriminate].
  destruct (_recommend_action _ X names) as [action|e] eqn:Haction;
    cbn [mbind exc_bind] in Hbody; [|discriminate].
  destruct (_get_affected_features X names) as [affected|e];
    cbn [mbind exc_bind] in Hbody; [|discriminate].
  injection Hbody as <-.
  destruct (AnomalyDetectorFacts.normalize_score_range (opp iso_score)) as [H0 H1].
  apply recommend_action_sound in Haction as (Hcases & Hlow & Hhigh).
  do 5 eexists. split; [reflexivity|].
  split; [exact H0|]. split; [exact H1|]. split; [reflexivity|].
  split; [|split; [|split]].
  - intros Hsev. apply Hlow, severity_low_score; [|exact Hsev].
    apply leb_not_nan in H0 as [_ Hn]. exact Hn.
  - intros Hsev. apply severity_critical_score in Hsev as [Hlt Hge]. auto.
  - intros ->. intuition discriminate.
  - intros ->. intuition discriminate.
Qed.

End Predict.


(** *** Training *)

Section TrainOutcome.
Context {F E : Type} `{!IsolationForest F, !EllipticEnvelope E, !Numpy}.
Implicit Types (d : AnomalyDetector.t F E) (X : ndarray).

(** X9. [train] never raises and never changes the contamination. A
    trained detector stays trained whatever happens in a later
    training. An untrained one becomes trained only on ten rows or
    more and a successful fit of the forest, which it then holds; a
    forest that refuses to fit leaves the detector as it was. On ten
    rows or more a forest that fits is kept, even when the envelope
    then fails and the detector is not marked as trained; the
    detector becomes trained when the matrix is not taller than wide
    (the envelope is then skipped) or when the envelope fits too. *)
Theorem anomaly_train_outcome d X :
  exists d', train d X = Ok d' /\
    contamination d' = contamination d /\
    (is_trained d = true -> is_trained d' = true) /\
    (is_trained d = false -> is_trained d' = true ->
     (10 <= Np.shape0 X)%nat /\
     iforest_fit (isolation_forest d) X = Ok (isolation_forest d')) /\
    (forall e, iforest_fit (isolation_forest d) X = Raise e -> d' = d) /\
    (forall fitted,
       (10 <= Np.shape0 X)%nat ->
       iforest_fit (isolation_forest d) X = Ok fitted ->
       isolation_forest d' = fitted) /\
    (forall fitted rows,
       X = Arr2 rows -> (10 <= length rows)%nat ->
       iforest_fit (isolation_forest d) X = Ok fitted ->
       (length rows <= length (hd [] rows))%nat
       \/ (exists envelope, envelope_fit (elliptic_envelope d) X = Ok envelope) ->
       is_trained d' = true /\ isolation_forest d' = fitted).
Proof.
  unfold train. destruct (Np.shape0 X <? 10)%nat eqn:Hrows.
  - exists d. apply Nat.ltb_lt in Hrows.
    split; [reflexivity|]. split; [reflexivity|]. split; [auto|].
    split; [congruence|]. split; [reflexivity|].
    split; [intros fitted Hlen; lia|].
    intros fitted rows -> Hlen. simpl in Hrows. lia.
  - apply Nat.ltb_ge in Hrows. exists (train_fit d X). split; [reflexivity|].
    unfold train_fit.
    destruct (iforest_fit (isolation_forest d) X) as [fitted|e] eqn:Hfit.
    2:{ split; [reflexivity|]. split; [auto|]. split; [congruence|].
        split; [reflexivity|]. split; discriminate. }
    destruct (n1 ← Np.shape1 X;
              if (n1 + 1 <=? Np.shape0 X)%nat
              then envelope_fit (elliptic_envelope d) X
              else Ok (elliptic_envelope d)) as [envelope|e] eqn:Henv; cbn.
    + split; [reflexivity|]. split; [reflexivity|].
      split; [intros _ _; split; [lia|reflexivity]|].
      split; [discriminate|].
      split; [intros fitted' _ [= <-]; reflexivity|].
      intros fitted' rows _ _ [= <-] _. split; reflexivity.
    + split; [reflexivity|]. split; [auto|]. split; [intros ->; discriminate|].
      split; [discriminate|].
      split; [intros fitted' _ [= <-]; reflexivity|].
      intros fitted' rows -> Hlen [= <-] Hcase. exfalso.
      destruct rows as [|r rows]; [simpl in Hlen; lia|]. cbn in Henv.
      destruct (length r + 1 <=? S (length rows))%nat eqn:Hwide.
      * destruct Hcase as [Hle|[envelope Hfit']]; [|congruence].
        apply Nat.leb_le in Hwide. simpl in Hle. lia.
      * discriminate.
Qed.

End TrainOutcome.

(** *** The affected features *)

Lemma zip_fst_In {A B} (a : list A) (b : list B) (x : A) (y : B) :
  In (x, y) (zip a b) -> In x a /\ In y b.
Proof.
  revert b. induction a as [|x' a IH]; intros [|y' b]; simpl; try tauto.
  intros [Heq|Hin]; [injection Heq as Hx Hy; subst; tauto|]. apply IH in Hin. tauto.
Qed.

Lemma set_In {V} (k : string) (v : V) (d : Dict.t V) (kv : string * V) :
  In kv (Dict.set k v d) -> In kv d \/ kv = (k, v).
Proof.
  induction d as [|[k' v'] d IH]; simpl.
  - intros [<-|[]]. right. reflexivity.
  - destruct (String.eqb_spec k' k) as [->|Hne]; simpl.
    + intros [<-|Hin]; [right; reflexivity|left; right; exact Hin].
    + intros [<-|Hin]; [left; left; reflexivity|].
      apply IH in Hin as [Hin | ->]; [left; right; exact Hin|right; reflexivity].
Qed.

Lemma of_pairs_In {V} (l : list (string * V)) (kv : string * V) :
  In kv (Dict.of_pairs l) -> In kv l.
Proof.
  unfold Dict.of_pairs.
  assert (Hfold : forall d, In kv (fold_left (fun d kv => Dict.set (fst kv) (snd kv) d) l d)
                            -> In kv d \/ In kv l).
  { induction l as [|[k v] l IH]; intros d; simpl; [tauto|].
    intros Hin. apply IH in Hin as [Hin|Hin]; [|tauto].
    apply set_In in Hin as [Hin| ->]; tauto. }
  intros Hin. apply Hfold in Hin as [[]|Hin]. exact Hin.
Qed.

(** X10. The five names that [_get_affected_features] returns for a row
    without NaN: as many as there are features, up to five; no name
    twice; all among the names given; and no feature that is left out
    is larger in absolute value than one that is returned. *)
Theorem get_affected_features_top (names : option (list string)) (row : list float) :
  Forall (fun x => is_nan x = false) row ->
  let fv := Spec.feature_vector names row in
  exists top,
    _get_affected_features (Arr2 [row]) names = Ok top /\
    length top = Nat.min 5 (length fv) /\
    NoDup top /\
    (forall n, In n top -> In n (names_or_empty names)) /\
    (forall n k, In n top -> In k (Dict.keys fv) -> ~ In k top ->
       ltb (abs (Dict.get_default n (of_Z 0) fv))
           (abs (Dict.get_default k (of_Z 0) fv)) = false).
Proof.
  intros Hrow fv. unfold _get_affected_features.
  rewrite DataPreprocessorFacts.size_row.
  destruct (falsy names || (length row =? 0)%nat) eqn:Hguard.
  { exists []. rewrite orb_comm in Hguard. subst fv.
    rewrite (FailureDetectorFacts.feature_vector_guard _ _ Hguard).
    repeat split; try constructor; intros; contradiction. }
  cbn [Np.row0 mbind exc_bind].
  change (Dict.of_pairs (zip (names_or_empty names) row)) with fv.
  set (le := fun a b : string * float => negb (ltb (abs (snd a)) (abs (snd b)))).
  assert (Hnd : NoDup (Dict.keys fv)) by apply DictFacts.NoDup_keys_of_pairs.
  assert (Hperm : sort_by_abs_desc fv ≡ₚ fv) by apply SortFacts.sorted_by_perm.
  assert (Hvals : Forall (fun kv : string * float => is_nan (abs (snd kv)) = false) fv).
  { apply Forall_forall. intros [k v] Hkv. apply list_elem_of_In, of_pairs_In in Hkv.
    apply zip_fst_In in Hkv as [_ Hv]. rewrite Forall_forall in Hrow.
    apply abs_not_nan, Hrow, list_elem_of_In, Hv. }
  assert (Hsorted : StronglySorted (fun a b => le a b = true) (sort_by_abs_desc fv)).
  { apply (SortFacts.sorted_by_sorted le
             (fun kv : string * float => is_nan (abs (snd kv)) = false)).
    - intros a b _ _. unfold le.
      destruct (ltb (abs (snd a)) (abs (snd b))) eqn:Hab; [right|left; reflexivity].
      destruct (ltb (abs (snd b)) (abs (snd a))) eqn:Hba; [|reflexivity].
      apply ltb_asym in Hab. apply ltb_leb in Hba. congruence.
    - intros a b c Ha Hb Hc. unfold le. rewrite !negb_true_iff. intros Hab Hbc.
      apply (ltb_false_leb _ _ Ha Hb) in Hab. apply (ltb_false_leb _ _ Hb Hc) in Hbc.
      destruct (ltb (abs (snd a)) (abs (snd c))) eqn:Hac; [|reflexivity].
      apply ltb_asym in Hac. rewrite (leb_trans _ _ _ Hbc Hab) in Hac. discriminate.
    - exact Hvals. }
  assert (Hkeys : NoDup (map fst (sort_by_abs_desc fv))).
  { change (map fst (sort_by_abs_desc fv)) with (fst <$> sort_by_abs_desc fv).
    rewrite Hperm. exact Hnd. }
  rewrite <- (take_drop 5 (sort_by_abs_desc fv)) in Hsorted, Hkeys.
  apply StronglySorted_app in Hsorted as (Hdom & _ & _).
  rewrite map_app in Hkeys. apply NoDup_app in Hkeys as (Htop & Hapart & _).
  exists (map fst (take 5 (sort_by_abs_desc fv))).
  split; [reflexivity|]. split; [|split; [exact Htop|split]].
  - rewrite length_map, length_take, (Permutation_length Hperm). reflexivity.
  - intros n Hn. apply in_map_iff in Hn as ([k v] & <- & Hkv).
    assert (Hin : In (k, v) fv).
    { apply list_elem_of_In. rewrite <- Hperm. apply list_elem_of_In.
      rewrite <- (take_drop 5 (sort_by_abs_desc fv)). apply in_or_app. left. exact Hkv. }
    apply of_pairs_In, zip_fst_In in Hin as [Hin _]. exact Hin.
  - intros n k Hn Hk Hout.
    apply in_map_iff in Hn as ([n' v] & Hn' & Hnv). simpl in Hn'. subst n'.
    apply in_map_iff in Hk as ([k' w] & Hk' & Hkw). simpl in Hk'. subst k'.
    assert (Hn_fv : In (n, v) fv).
    { apply list_elem_of_In. rewrite <- Hperm. apply list_elem_of_In.
      rewrite <- (take_drop 5 (sort_by_abs_desc fv)). apply in_or_app. left. exact Hnv. }
    assert (Hk_sorted : In (k, w) (sort_by_abs_desc fv)).
    { apply list_elem_of_In. rewrite Hperm. apply list_elem_of_In. exact Hkw. }
    rewrite <- (take_drop 5 (sort_by_abs_desc fv)) in Hk_sorted.
    apply in_app_or in Hk_sorted as [Hk_top|Hk_rest].
    { exfalso. apply Hout. apply in_map_iff. exists (k, w). split; [reflexivity|exact Hk_top]. }
    unfold Dict.get_default.
    rewrite (DictFacts.get_In fv n v Hnd Hn_fv), (DictFacts.get_In fv k w Hnd Hkw).
    specialize (Hdom (n, v) (k, w)). unfold le in Hdom. simpl in Hdom.
    apply negb_true_iff, Hdom; apply list_elem_of_In; assumption.
Qed.

(** The example of the test suite, with one feature more than the
    five that are kept. *)
Lemma get_affected_features_top_witness :
  exists top,
    _get_affected_features
      (Arr2 [[of_Z 1; of_Z 50; dec 5 1; of_Z 100; of_Z 2; of_Z 3]])
      (Some ["cpu"; "memory"; "disk"; "network"; "errors"; "requests"])
    = Ok top /\
    length top = 5%nat /\ NoDup top /\ In "network" top /\ ~ In "disk" top.
Proof.
  destruct (get_affected_features_top
              (Some ["cpu"; "memory"; "disk"; "network"; "errors"; "requests"])
              [of_Z 1; of_Z 50; dec 5 1; of_Z 100; of_Z 2; of_Z 3])
    as (top & Htop & Hlen & Hnd & _); [repeat constructor|].
  exists top. split; [exact Htop|]. split; [exact Hlen|]. split; [exact Hnd|].
  vm_compute in Htop. injection Htop as <-. split.
  - simpl. tauto.
  - simpl. intros [H|[H|[H|[H|[H|[]]]]]]; discriminate.
Defined.

End AnomalyDetectorMore.

(** ** More on the failure detector *)

Module FailureDetectorMore.
Import F64 F64Facts FailureDetector.

(** *** The remediation table *)

Ltac nodup_enum :=
  repeat (apply NoDup_cons_2;
          [let Hin := fresh in
           intros Hin; apply list_elem_of_In in Hin; simpl in Hin;
           intuition discriminate|]);
  apply NoDup_nil_2.

Lemma remediation_actions_cases (failure_type : string) (severity : SeverityLevel) :
  let actions := _recommend_remediation_actions failure_type severity in
  let raised := bool_decide (severity ∈ [HIGH; CRITICAL]) in
  (failure_type = "service_down" /\ actions = [RESTART_POD; ALERT_ADMIN]) \/
  (failure_type = "high_latency" /\
   actions = if raised then [SCALE_UP; THROTTLE_API; ALERT_ADMIN]
             else [SCALE_UP; THROTTLE_API]) \/
  (failure_type = "memory_leak" /\ actions = [RESTART_POD; ALERT_ADMIN]) \/
  (failure_type = "connection_timeout" /\
   actions = if raised then [RESTART_POD; SCALE_UP; ALERT_ADMIN]
             else [RESTART_POD; SCALE_UP]) \/
  (~ In failure_type ["service_down"; "high_latency"; "memory_leak"; "connection_timeout"]
   /\ actions = [ALERT_ADMIN]).
Proof.
  cbv zeta.
  destruct (String.eqb_spec "service_down" failure_type) as [<-|H1].
  { left. destruct severity; split; reflexivity. }
  destruct (String.eqb_spec "high_latency" failure_type) as [<-|H2].
  { right; left. destruct severity; split; reflexivity. }
  destruct (String.eqb_spec "memory_leak" failure_type) as [<-|H3].
  { right; right; left. destruct severity; split; reflexivity. }
  destruct (String.eqb_spec "connection_timeout" failure_type) as [<-|H4].
  { right; right; right; left. destruct severity; split; reflexivity. }
  right; right; right; right. split.
  { simpl. intros [H|[H|[H|[H|[]]]]]; congruence. }
  unfold _recommend_remediation_actions, Dict.get_default, actions_map.
  cbn [Dict.get].
  apply String.eqb_neq in H1, H2, H3, H4. rewrite H1, H2, H3, H4.
  destruct (String.eqb "unknown" failure_type); destruct severity; reflexivity.
Qed.

(** X11. Whatever the failure type, known to the table or not, and whatever
    the severity: some action is recommended, none twice, never
    NO_ACTION, SCALE_DOWN or CLEAR_CACHE; a HIGH or CRITICAL severity
    always comes with ALERT_ADMIN; the recommendation is the row of the
    table (ALERT_ADMIN alone for a type that has none), followed by
    ALERT_ADMIN where the severity asks for it and the row lacks it. *)
Theorem recommend_remediation_actions_sound (failure_type : string)
    (severity : SeverityLevel) :
  let row := Dict.get_default failure_type [ALERT_ADMIN] actions_map in
  let actions := _recommend_remediation_actions failure_type severity in
  actions <> [] /\ NoDup actions /\
  ~ In NO_ACTION actions /\ ~ In SCALE_DOWN actions /\ ~ In CLEAR_CACHE actions /\
  (severity = HIGH \/ severity = CRITICAL -> In ALERT_ADMIN actions) /\
  (actions = row \/
   (actions = row ++ [ALERT_ADMIN] /\ ~ In ALERT_ADMIN row
    /\ (severity = HIGH \/ severity = CRITICAL))) /\
  (~ In failure_type (Dict.keys actions_map) -> actions = [ALERT_ADMIN]).
Proof.
  cbv zeta.
  destruct (remediation_actions_cases failure_type severity)
    as [[-> ->]|[[-> ->]|[[-> ->]|[[-> ->]|[Hout ->]]]]].
  - split; [discriminate|]. split; [nodup_enum|].
    repeat split; simpl; try (intuition discriminate); auto.
  - destruct severity; cbn [bool_decide]; vm_compute bool_decide;
      (split; [discriminate|]);
      (split; [nodup_enum|]);
      repeat split; simpl; try (intuition discriminate); auto;
      try (right; repeat split; simpl; try (intuition discriminate); auto).
  - split; [discriminate|]. split; [nodup_enum|].
    repeat split; simpl; try (intuition discriminate); auto.
  - destruct severity; cbn [bool_decide]; vm_compute bool_decide;
      (split; [discriminate|]);
      (split; [nodup_enum|]);
      repeat split; simpl; try (intuition discriminate); auto;
      try (right; repeat split; simpl; try (intuition discriminate); auto).
  - split; [discriminate|]. split; [nodup_enum|].
    split; [simpl; intuition discriminate|].
    split; [simpl; intuition discriminate|].
    split; [simpl; intuition discriminate|].
    split; [intros _; left; reflexivity|].
    split; [|reflexivity].
    left. unfold Dict.get_default, actions_map. cbn [Dict.get].
    simpl in Hout.
    destruct (String.eqb_spec "service_down" failure_type); [tauto|].
    destruct (String.eqb_spec "high_latency" failure_type); [tauto|].
    destruct (String.eqb_spec "memory_leak" failure_type); [tauto|].
    destruct (String.eqb_spec "connection_timeout" failure_type); [tauto|].
    destruct (String.eqb "unknown" failure_type); reflexivity.
Qed.


(** *** The verdict of [predict] *)

Lemma identify_failure_type_cases (X : ndarray) (names : option (list string))
    (t : string) :
  _identify_failure_type X names = Ok t ->
  In t ["service_down"; "connection_timeout"; "unhandled_exception"; "unknown"].
Proof.
  unfold _identify_failure_type.
  destruct (falsy names || (Np.size X =? 0)%nat).
  { intros [= <-]. simpl. tauto. }
  destruct (Np.row0 X) as [row|e]; cbn [mbind exc_bind]; [|discriminate].
  repeat match goal with
         | |- context [if ?c then Ok _ else _] => destruct c
         end; intros [= <-]; simpl; tauto.
Qed.

Section Verdict.
Context {C : Type} `{!RandomForestClassifier C, !Numpy}.
Implicit Types (d : FailureDetector.t C) (X : ndarray) (names : option (list string)).

Lemma no_failure_verdict :
  View.failure_verdict_ok false None LOW [NO_ACTION] None [].
Proof. repeat split. Qed.

Lemma identified_verdict (t : string) (severity : SeverityLevel) (cause : string) :
  In t ["service_down"; "connection_timeout"; "unhandled_exception"; "unknown"] ->
  View.failure_verdict_ok true (Some t) severity
    (_recommend_remediation_actions t severity) (Some cause)
    ["api-service"; "worker-service"].
Proof.
  intros Ht. unfold View.failure_verdict_ok.
  split; [exists t; split; [reflexivity|simpl in *; tauto]|].
  split; [eauto|]. split; [discriminate|].
  simpl in Ht. destruct Ht as [<-|[<-|[<-|[<-|[]]]]];
    destruct severity; vm_compute _recommend_remediation_actions;
    (split; [discriminate|]); (split; [nodup_enum|]);
    (split; [simpl; tauto|]); simpl; intuition discriminate.
Qed.

Lemma predict_verdict d X names (r : prediction) :
  predict d X names = Ok r ->
  let '(detected, failure_type, severity, actions, _, root_cause, services, _) := r in
  View.failure_verdict_ok detected failure_type severity actions root_cause services.
Proof.
  unfold predict. destruct (is_trained d); cbn [negb].
  - destruct (predict_body d X names) as [r'|e] eqn:Hbody; cbn [try_except].
    2:{ intros [= <-]. apply no_failure_verdict. }
    intros [= ->]. unfold predict_body in Hbody.
    destruct (rfc_predict_proba (classifier d) X) as [probas|e];
      cbn [mbind exc_bind] in Hbody; [|discriminate].
    destruct (index0 probas) as [proba|e]; cbn [mbind exc_bind] in Hbody; [|discriminate].
    destruct (rfc_predict (classifier d) X) as [predictions|e];
      cbn [mbind exc_bind] in Hbody; [|discriminate].
    destruct (index0 predictions) as [label|e]; cbn [mbind exc_bind] in Hbody;
      [|discriminate].
    destruct (label =? 1).
    + destruct (_identify_failure_type X names) as [t|e] eqn:Htype;
        cbn [mbind exc_bind] in Hbody; [|discriminate].
      destruct (_analyze_root_cause X names) as [cause|e];
        cbn [mbind exc_bind] in Hbody; [|discriminate].
      injection Hbody as <-.
      apply identified_verdict, (identify_failure_type_cases X names), Htype.
    + cbn [mbind exc_bind] in Hbody. injection Hbody as <-. apply no_failure_verdict.
  - unfold _heuristic_detection.
    destruct ((Np.size X =? 0)%nat || falsy names).
    { intros [= <-]. apply no_failure_verdict. }
    destruct (Np.row0 X) as [row|e]; cbn [mbind exc_bind]; [|discriminate].
    repeat match goal with
           | |- context [if ?c then Ok _ else _] => destruct c
           end; intros [= <-]; try apply no_failure_verdict;
      unfold View.failure_verdict_ok;
      (split; [eexists; split; [reflexivity|simpl; tauto]|]);
      (split; [eauto|]); (split; [discriminate|]); (split; [discriminate|]);
      (split; [nodup_enum|]); (split; [simpl; tauto|]);
      simpl; intuition discriminate.
Qed.

End Verdict.


(** *** The root cause and the failure type *)

(** X12. The root cause that [_analyze_root_cause] gives fits the type that
    [_identify_failure_type] gives for the same input: the causes are
    joined by " and "; for service_down the first of them is the high
    error rate, for connection_timeout the timeout errors are among
    them. *)
Theorem root_cause_explains_type (X : ndarray) (names : option (list string))
    (failure_type cause : string) :
  _identify_failure_type X names = Ok failure_type ->
  _analyze_root_cause X names = Ok cause ->
  failure_type = "service_down" \/ failure_type = "connection_timeout" ->
  exists causes,
    cause = Fmt.join " and " causes /\
    (failure_type = "service_down" ->
     exists percent, hd_error causes = Some ("High error rate (" +:+ percent +:+ ")")) /\
    (failure_type = "connection_timeout" -> In "Multiple timeout errors" causes).
Proof.
  unfold _identify_failure_type, _analyze_root_cause.
  destruct (falsy names || (Np.size X =? 0)%nat).
  { intros [= <-] _ [H|H]; discriminate. }
  destruct (Np.row0 X) as [row|e]; cbn [mbind exc_bind]; [|discriminate].
  set (fd := Dict.of_pairs (zip (names_or_empty names) row)).
  set (rate := Dict.get_default "error_rate" (of_Z 0) fd).
  set (timeouts := Dict.get_default "keyword_timeout" (of_Z 0) fd).
  set (tail := (if gtb timeouts (of_Z 5) then ["Multiple timeout errors"] else [])
               ++ (if gtb (Dict.get_default "keyword_connection" (of_Z 0) fd) (of_Z 5)
                   then ["Connection failures"] else [])).
  destruct (gtb rate (dec 3 1)) eqn:Hrate.
  - intros [= <-].
    assert (Hrate' : gtb rate (dec 2 1) = true).
    { unfold gtb in *. fold (ltb (dec 3 1) rate) in Hrate. fold (ltb (dec 2 1) rate).
      apply (leb_ltb_trans _ (dec 3 1)); [reflexivity|exact Hrate]. }
    rewrite Hrate'. cbn [app AnomalyDetector.nonempty]. intros [= <-] _.
    exists (("High error rate (" +:+ Fmt.percent2 rate +:+ ")") :: tail).
    split; [reflexivity|]. split; [|discriminate].
    intros _. eexists. reflexivity.
  - destruct (gtb timeouts (of_Z 5)) eqn:Htimeouts.
    + intros [= <-].
      assert (Hne : forall a b : list string,
                AnomalyDetector.nonempty (a ++ "Multiple timeout errors" :: b) = true)
        by (intros [|? ?] ?; reflexivity).
      subst tail. cbn [app]. rewrite Hne. intros [= <-] _.
      exists ((if gtb rate (dec 2 1)
               then ["High error rate (" +:+ Fmt.percent2 rate +:+ ")"] else [])
              ++ "Multiple timeout errors"
                 :: (if gtb (Dict.get_default "keyword_connection" (of_Z 0) fd) (of_Z 5)
                     then ["Connection failures"] else [])).
      split; [reflexivity|]. split; [discriminate|].
      intros _. apply in_or_app. right. left. reflexivity.
    + destruct (gtb (Dict.get_default "keyword_exception" (of_Z 0) fd) (of_Z 10));
        intros [= <-] _ [H|H]; discriminate.
Qed.

(** A row with an error rate of a half and twelve timeouts. *)
Lemma root_cause_explains_type_witness :
  exists causes,
    "High error rate (50.00%) and Multiple timeout errors" = Fmt.join " and " causes /\
    ("service_down" = "service_down" ->
     exists percent, hd_error causes = Some ("High error rate (" +:+ percent +:+ ")")) /\
    ("service_down" = "connection_timeout" -> In "Multiple timeout errors" causes).
Proof.
  apply (root_cause_explains_type (Arr2 [[dec 5 1; of_Z 12]])
           (Some ["error_rate"; "keyword_timeout"])).
  - reflexivity.
  - reflexivity.
  - left. reflexivity.
Defined.

End FailureDetectorMore.

(** ** The service and its endpoints *)

Module ServiceFacts.
Import F64 F64Facts.

Lemma heuristic_detection_shapes (X : ndarray) (names : option (list string))
    (r : FailureDetector.prediction) :
  FailureDetector._heuristic_detection X names = Ok r ->
  let '(detected, failure_type, severity, actions, confidence, _, services, _) := r in
  (detected = false /\ failure_type = None /\ severity = LOW
   /\ actions = [NO_ACTION] /\ confidence = of_Z 0 /\ services = []) \/
  (detected = true /\ failure_type = Some "high_error_rate" /\ severity = HIGH
   /\ actions = [RESTART_POD; ALERT_ADMIN] /\ confidence = dec 8 1
   /\ services = ["api-service"]) \/
  (detected = true /\ failure_type = Some "connection_timeout" /\ severity = MEDIUM
   /\ actions = [RESTART_POD] /\ confidence = dec 7 1
   /\ services = ["database"; "api-service"]).
Proof.
  unfold FailureDetector._heuristic_detection.
  destruct ((Np.size X =? 0)%nat || falsy names).
  { intros [= <-]. left. repeat split. }
  destruct (Np.row0 X) as [row|e]; cbn [mbind exc_bind]; [|discriminate].
  repeat match goal with
         | |- context [if ?c then Ok _ else _] => destruct c
         end; intros [= <-]; [right; left|right; right|left]; repeat split.
Qed.

Section Service.
Context {F E C : Type}
  `{!IsolationForest F, !EllipticEnvelope E, !RandomForestClassifier C, !Numpy}.
Context (settings : Settings).
Implicit Types (svc : ModelService.t F E C) (clock : Clock).

Lemma load_models_loaded svc (X : ndarray) :
  ModelService.models_loaded (ModelService.load_models svc X) = true /\
  ModelService.failure_detector (ModelService.load_models svc X)
  = ModelService.failure_detector svc.
Proof.
  unfold ModelService.load_models, AnomalyDetector.train.
  destruct (Np.shape0 X <? 10)%nat; split; reflexivity.
Qed.

(** X13. Whatever the state of the service, the request and the libraries,
    [detect_failure] answers, and the parts of its answer fit one
    another: without a failure the type and the root cause are absent,
    the severity is LOW, the only action is NO_ACTION and no service is
    named; with a failure a type among the five known ones, a root
    cause and services are given, the actions are a duplicate-free
    choice among RESTART_POD, ALERT_ADMIN and SCALE_UP, and a HIGH or
    CRITICAL severity comes with ALERT_ADMIN. *)
Theorem detect_failure_verdict svc clock (metrics : list MetricData)
    (logs : list LogData) :
  exists response,
    ModelService.detect_failure settings svc clock metrics logs = Ok response /\
    View.failure_verdict_ok (failure_detected response) (failure_type response)
      (failure_severity response) (recommended_actions response)
      (root_cause response) (affected_services response).
Proof.
  unfold ModelService.detect_failure.
  destruct (ModelService.detect_failure_body settings svc clock metrics logs)
    as [response|e] eqn:Hbody; cbn [try_except].
  2:{ eexists. split; [reflexivity|]. apply FailureDetectorMore.no_failure_verdict. }
  exists response. split; [reflexivity|].
  unfold ModelService.detect_failure_body in Hbody.
  destruct (DataPreprocessor.preprocess_metrics metrics) as [[metric_features metric_names]|e];
    cbn [mbind exc_bind] in Hbody; [|discriminate].
  destruct (DataPreprocessor.preprocess_logs clock logs
              (failure_detection_window settings)) as [log_features log_names].
  destruct (DataPreprocessor.combine_features metric_features log_features)
    as [features|e]; cbn [mbind exc_bind] in Hbody; [|discriminate].
  destruct (Np.size features =? 0)%nat.
  { injection Hbody as <-. apply FailureDetectorMore.no_failure_verdict. }
  destruct (FailureDetector.predict (ModelService.failure_detector svc) features
              (Some (metric_names ++ log_names))) as [r|e] eqn:Hpredict;
    cbn [mbind exc_bind] in Hbody; [|discriminate].
  apply FailureDetectorMore.predict_verdict in Hpredict.
  destruct r as [[[[[[[detected ftype] severity] actions] confidence] cause] services] details].
  injection Hbody as <-. exact Hpredict.
Qed.

(** X14. The two inference endpoints answer 503 exactly when the models are
    not loaded; otherwise they answer with the response of the service.
    They never answer 500: the service turns every error into a
    response of its own. *)
Theorem inference_status_codes svc clock
    (anomaly_request : InferenceRouter.AnomalyDetectionRequest)
    (failure_request : InferenceRouter.FailureDetectionRequest) :
  (if ModelService.models_loaded svc
   then (exists response,
           InferenceRouter.detect_anomaly svc anomaly_request = Response response /\
           ModelService.detect_anomaly svc (InferenceRouter.metrics anomaly_request)
           = Ok response)
        /\ (exists response,
              InferenceRouter.detect_failure settings svc clock failure_request
              = Response response /\
              ModelService.detect_failure settings svc clock
                (InferenceRouter.failure_metrics failure_request)
                (InferenceRouter.logs failure_request) = Ok response)
   else InferenceRouter.detect_anomaly svc anomaly_request
        = HTTPException 503 "Models not loaded. Service is initializing."
        /\ InferenceRouter.detect_failure settings svc clock failure_request
           = HTTPException 503 "Models not loaded. Service is initializing.") /\
  (forall detail,
     InferenceRouter.detect_anomaly svc anomaly_request <> HTTPException 500 detail /\
     InferenceRouter.detect_failure settings svc clock failure_request
     <> HTTPException 500 detail).
Proof.
  unfold InferenceRouter.detect_anomaly, InferenceRouter.detect_failure.
  destruct (ModelServiceFacts.try_except_returns
              (ModelService.detect_anomaly_body svc
                 (InferenceRouter.metrics anomaly_request))
              ModelService.anomaly_fallback) as [ra Ha].
  destruct (ModelServiceFacts.try_except_returns
              (ModelService.detect_failure_body settings svc clock
                 (InferenceRouter.failure_metrics failure_request)
                 (InferenceRouter.logs failure_request))
              ModelService.failure_fallback) as [rf Hf].
  change (ModelService.detect_anomaly svc (InferenceRouter.metrics anomaly_request)
          = Ok ra) in Ha.
  change (ModelService.detect_failure settings svc clock
            (InferenceRouter.failure_metrics failure_request)
            (InferenceRouter.logs failure_request) = Ok rf) in Hf.
  rewrite Ha, Hf.
  destruct (ModelService.models_loaded svc); cbn [negb].
  - split; [split; eauto|]. intros detail. split; discriminate.
  - split; [split; reflexivity|]. intros detail. split; discriminate.
Qed.

(** X15. Once the startup of the application has gone through, the
    endpoints never answer 503: [load_models] reports the models as
    loaded whatever the training did. It leaves the failure classifier
    untrained, so every answer of the failure endpoint is one of the
    three verdicts of the heuristic: no failure; high_error_rate with
    severity HIGH and confidence 0.8; connection_timeout with severity
    MEDIUM and confidence 0.7. *)
Theorem startup_serves_heuristics (init_db : exc unit) (X_train_anomaly : ndarray)
    svc :
  InferenceRouter.lifespan_startup settings init_db X_train_anomaly = Ok svc ->
  (forall request, exists response,
     InferenceRouter.detect_anomaly svc request = Response response) /\
  (forall clock request, exists response,
     InferenceRouter.detect_failure settings svc clock request = Response response /\
     ((failure_detected response = false /\ failure_type response = None
       /\ failure_severity response = LOW
       /\ recommended_actions response = [NO_ACTION]
       /\ failure_confidence response = of_Z 0
       /\ affected_services response = []) \/
      (failure_detected response = true
       /\ failure_type response = Some "high_error_rate"
       /\ failure_severity response = HIGH
       /\ recommended_actions response = [RESTART_POD; ALERT_ADMIN]
       /\ failure_confidence response = dec 8 1
       /\ affected_services response = ["api-service"]) \/
      (failure_detected response = true
       /\ failure_type response = Some "connection_timeout"
       /\ failure_severity response = MEDIUM
       /\ recommended_actions response = [RESTART_POD]
       /\ failure_confidence response = dec 7 1
       /\ affected_services response = ["database"; "api-service"]))).
Proof.
  unfold InferenceRouter.lifespan_startup.
  destruct init_db as [[]|e]; cbn [mbind exc_bind]; [|discriminate].
  intros [= <-].
  destruct (load_models_loaded (ModelService.init settings) X_train_anomaly)
    as [Hloaded Hfd].
  split.
  - intros request. unfold InferenceRouter.detect_anomaly. rewrite Hloaded. cbn [negb].
    destruct (ModelServiceFacts.try_except_returns
                (ModelService.detect_anomaly_body
                   (ModelService.load_models (ModelService.init settings) X_train_anomaly)
                   (InferenceRouter.metrics request))
                ModelService.anomaly_fallback) as [ra Ha].
    unfold ModelService.detect_anomaly. rewrite Ha. eauto.
  - intros clock request. unfold InferenceRouter.detect_failure.
    rewrite Hloaded. cbn [negb].
    unfold ModelService.detect_failure.
    destruct (ModelService.detect_failure_body settings _ clock _ _)
      as [response|e] eqn:Hbody; cbn [try_except].
    2:{ eexists. split; [reflexivity|]. left. repeat split. }
    exists response. split; [reflexivity|].
    unfold ModelService.detect_failure_body in Hbody.
    destruct (DataPreprocessor.preprocess_metrics (InferenceRouter.failure_metrics request))
      as [[metric_features metric_names]|e]; cbn [mbind exc_bind] in Hbody; [|discriminate].
    destruct (DataPreprocessor.preprocess_logs clock (InferenceRouter.logs request)
                (failure_detection_window settings)) as [log_features log_names].
    destruct (DataPreprocessor.combine_features metric_features log_features)
      as [features|e]; cbn [mbind exc_bind] in Hbody; [|discriminate].
    destruct (Np.size features =? 0)%nat.
    { injection Hbody as <-. left. repeat split. }
    rewrite Hfd in Hbody. unfold FailureDetector.predict in Hbody.
    cbn [ModelService.init ModelService.failure_detector FailureDetector.init
         FailureDetector.is_trained negb] in Hbody.
    destruct (FailureDetector._heuristic_detection features
                (Some (metric_names ++ log_names))) as [r|e] eqn:Hheuristic;
      cbn [mbind exc_bind] in Hbody; [|discriminate].
    apply heuristic_detection_shapes in Hheuristic.
    destruct r as [[[[[[[detected ftype] severity] actions] confidence] cause] services] details].
    injection Hbody as <-. exact Hheuristic.
Qed.

(** X16. What the answer of [detect_anomaly] says beyond the verdict of
    the detector. An answer that carries an "error" detail, and every
    answer of an untrained detector, is the default one: no anomaly,
    score 0, LOW, NO_ACTION, confidence 0. An answer that reports an
    anomaly comes from a trained detector on a non-empty request and
    carries no error. The affected metrics are either none or every
    metric type of the request, whatever the features that stand out;
    they are every type of the request whenever an anomaly is
    reported. *)
Theorem detect_anomaly_response svc (metrics : list MetricData) :
  let types : gset string :=
    list_to_set (map (fun m => metric_type_value (metric_type m)) metrics) in
  exists response,
    ModelService.detect_anomaly svc metrics = Ok response /\
    (Dict.mem "error" (details response) = true
     \/ AnomalyDetector.is_trained (ModelService.anomaly_detector svc) = false ->
     is_anomaly response = false /\ anomaly_score response = of_Z 0
     /\ severity response = LOW /\ recommended_action response = NO_ACTION
     /\ confidence response = of_Z 0) /\
    (is_anomaly response = true ->
     AnomalyDetector.is_trained (ModelService.anomaly_detector svc) = true
     /\ metrics <> [] /\ Dict.mem "error" (details response) = false
     /\ affected_metrics response = types) /\
    (affected_metrics response = ∅ \/ affected_metrics response = types).
Proof.
  cbv zeta. unfold ModelService.detect_anomaly.
  assert (Hfallback : forall e,
    let response := ModelService.anomaly_fallback e in
    (Dict.mem "error" (details response) = true
     \/ AnomalyDetector.is_trained (ModelService.anomaly_detector svc) = false ->
     is_anomaly response = false /\ anomaly_score response = of_Z 0
     /\ severity response = LOW /\ recommended_action response = NO_ACTION
     /\ confidence response = of_Z 0) /\
    (is_anomaly response = true ->
     AnomalyDetector.is_trained (ModelService.anomaly_detector svc) = true
     /\ metrics <> [] /\ Dict.mem "error" (details response) = false
     /\ affected_metrics response
        = list_to_set (map (fun m => metric_type_value (metric_type m)) metrics)) /\
    (affected_metrics response = ∅
     \/ affected_metrics response
        = list_to_set (map (fun m => metric_type_value (metric_type m)) metrics))).
  { intros e. cbn. split; [intros _; repeat split|]. split; [discriminate|].
    left. reflexivity. }
  destruct (ModelService.detect_anomaly_body svc metrics) as [response|e] eqn:Hbody;
    cbn [try_except].
  2:{ eexists. split; [reflexivity|]. apply Hfallback. }
  exists response. split; [reflexivity|].
  unfold ModelService.detect_anomaly_body in Hbody.
  destruct (DataPreprocessor.preprocess_metrics metrics)
    as [[features feature_names]|e] eqn:Hpre; cbn [mbind exc_bind] in Hbody;
    [|discriminate].
  destruct (Np.size features =? 0)%nat eqn:Hsize.
  { injection Hbody as <-. apply Hfallback. }
  assert (Hmetrics : metrics <> []).
  { intros ->. unfold DataPreprocessor.preprocess_metrics in Hpre.
    injection Hpre as <- <-. discriminate. }
  unfold AnomalyDetector.predict in Hbody.
  destruct (AnomalyDetector.is_trained (ModelService.anomaly_detector svc)) eqn:Htrained;
    cbn [negb mbind exc_bind AnomalyDetector.default_prediction] in Hbody.
  2:{ injection Hbody as <-. cbn. split; [intros _; repeat split|].
      split; [discriminate|]. right. reflexivity. }
  destruct (AnomalyDetector.predict_body _ features (Some feature_names))
    as [r|e] eqn:Hpredict;
    cbn [try_except mbind exc_bind AnomalyDetector.default_prediction] in Hbody.
  2:{ injection Hbody as <-. cbn. split; [intros _; repeat split|].
      split; [discriminate|]. right. reflexivity. }
  unfold AnomalyDetector.predict_body in Hpredict.
  destruct (iforest_predict _ features) as [labels|e];
    cbn [mbind exc_bind] in Hpredict; [|discriminate].
  destruct (index0 labels) as [iso_prediction|e]; cbn [mbind exc_bind] in Hpredict;
    [|discriminate].
  destruct (iforest_score_samples _ features) as [scores|e];
    cbn [mbind exc_bind] in Hpredict; [|discriminate].
  destruct (index0 scores) as [iso_score|e]; cbn [mbind exc_bind] in Hpredict;
    [|discriminate].
  destruct (AnomalyDetector._recommend_action _ features (Some feature_names))
    as [action|e]; cbn [mbind exc_bind] in Hpredict; [|discriminate].
  destruct (AnomalyDetector._get_affected_features features (Some feature_names))
    as [affected|e]; cbn [mbind exc_bind] in Hpredict; [|discriminate].
  injection Hpredict as <-. cbn [mbind exc_bind] in Hbody. injection Hbody as <-.
  cbn [details is_anomaly affected_metrics].
  split; [intros [Herr|Hun]; [vm_compute in Herr|]; discriminate|].
  split; [|right; reflexivity].
  intros _. repeat split. exact Hmetrics.
Qed.

End Service.

(** The application as it starts, on a training matrix too small to
    train on: the endpoints answer all the same. *)
Lemma startup_serves_heuristics_witness :
  let svc := @ModelService.load_models _ _ _ Ref.forest Ref.envelope
               (@ModelService.init _ _ _ Ref.forest Ref.envelope Ref.classifier
                  default_settings)
               (Arr2 [[of_Z 0; of_Z 1]]) in
  AnomalyDetector.is_trained (ModelService.anomaly_detector svc) = false /\
  forall request, exists response,
    @InferenceRouter.detect_anomaly _ _ _ Ref.forest Ref.numpy svc request
    = Response response.
Proof.
  split; [reflexivity|].
  apply (proj1 (@startup_serves_heuristics _ _ _ Ref.forest Ref.envelope Ref.classifier
                  Ref.numpy default_settings (Ok tt) (Arr2 [[of_Z 0; of_Z 1]]) _
                  eq_refl)).
Defined.

End ServiceFacts.

(** ** The features that [detect_failure] hands to the detector *)

Module CombinedFeatureFacts.
Import F64 DataPreprocessor.

Lemma ends_with_refl (s : string) : View.ends_with s s = true.
Proof. destruct s; cbn [View.ends_with]; rewrite String.eqb_refl; reflexivity. Qed.

Lemma ends_with_app (t s : string) : View.ends_with s (t +:+ s) = true.
Proof.
  induction t as [|c t IH]; [apply ends_with_refl|].
  change (String c t +:+ s) with (String c (t +:+ s)).
  cbn [View.ends_with]. rewrite IH. apply orb_true_r.
Qed.

Lemma stat_name_suffix (t k : string) :
  In k (View.stat_names t) ->
  existsb (fun s => View.ends_with s k) View.stat_suffixes = true.
Proof.
  change (View.stat_names t) with (map (fun stat => t +:+ stat) View.stat_suffixes).
  intros Hin. apply in_map_iff in Hin as (s & <- & Hs).
  apply existsb_exists. exists s. split; [exact Hs|apply ends_with_app].
Qed.

Lemma log_name_no_suffix (k : string) :
  In k View.log_feature_names ->
  existsb (fun s => View.ends_with s k) View.stat_suffixes = false.
Proof.
  intros Hin. unfold View.log_feature_names in Hin. simpl in Hin.
  repeat (destruct Hin as [<-|Hin]; [reflexivity|]). contradiction.
Qed.

Lemma set_fresh {V} (k : string) (v : V) (d : Dict.t V) :
  ~ In k (Dict.keys d) -> Dict.set k v d = d ++ [(k, v)].
Proof.
  induction d as [|[k' v'] d IH]; simpl; [reflexivity|].
  intros Hk. destruct (String.eqb_spec k' k) as [->|Hne]; [tauto|].
  rewrite IH by tauto. reflexivity.
Qed.

Lemma fold_set_fresh {V} (l : list (string * V)) (d : Dict.t V) :
  NoDup (Dict.keys d ++ map fst l) ->
  fold_left (fun d kv => Dict.set (fst kv) (snd kv) d) l d = d ++ l.
Proof.
  revert d. induction l as [|[k v] l IH]; intros d Hnd; simpl.
  - rewrite app_nil_r. reflexivity.
  - assert (Hk : ~ In k (Dict.keys d)).
    { intros Hin. apply NoDup_app in Hnd as (_ & Hdis & _).
      apply (Hdis k); [apply list_elem_of_In, Hin|left]. }
    rewrite (set_fresh k v d Hk).
    rewrite IH.
    + rewrite <- app_assoc. reflexivity.
    + unfold Dict.keys in *. rewrite map_app, <- app_assoc. exact Hnd.
Qed.

Lemma of_pairs_fresh {V} (l : list (string * V)) :
  NoDup (map fst l) -> Dict.of_pairs l = l.
Proof. intros Hnd. unfold Dict.of_pairs. rewrite fold_set_fresh; [reflexivity|exact Hnd]. Qed.

Lemma get_app {V} (k : string) (d1 d2 : Dict.t V) :
  Dict.get k (d1 ++ d2) =
  match Dict.get k d1 with Some v => Some v | None => Dict.get k d2 end.
Proof.
  induction d1 as [|[k' v'] d1 IH]; simpl; [reflexivity|].
  destruct (String.eqb k' k); [reflexivity|exact IH].
Qed.

Lemma zip_map_fst {A B} (g : A -> B) (l : list A) : map fst (zip l (map g l)) = l.
Proof. induction l as [|x l IH]; simpl; [reflexivity|]. rewrite IH. reflexivity. Qed.

(** Two extractor outputs, each empty or one row of values computed
    from its names, combine without an error to a row that goes with
    the concatenated names. *)
Lemma combine_named (gm gl : string -> float) (nm nl : list string)
    (fm fl : ndarray) :
  (nm = [] /\ fm = Arr1 []) \/ (nm <> [] /\ fm = Arr2 [map gm nm]) ->
  (nl = [] /\ fl = Arr1 []) \/ (nl <> [] /\ fl = Arr2 [map gl nl]) ->
  exists features,
    combine_features fm fl = Ok features /\
    Np.size features = length (nm ++ nl) /\
    (Np.size features = 0%nat <-> nm = [] /\ nl = []) /\
    (features = Arr1 [] \/ features = Arr2 [map gm nm ++ map gl nl]) /\
    (forall row, Np.row0 features = Ok row -> row = map gm nm ++ map gl nl).
Proof.
  intros [[-> ->]|[Hm ->]] [[-> ->]|[Hl ->]].
  - exists (Arr1 []). split; [reflexivity|]. split; [reflexivity|].
    split; [tauto|]. split; [left; reflexivity|discriminate].
  - destruct nl as [|n nl]; [contradiction|].
    eexists. split; [reflexivity|]. split; [|split; [|split]].
    + cbn. rewrite app_nil_r, length_map. reflexivity.
    + cbn. split; [discriminate|]. intros [_ H]. discriminate.
    + right. reflexivity.
    + intros row [= <-]. reflexivity.
  - destruct nm as [|n nm]; [contradiction|].
    eexists. split; [reflexivity|]. split; [|split; [|split]].
    + cbn. rewrite !app_nil_r, length_map. reflexivity.
    + cbn. split; [discriminate|]. intros [H _]. discriminate.
    + right. cbn. rewrite app_nil_r. reflexivity.
    + intros row [= <-]. cbn. rewrite app_nil_r. reflexivity.
  - destruct nm as [|n nm]; [contradiction|]. destruct nl as [|n' nl]; [contradiction|].
    eexists. split; [reflexivity|]. split; [|split; [|split]].
    + cbn. rewrite app_nil_r. rewrite !length_app. cbn. rewrite !length_map. reflexivity.
    + cbn. split; [discriminate|]. intros [H _]. discriminate.
    + right. reflexivity.
    + intros row [= <-]. reflexivity.
Qed.

Lemma lookup_named (gm gl : string -> float) (nm nl : list string) (k : string) :
  NoDup (nm ++ nl) ->
  Dict.get k (Spec.feature_vector (Some (nm ++ nl)) (map gm nm ++ map gl nl)) =
  match Dict.get k (zip nm (map gm nm)) with
  | Some v => Some v
  | None => Dict.get k (zip nl (map gl nl))
  end.
Proof.
  intros Hnd. unfold Spec.feature_vector. cbn [names_or_empty].
  rewrite DataPreprocessorFacts.zip_app by (rewrite length_map; reflexivity).
  rewrite of_pairs_fresh; [apply get_app|].
  rewrite map_app, !zip_map_fst. exact Hnd.
Qed.

Lemma foldl_set_keys_subset {V} (l : list (string * V)) (d : Dict.t V) (k : string) :
  In k (Dict.keys (foldl (fun d kv => Dict.set (fst kv) (snd kv) d) d l)) ->
  In k (Dict.keys d) \/ In k (map fst l).
Proof.
  revert d. induction l as [|[k' v] l IH]; intros d; simpl; [tauto|].
  intros Hin. apply IH in Hin as [Hin|Hin]; [|tauto].
  rewrite DictFacts.keys_set in Hin. destruct (Dict.mem k' d); [tauto|].
  apply in_app_or in Hin as [Hin|[<-|[]]]; tauto.
Qed.

Section Metrics.
Context `{!Numpy}.

Lemma features_fold_stat_names (df : DataFrame) (types : list string)
    (acc : exc (Dict.t float)) (features : Dict.t float) :
  foldl (fun acc metric_type =>
           features ← acc;
           values ← values_of (select_metric_type metric_type df);
           stats ← metric_features metric_type values;
           Ok (foldl (fun d kv => Dict.set (fst kv) (snd kv) d) features stats))
        acc types = Ok features ->
  exists d0, acc = Ok d0 /\
    forall k, In k (Dict.keys features) ->
              In k (Dict.keys d0) \/ exists t, In k (View.stat_names t).
Proof.
  revert acc. induction types as [|metric_type types IH]; intros acc; simpl.
  - intros ->. exists features. split; [reflexivity|tauto].
  - intros Hfold. apply IH in Hfold as (d1 & Hd1 & Hkeys).
    destruct acc as [d0|e]; simpl in Hd1; [|discriminate].
    destruct (values_of (select_metric_type metric_type df)) as [values|e];
      simpl in Hd1; [|discriminate].
    destruct (metric_features metric_type values) as [stats|e] eqn:Hstats;
      simpl in Hd1; [|discriminate].
    injection Hd1 as <-. exists d0. split; [reflexivity|].
    intros k Hk. apply Hkeys in Hk as [Hk|Hk]; [|tauto].
    apply foldl_set_keys_subset in Hk as [Hk|Hk]; [tauto|].
    right. exists metric_type.
    rewrite (MetricFeatureFacts.metric_features_length _ _ _ Hstats) in Hk. exact Hk.
Qed.

Lemma preprocess_metrics_to_row (metrics : list MetricData)
    (out : ndarray * list string) :
  preprocess_metrics metrics = Ok out ->
  (metrics = [] /\ out = (Arr1 [], [])) \/
  (metrics <> [] /\
   exists features, out = to_row features /\ NoDup (Dict.keys features) /\
                    features <> [] /\
                    forall k, In k (Dict.keys features) ->
                              exists t, In k (View.stat_names t)).
Proof.
  unfold preprocess_metrics. destruct metrics as [|m metrics].
  - intros [= <-]. left. split; reflexivity.
  - destruct (sort_values_timestamp (map record_of (m :: metrics))) as [df|e] eqn:Hdf;
      cbn [mbind exc_bind]; [|discriminate].
    destruct (unique_metric_types df) as [types|e] eqn:Htypes;
      cbn [mbind exc_bind]; [|discriminate].
    match goal with
    | |- context [foldl ?step (Ok []) types] =>
        destruct (foldl step (Ok []) types) as [features|e] eqn:Hfold
    end; cbn [mbind exc_bind]; [|discriminate].
    intros [= <-]. right. split; [discriminate|]. exists features.
    apply MetricFeatureFacts.sort_values_timestamp_length in Hdf.
    assert (Hdfne : df <> []) by (destruct df; [discriminate|discriminate]).
    pose proof (MetricFeatureFacts.unique_metric_types_nonempty _ _ Hdfne Htypes) as Htne.
    pose proof Hfold as Hfold'.
    apply MetricFeatureFacts.features_fold_keys in Hfold as (d0 & [= <-] & Hnd & Hne).
    apply features_fold_stat_names in Hfold' as (d0 & [= <-] & Hkeys).
    split; [reflexivity|]. split; [apply Hnd; constructor|].
    split; [apply Hne; left; exact Htne|].
    intros k Hk. apply Hkeys in Hk as [[]|Hk]. exact Hk.
Qed.

End Metrics.

Lemma to_row_named (features : Dict.t float) :
  to_row features =
  (Arr2 [map (fun k => F64.nan_to_num (Dict.get_default k (of_Z 0) features))
             (Str.sorted (Dict.keys features))],
   Str.sorted (Dict.keys features)).
Proof. unfold to_row, Np.reshape_row, Np.nan_to_num. rewrite map_map. reflexivity. Qed.

Lemma sorted_keys (features : Dict.t float) :
  NoDup (Dict.keys features) -> features <> [] ->
  NoDup (Str.sorted (Dict.keys features)) /\
  Str.sorted (Dict.keys features) <> [] /\
  forall k, In k (Str.sorted (Dict.keys features)) -> In k (Dict.keys features).
Proof.
  intros Hnd Hne.
  pose proof (SortFacts.sorted_by_perm String.leb (Dict.keys features)) as Hperm.
  fold (Str.sorted (Dict.keys features)) in Hperm.
  split; [rewrite Hperm; exact Hnd|]. split.
  - intros Hnil. rewrite Hnil in Hperm. apply Permutation_length in Hperm.
    destruct features; [contradiction|discriminate].
  - intros k Hk. apply list_elem_of_In. rewrite <- Hperm. apply list_elem_of_In, Hk.
Qed.


Section Combined.
Context `{!Numpy}.

Lemma metrics_named (metrics : list MetricData) (out : ndarray * list string) :
  preprocess_metrics metrics = Ok out ->
  exists g,
    ((snd out = [] /\ fst out = Arr1 []) \/
     (snd out <> [] /\ fst out = Arr2 [map g (snd out)])) /\
    NoDup (snd out) /\
    (snd out = [] <-> metrics = []) /\
    (forall k, In k (snd out) ->
               existsb (fun s => View.ends_with s k) View.stat_suffixes = true).
Proof.
  intros Hout.
  apply preprocess_metrics_to_row in Hout
    as [[-> ->]|(Hne & features & -> & Hnd & Hfne & Hstat)].
  - exists (fun _ => of_Z 0). split; [left; split; reflexivity|].
    split; [constructor|]. split; [tauto|]. intros k [].
  - destruct (sorted_keys features Hnd Hfne) as (Hnd' & Hne' & Hsub).
    rewrite to_row_named. cbn [fst snd]. eexists. split; [right; split; [exact Hne'|reflexivity]|].
    split; [exact Hnd'|]. split; [tauto|].
    intros k Hk. apply Hsub, Hstat in Hk as [t Hk]. exact (stat_name_suffix t k Hk).
Qed.

Lemma logs_named (clock : Clock) (logs : list LogData) (window_size : Z) :
  let out := preprocess_logs clock logs window_size in
  exists g,
    ((snd out = [] /\ fst out = Arr1 []) \/
     (snd out <> [] /\ fst out = Arr2 [map g (snd out)])) /\
    NoDup (snd out) /\
    (snd out = [] <-> Spec.recent clock window_size logs = []) /\
    (forall k, In k (snd out) -> In k View.log_feature_names).
Proof.
  cbv zeta. rewrite DataPreprocessorFacts.preprocess_logs_recent.
  destruct (Spec.recent clock window_size logs) as [|log recent_logs].
  - exists (fun _ => of_Z 0). split; [left; split; reflexivity|].
    split; [constructor|]. split; [tauto|]. intros k [].
  - assert (Hne : log :: recent_logs <> []) by discriminate.
    destruct (LogFeatureFacts.log_features_keys _ Hne) as [Hnd Hnames].
    rewrite to_row_named. cbn [fst snd]. rewrite Hnames.
    eexists. split; [right; split; [discriminate|reflexivity]|].
    split; [apply (bool_decide_unpack _); vm_compute; exact I|].
    split; [split; discriminate|]. tauto.
Qed.

Lemma combined_lookup (clock : Clock) (metrics : list MetricData)
    (logs : list LogData) (window_size : Z) (pm : ndarray * list string) :
  preprocess_metrics metrics = Ok pm ->
  let pl := preprocess_logs clock logs window_size in
  let names := snd pm ++ snd pl in
  exists features,
    combine_features (fst pm) (fst pl) = Ok features /\
    NoDup names /\
    Np.size features = length names /\
    (Np.size features = 0%nat
     <-> metrics = [] /\ Spec.recent clock window_size logs = []) /\
    (features = Arr1 [] \/ exists row, features = Arr2 [row]) /\
    forall row, Np.row0 features = Ok row ->
      forall k, Dict.get k (Spec.feature_vector (Some names) row)
                = View.feature_of_either pm pl k.
Proof.
  intros Hpm. cbv zeta.
  destruct (metrics_named metrics pm Hpm) as (gm & Hm & Hndm & Hem & Hsuffix).
  destruct (logs_named clock logs window_size) as (gl & Hl & Hndl & Hel & Hlog).
  destruct pm as [fm nm].
  destruct (preprocess_logs clock logs window_size) as [fl nl].
  cbn [fst snd] in *.
  destruct (combine_named gm gl nm nl fm fl Hm Hl)
    as (features & Hc & Hsize & Hzero & Hshape & Hrow).
  assert (Hnd : NoDup (nm ++ nl)).
  { apply NoDup_app. split; [exact Hndm|]. split; [|exact Hndl].
    intros k Hk Hk'. apply list_elem_of_In in Hk, Hk'.
    apply Hsuffix in Hk. apply Hlog, log_name_no_suffix in Hk'. congruence. }
  exists features. split; [exact Hc|]. split; [exact Hnd|]. split; [exact Hsize|].
  split; [rewrite Hzero, Hem, Hel; reflexivity|].
  split; [destruct Hshape as [->| ->]; eauto|].
  intros row Hr k. rewrite (Hrow row Hr), (lookup_named gm gl nm nl k Hnd).
  unfold View.feature_of_either.
  assert (Hfm : Spec.feature (fm, nm) k = Dict.get k (zip nm (map gm nm))).
  { destruct Hm as [[-> ->]|[_ ->]]; reflexivity. }
  assert (Hfl : Spec.feature (fl, nl) k = Dict.get k (zip nl (map gl nl))).
  { destruct Hl as [[-> ->]|[_ ->]]; reflexivity. }
  rewrite Hfm, Hfl. reflexivity.
Qed.

(** X17. In [detect_failure] the two extractor outputs always combine (no
    error is raised once the metrics are preprocessed), to an array of
    as many values as there are names in [metric_names + log_names];
    it is empty only without any metric and any recent log entry. No
    name occurs twice, so the dictionary that the detector builds from
    the names and the row loses no feature: under every name it holds
    the value that the metric extractor or the log extractor gave. *)
Theorem detect_failure_features_aligned (clock : Clock) (metrics : list MetricData)
    (logs : list LogData) (window_size : Z) (metric_features : ndarray)
    (metric_names : list string) :
  preprocess_metrics metrics = Ok (metric_features, metric_names) ->
  let log_out := preprocess_logs clock logs window_size in
  let feature_names := metric_names ++ snd log_out in
  exists features,
    combine_features metric_features (fst log_out) = Ok features /\
    NoDup feature_names /\
    Np.size features = length feature_names /\
    (Np.size features = 0%nat
     <-> metrics = [] /\ Spec.recent clock window_size logs = []) /\
    forall row, Np.row0 features = Ok row ->
      forall name, Dict.get name (Spec.feature_vector (Some feature_names) row)
                   = View.feature_of_either (metric_features, metric_names) log_out name.
Proof.
  intros Hpm.
  destruct (combined_lookup clock metrics logs window_size
              (metric_features, metric_names) Hpm)
    as (features & Hc & Hnd & Hsize & Hzero & _ & Hlookup).
  exists features. repeat split; try assumption; apply Hzero; assumption.
Qed.

End Combined.

(** One CPU sample and one recent error entry: seven and thirteen
    features, twenty names. *)
Lemma detect_failure_features_aligned_witness :
  let metrics := [ {| metric_type := CPU_USAGE; value := of_Z 75;
                      timestamp := 1000000000; labels := ∅ |} ] in
  let logs := [ {| log_timestamp := 1000000000; level := "error";
                   message := "Connection timeout"; service := "api" |} ] in
  let clock := {| utcnow := 1010000000 |} in
  exists metric_out features,
    @preprocess_metrics Ref.numpy metrics = Ok metric_out /\
    combine_features (fst metric_out) (fst (preprocess_logs clock logs 300))
    = Ok features /\
    Np.size features = 20%nat.
Proof.
  intros metrics logs clock.
  destruct (@preprocess_metrics Ref.numpy metrics) as [[metric_features metric_names]|e]
    eqn:Hpm; [|vm_compute in Hpm; discriminate Hpm].
  destruct (@detect_failure_features_aligned Ref.numpy clock metrics logs 300
              metric_features metric_names Hpm) as (features & Hc & _ & Hsize & _).
  exists (metric_features, metric_names), features.
  split; [reflexivity|]. split; [exact Hc|].
  rewrite Hsize. vm_compute in Hpm. injection Hpm as _ <-. reflexivity.
Defined.

End CombinedFeatureFacts.

(** ** From the request to the verdict of the heuristic *)

Module HeuristicFacts.
Import F64 F64Facts DataPreprocessor.


Section Heuristic.
Context {F E C : Type}
  `{!IsolationForest F, !EllipticEnvelope E, !RandomForestClassifier C, !Numpy}.
Context (settings : Settings).
Implicit Types (svc : ModelService.t F E C) (clock : Clock).



End Heuristic.

End HeuristicFacts.

(** ** The statistics of a metric type *)

Module MetricStatFacts.
Import F64 DataPreprocessor.

Lemma record_of_value (m : MetricData) :
  labels m !! "value" = None ->
  record_of m !! "value" = Some (CFloat (value m)).
Proof.
  intros Hv. unfold record_of.
  rewrite lookup_union, lookup_fmap, Hv. reflexivity.
Qed.

Lemma select_samples (t : string) (l : list MetricData) :
  Forall (fun m => labels m !! "metric_type" = None) l ->
  select_metric_type t (map record_of l) =
  map record_of
      (List.filter (fun m => String.eqb (metric_type_value (metric_type m)) t) l).
Proof.
  unfold select_metric_type.
  induction 1 as [|m l Hm Hl IH]; [reflexivity|]. cbn [map List.filter].
  rewrite (MetricFeatureFacts.record_of_metric_type m Hm), IH.
  destruct (String.eqb (metric_type_value (metric_type m)) t); reflexivity.
Qed.

Lemma values_of_samples (l : list MetricData) :
  Forall (fun m => labels m !! "value" = None) l ->
  values_of (map record_of l) = Ok (map value l).
Proof.
  intros Hl. unfold values_of, column.
  assert (Hcells : mapM (fun r : gmap string cell =>
                           match r !! "value" with
                           | Some c => Ok c
                           | None => Raise "value"
                           end) (map record_of l)
                   = Ok (map (fun m => CFloat (value m)) l)).
  { induction Hl as [|m l Hm Hl IH]; simpl; [reflexivity|].
    rewrite (record_of_value m Hm), IH. reflexivity. }
  rewrite Hcells. cbn [mbind exc_bind].
  clear. induction l as [|m l IH]; simpl; [reflexivity|]. rewrite IH. reflexivity.
Qed.

Lemma foldl_set_get_other {V} (l : list (string * V)) (d : Dict.t V) (k : string) :
  ~ In k (map fst l) ->
  Dict.get k (foldl (fun d kv => Dict.set (fst kv) (snd kv) d) d l) = Dict.get k d.
Proof.
  revert d. induction l as [|[k' v'] l IH]; intros d Hk; simpl; [reflexivity|].
  simpl in Hk. rewrite IH by tauto. rewrite DictFacts.get_set.
  destruct (String.eqb_spec k' k); [tauto|reflexivity].
Qed.

Lemma foldl_set_get {V} (l : list (string * V)) (d : Dict.t V) (k : string) (v : V) :
  NoDup (map fst l) -> In (k, v) l ->
  Dict.get k (foldl (fun d kv => Dict.set (fst kv) (snd kv) d) d l) = Some v.
Proof.
  revert d. induction l as [|[k' v'] l IH]; intros d Hnd Hin; simpl; [contradiction|].
  simpl in Hnd. apply NoDup_cons in Hnd as [Hk' Hnd].
  destruct Hin as [[= -> ->]|Hin].
  - rewrite foldl_set_get_other by (intros Hin; apply Hk', list_elem_of_In, Hin).
    rewrite DictFacts.get_set, String.eqb_refl. reflexivity.
  - apply IH; assumption.
Qed.

Section Statistics.
Context `{!Numpy}.

Lemma fold_types_get_other (df : DataFrame) (types : list string)
    (acc : exc (Dict.t float)) (features : Dict.t float) (k : string) :
  foldl (fun acc metric_type =>
           features ← acc;
           values ← values_of (select_metric_type metric_type df);
           stats ← metric_features metric_type values;
           Ok (foldl (fun d kv => Dict.set (fst kv) (snd kv) d) features stats))
        acc types = Ok features ->
  (forall t, In t types -> ~ In k (View.stat_names t)) ->
  exists d0, acc = Ok d0 /\ Dict.get k features = Dict.get k d0.
Proof.
  revert acc. induction types as [|t types IH]; intros acc; simpl.
  - intros -> _. eauto.
  - intros Hfold Hk. apply IH in Hfold as (d1 & Hd1 & Hget); [|intros; apply Hk; tauto].
    destruct acc as [d0|e]; simpl in Hd1; [|discriminate].
    destruct (values_of (select_metric_type t df)) as [values|e];
      simpl in Hd1; [|discriminate].
    destruct (metric_features t values) as [stats|e] eqn:Hstats;
      simpl in Hd1; [|discriminate].
    injection Hd1 as <-. exists d0. split; [reflexivity|].
    rewrite Hget. apply foldl_set_get_other.
    rewrite (MetricFeatureFacts.metric_features_length _ _ _ Hstats).
    apply Hk. left. reflexivity.
Qed.

Lemma fold_types_get (df : DataFrame) (types : list string)
    (acc : exc (Dict.t float)) (features : Dict.t float) (t : string) :
  NoDup types -> Forall (fun t => In t View.metric_type_names) types ->
  foldl (fun acc metric_type =>
           features ← acc;
           values ← values_of (select_metric_type metric_type df);
           stats ← metric_features metric_type values;
           Ok (foldl (fun d kv => Dict.set (fst kv) (snd kv) d) features stats))
        acc types = Ok features ->
  In t types ->
  exists values stats,
    values_of (select_metric_type t df) = Ok values /\
    metric_features t values = Ok stats /\
    forall k v, In (k, v) stats -> Dict.get k features = Some v.
Proof.
  revert acc. induction types as [|t0 types IH]; intros acc Hnd Hall; simpl;
    [intros _ []|].
  apply NoDup_cons in Hnd as [Ht0 Hnd]. apply Forall_cons in Hall as [Hin0 Hall].
  intros Hfold [->|Hin].
  - apply fold_types_get_other with (k := "") in Hfold as Hacc.
    2:{ intros t' _ Hk. unfold View.stat_names in Hk. simpl in Hk.
        repeat (destruct Hk as [Hk|Hk];
                [destruct t'; discriminate Hk|]). contradiction. }
    destruct Hacc as (d1 & Hd1 & _).
    destruct acc as [d0|e]; simpl in Hd1; [|discriminate].
    destruct (values_of (select_metric_type t df)) as [values|e];
      simpl in Hd1; [|discriminate].
    destruct (metric_features t values) as [stats|e] eqn:Hstats;
      simpl in Hd1; [|discriminate].
    exists values, stats. split; [reflexivity|]. split; [exact Hstats|].
    intros k v Hkv. simpl in Hfold.
    pose proof (MetricFeatureFacts.metric_features_length _ _ _ Hstats) as Hnames.
    apply fold_types_get_other with (k := k) in Hfold as (d1' & Hd1' & Hget).
    + cbn [mbind exc_bind] in Hd1'. rewrite ?Hstats in Hd1'.
      cbn [mbind exc_bind] in Hd1'. injection Hd1' as <-.
      rewrite Hget. apply foldl_set_get; [|exact Hkv].
      rewrite Hnames. apply MetricFeatureFacts.stat_names_NoDup, Hin0.
    + intros t' Ht' Hk.
      assert (Hkt : In k (View.stat_names t)).
      { rewrite <- Hnames. apply (in_map fst) in Hkv. exact Hkv. }
      rewrite Forall_forall in Hall.
      assert (Heq : t = t').
      { apply (MetricFeatureFacts.stat_names_apart t t' k); auto.
        apply Hall, list_elem_of_In, Ht'. }
      subst t'. apply Ht0, list_elem_of_In, Ht'.
  - apply (IH _ Hnd Hall Hfold Hin).
Qed.

(** X19. The seven features of a metric type, for a batch whose labels
    leave the three columns of the table alone and whose timestamps
    differ: each statistic is taken over the values of the samples of
    that type in the order of their timestamps, with NaN and the
    infinities replaced. The rate of change is the last value minus
    the first, divided by the number of values (not by the time
    between them), and 0 for a single value; the trend is the slope of
    the fitted line for three values or more, and 0 below. *)
Theorem metric_statistics (metrics : list MetricData) (out : ndarray * list string)
    (m : MetricData) :
  Forall Spec.labels_apart metrics ->
  NoDup (timestamp <$> metrics) ->
  preprocess_metrics metrics = Ok out ->
  In m metrics ->
  let t := metric_type_value (metric_type m) in
  let values :=
    map value
        (List.filter (fun m' => String.eqb (metric_type_value (metric_type m')) t)
           (Str.sorted_by (fun a b => timestamp a <=? timestamp b) metrics)) in
  let n := length values in
  Spec.feature out (t +:+ "_mean") = Some (F64.nan_to_num (np_mean values)) /\
  Spec.feature out (t +:+ "_std") = Some (F64.nan_to_num (np_std values)) /\
  Spec.feature out (t +:+ "_min") = Some (F64.nan_to_num (np_min values)) /\
  Spec.feature out (t +:+ "_max") = Some (F64.nan_to_num (np_max values)) /\
  Spec.feature out (t +:+ "_median") = Some (F64.nan_to_num (np_median values)) /\
  Spec.feature out (t +:+ "_rate_of_change")
  = Some (F64.nan_to_num
            (if (1 <? n)%nat
             then div (sub (List.last values (of_Z 0)) (hd (of_Z 0) values)) (of_nat n)
             else of_Z 0)) /\
  exists trend,
    (if (2 <? n)%nat then np_polyfit_slope values else Ok (of_Z 0)) = Ok trend /\
    Spec.feature out (t +:+ "_trend") = Some (F64.nan_to_num trend).
Proof.
  intros Hlabels _ Hout Hm. cbv zeta.
  set (sorted := Str.sorted_by (fun a b => timestamp a <=? timestamp b) metrics).
  assert (Hperm : sorted ≡ₚ metrics) by apply SortFacts.sorted_by_perm.
  assert (Hts : Forall (fun m => labels m !! "timestamp" = None) metrics).
  { eapply Forall_impl; [exact Hlabels|]. intros x Hx. apply Hx. }
  assert (Hsorted : Forall Spec.labels_apart sorted) by (rewrite Hperm; exact Hlabels).
  assert (Htype : Forall (fun m => labels m !! "metric_type" = None) sorted).
  { eapply Forall_impl; [exact Hsorted|]. intros x Hx. apply Hx. }
  assert (Hvalue : Forall (fun m => labels m !! "value" = None) sorted).
  { eapply Forall_impl; [exact Hsorted|]. intros x Hx. apply Hx. }
  unfold preprocess_metrics in Hout. destruct metrics as [|m0 metrics]; [contradiction|].
  rewrite (MetricFeatureFacts.sort_values_timestamp_samples _ Hts) in Hout.
  fold sorted in Hout. cbn [mbind exc_bind] in Hout.
  rewrite (MetricFeatureFacts.unique_metric_types_samples sorted Htype) in Hout.
  cbn [mbind exc_bind] in Hout.
  set (types := dedup_strings [] (map (fun m => metric_type_value (metric_type m)) sorted))
    in Hout.
  match type of Hout with
  | context [foldl ?step (Ok []) types] =>
      destruct (foldl step (Ok []) types) as [features|e] eqn:Hfold
  end; cbn [mbind exc_bind] in Hout; [|discriminate].
  injection Hout as <-.
  destruct (MetricFeatureFacts.dedup_strings_spec
              (map (fun m => metric_type_value (metric_type m)) sorted) [])
    as [Hnd Hin].
  fold types in Hnd, Hin.
  assert (Hall : Forall (fun t => In t View.metric_type_names) types).
  { apply Forall_forall. intros t Ht. apply Hin in Ht as [Ht _].
    apply list_elem_of_In, in_map_iff in Ht as (x & <- & _).
    destruct (metric_type x); simpl; tauto. }
  assert (Ht : In (metric_type_value (metric_type m)) types).
  { apply list_elem_of_In, Hin. split; [|apply not_elem_of_nil].
    apply list_elem_of_In, in_map_iff. exists m. split; [reflexivity|].
    apply list_elem_of_In. rewrite Hperm. apply list_elem_of_In, Hm. }
  destruct (fold_types_get _ types _ features _ Hnd Hall Hfold Ht)
    as (values & stats & Hvalues & Hstats & Hget).
  rewrite (select_samples _ sorted Htype) in Hvalues.
  rewrite values_of_samples in Hvalues.
  2:{ apply Forall_forall. intros x Hx. rewrite Forall_forall in Hvalue.
      apply Hvalue. apply list_elem_of_In, filter_In in Hx as [Hx _].
      apply list_elem_of_In, Hx. }
  injection Hvalues as <-.
  unfold metric_features in Hstats. cbv zeta in Hstats.
  match type of Hstats with
  | context [if ?c then np_polyfit_slope ?vs else _] =>
      destruct (if c then np_polyfit_slope vs else Ok (of_Z 0)) as [trend|e] eqn:Htrend
  end; cbn [mbind exc_bind] in Hstats; [|discriminate].
  injection Hstats as <-.
  rewrite !FeatureVectorFacts.feature_to_row.
  do 6 (split; [erewrite Hget; [reflexivity|simpl; tauto]|]).
  exists trend. split; [reflexivity|].
  erewrite Hget; [reflexivity|simpl; tauto].
Qed.

End Statistics.

(** Three CPU samples given out of order, and a memory sample. *)
Lemma metric_statistics_witness :
  let sample t v ts := {| metric_type := t; value := of_Z v; timestamp := ts;
                          labels := {[ "pod" := "api-1" ]} |} in
  let metrics := [sample CPU_USAGE 90 1020000000; sample MEMORY_USAGE 40 1005000000;
                  sample CPU_USAGE 70 1000000000; sample CPU_USAGE 80 1010000000] in
  exists out,
    @preprocess_metrics Ref.numpy metrics = Ok out /\
    Spec.feature out "cpu_usage_mean" = Some (of_Z 80) /\
    Spec.feature out "cpu_usage_min" = Some (of_Z 70) /\
    Spec.feature out "cpu_usage_max" = Some (of_Z 90) /\
    Spec.feature out "cpu_usage_rate_of_change" = Some (div (of_Z 20) (of_Z 3)).
Proof.
  intros sample metrics.
  destruct (@preprocess_metrics Ref.numpy metrics) as [out|e] eqn:Hout;
    [|vm_compute in Hout; discriminate Hout].
  exists out. split; [reflexivity|].
  assert (Hlabels : Forall Spec.labels_apart metrics).
  { repeat constructor. }
  assert (Hnd : NoDup (timestamp <$> metrics)).
  { apply (bool_decide_unpack _). vm_compute. exact I. }
  destruct (@metric_statistics Ref.numpy metrics out (sample CPU_USAGE 90 1020000000)
              Hlabels Hnd Hout (or_introl eq_refl))
    as (Hmean & _ & Hmin & Hmax & _ & Hrate & _).
  split; [refine (eq_trans Hmean _); vm_compute; reflexivity|].
  split; [refine (eq_trans Hmin _); vm_compute; reflexivity|].
  split; [refine (eq_trans Hmax _); vm_compute; reflexivity|].
  refine (eq_trans Hrate _). vm_compute. reflexivity.
Defined.

End MetricStatFacts.

(** ** Bounds on the counters of the log extractor *)

Module LogCounterFacts.
Import DataPreprocessor.

Lemma filter_length_le {A} (p : A -> bool) (l : list A) :
  (length (List.filter p l) <= length l)%nat.
Proof. induction l as [|x l IH]; simpl; [lia|]. destruct (p x); simpl; lia. Qed.

Lemma level_entries_sum (logs : list LogData) :
  (View.level_entries "error" logs + View.level_entries "warn" logs
   + View.level_entries "info" logs <= length logs)%nat.
Proof.
  unfold View.level_entries. induction logs as [|log logs IH]; simpl; [lia|].
  destruct (String.eqb_spec (Str.lower (level log)) "error") as [->|Herror];
    [simpl; lia|].
  destruct (String.eqb_spec (Str.lower (level log)) "warn") as [->|Hwarn];
    [simpl; lia|].
  destruct (String.eqb (Str.lower (level log)) "info"); simpl; lia.
Qed.

Lemma keyword_entries_le (keyword : string) (logs : list LogData) :
  (Spec.keyword_entries keyword logs <= View.level_entries "error" logs)%nat.
Proof.
  unfold Spec.keyword_entries, View.level_entries, Spec.is_error.
  induction logs as [|log logs IH]; simpl; [lia|].
  destruct (String.eqb (Str.lower (level log)) "error"); simpl; [|exact IH].
  destruct (Str.contains keyword (Str.lower (message log))); simpl; lia.
Qed.

Lemma size_list_to_set_le (l : list string) :
  (size (list_to_set l : gset string) <= length l)%nat.
Proof.
  induction l as [|x l IH].
  - rewrite list_to_set_nil, size_empty. simpl. lia.
  - rewrite list_to_set_cons, size_union_alt, size_singleton. cbn [length].
    pose proof (subseteq_size (list_to_set l ∖ {[x]}) (list_to_set l : gset string)) as Hle.
    assert (Hsub : list_to_set l ∖ {[x]} ⊆ (list_to_set l : gset string)).
    { intros y Hy. apply elem_of_difference in Hy as [Hy _]. exact Hy. }
    specialize (Hle Hsub). lia.
Qed.

(** X20. The counters that [preprocess_logs] keeps over the entries inside
    the window stay within one another: the entries counted as error,
    warn and info are no more than all entries together; no keyword
    counter exceeds the error counter; the number of services and the
    largest number of entries of one service (of any level, despite
    the name [max_service_errors]) are at most the number of entries,
    and at least 1 as soon as there is an entry. *)
Theorem log_counters_bounded (recent_logs : list LogData) :
  let level_counts := count_levels recent_logs in
  let error_count := default 0%nat (level_counts !! "error") in
  let service_counts := count_services recent_logs in
  (error_count + default 0 (level_counts !! "warn")
   + default 0 (level_counts !! "info") <= length recent_logs)%nat /\
  (forall keyword n,
     Dict.get keyword (count_keywords recent_logs) = Some n -> (n <= error_count)%nat) /\
  (size service_counts <= length recent_logs)%nat /\
  (max_count service_counts <= length recent_logs)%nat /\
  (recent_logs <> [] ->
   (1 <= size service_counts)%nat /\ (1 <= max_count service_counts)%nat).
Proof.
  cbv zeta. rewrite !LogFeatureFacts.count_levels_entries.
  split; [apply level_entries_sum|]. split; [|split; [|split]].
  - intros keyword n Hget.
    assert (Hin : In keyword error_keywords).
    { rewrite <- (DataPreprocessorFacts.count_keywords_dict_keys recent_logs).
      apply DictFacts.mem_keys. unfold Dict.mem. rewrite Hget. reflexivity. }
    pose proof (DataPreprocessorFacts.count_keywords_entries recent_logs keyword Hin)
      as Hentries.
    unfold Dict.get_default in Hentries. rewrite Hget in Hentries. subst n.
    apply keyword_entries_le.
  - rewrite LogFeatureFacts.count_services_size.
    etransitivity; [apply size_list_to_set_le|]. rewrite length_fmap. lia.
  - destruct (LogFeatureFacts.max_count_spec (count_services recent_logs))
      as [_ [[_ ->]|[k Hk]]]; [lia|].
    pose proof (LogFeatureFacts.count_services_entries k recent_logs) as Hentries.
    rewrite Hk in Hentries. simpl in Hentries. rewrite Hentries.
    apply filter_length_le.
  - intros Hne. destruct recent_logs as [|log logs]; [contradiction|].
    pose proof (LogFeatureFacts.count_services_entries (service log) (log :: logs))
      as Hentries.
    unfold View.service_entries in Hentries. simpl in Hentries.
    rewrite String.eqb_refl in Hentries. simpl in Hentries.
    destruct (count_services (log :: logs) !! service log) as [n|] eqn:Hn;
      simpl in Hentries; [|discriminate].
    split.
    + pose proof (map_size_ne_0_lookup_2 (count_services (log :: logs)) (service log)
                    (ex_intro _ n Hn)). lia.
    + destruct (LogFeatureFacts.max_count_spec (count_services (log :: logs)))
        as [Hmax _].
      specialize (Hmax _ _ Hn). lia.
Qed.

End LogCounterFacts.

(** ** Log entries as a request carries them *)

Module TzFacts.
Import F64 F64Facts.








Section Service.
Context {F E C : Type}
  `{!IsolationForest F, !EllipticEnvelope E, !RandomForestClassifier C, !Numpy}.
Context (settings : Settings).
Implicit Types (svc : ModelService.t F E C) (clock : Clock).




End Service.


End TzFacts.
